(** * FocusGuard: block registry, unblock throttle and schedule engine

    A shallow embedding of the FocusGuard library modules
    ([domain-utils.js], [validation.js], [time-utils.js], [storage.js],
    [block-manager.js], [unblock-manager.js], [schedule-manager.js],
    [stats-manager.js], [constants.js], [errors.js]) and the properties of
    its block / unblock state machine, its schedules and its statistics.

    Conventions of the embedding.
    - JavaScript strings are [string]s of ASCII characters; case mapping and
      white space are the ASCII ones.
    - Numbers that the code uses as integers (epoch milliseconds, minutes,
      counters) are [Z].
    - A plain object used as a map is an insertion-ordered association list
      ([JsObj.t]): [Object.entries] and [for ... of] visit keys in insertion
      order, and [getBlockInfo] returns the first parent it meets.  A read
      [obj[key]] with a domain for key also finds the members that every
      object inherits from [Object.prototype] ([JsObj.lookup]); where the
      code goes on to use such a member as a number, the outcome is
      [Unmodelled].  The keys of the daily counters carry a date and are
      looked up among the own entries.
    - An [async] function is a state-and-exception computation over the
      [World] (the two storage namespaces, the alarm table and the number of
      clock reads made so far); a [throw] keeps the writes made before it.
      In these computations one caller runs at a time, so the lock table of
      [withLock] is empty at every call (the wait loop and its timeout are
      not entered), and the storage driver does not fail.
    - [withLock] under callers that take turns at their [await]s is the
      scheduler of [Locking]: the lock table, the invocations and the turns
      the event loop gives them.
    - The browser is a [Platform]: the URL parser, the wall clock (one value
      per read) and the [Date] formatting functions; its day arithmetic
      ([Date.prototype.setDate]) is a [Calendar].
    - The stored schedules and the rest of the statistics are in the
      [Store], which extends the [World]; the managers that use them are
      computations over the [Store].
    - Not embedded: the tab and messaging layer ([getBlockPageUrl],
      [redirectBlockedTabs], [addAndRedirect], [messaging.js],
      [background.js]), the display formatters of [time-utils.js], and the
      schedule operations [add] and [update], whose ids come from
      [Math.random] and whose updates are arbitrary objects. *)

From Stdlib Require Import ZArith List String Ascii Bool Lia.
From Stdlib Require Import Permutation Sorted.
Import ListNotations.

Local Open Scope string_scope.
Local Open Scope Z_scope.

(** ** JavaScript string primitives (ASCII) *)

Module JsString.

Definition lowerChar (c : ascii) : ascii :=
  let n := nat_of_ascii c in
  if ((65 <=? n) && (n <=? 90))%nat then ascii_of_nat (n + 32) else c.

(** [String.prototype.toLowerCase] *)
Fixpoint toLowerCase (s : string) : string :=
  match s with
  | EmptyString => EmptyString
  | String c s' => String (lowerChar c) (toLowerCase s')
  end.

(** [String.prototype.startsWith] *)
Definition startsWith (s p : string) : bool := String.prefix p s.

(** [String.prototype.endsWith] *)
Fixpoint endsWith (s suffix : string) : bool :=
  if String.eqb s suffix then true
  else match s with
       | EmptyString => false
       | String _ s' => endsWith s' suffix
       end.

(** [String.prototype.includes] *)
Fixpoint includes (s sub : string) : bool :=
  if String.prefix sub s then true
  else match s with
       | EmptyString => false
       | String _ s' => includes s' sub
       end.

Definition isWhiteSpace (c : ascii) : bool :=
  let n := nat_of_ascii c in
  ((n =? 32) || ((9 <=? n) && (n <=? 13)))%nat.

Fixpoint trimStart (s : string) : string :=
  match s with
  | EmptyString => EmptyString
  | String c s' => if isWhiteSpace c then trimStart s' else s
  end.

Fixpoint trimEnd (s : string) : string :=
  match s with
  | EmptyString => EmptyString
  | String c s' =>
      let t := trimEnd s' in
      if isWhiteSpace c && String.eqb t "" then "" else String c t
  end.

(** [String.prototype.trim] *)
Definition trim (s : string) : string := trimEnd (trimStart s).

Definition isDigit (c : ascii) : bool :=
  let n := nat_of_ascii c in ((48 <=? n) && (n <=? 57))%nat.

Definition digitValue (c : ascii) : Z := Z.of_nat (nat_of_ascii c) - 48.

(** [s.split(sep)] for a one-character separator. *)
Fixpoint split (sep : ascii) (s : string) : list string :=
  match s with
  | EmptyString => [EmptyString]
  | String c s' =>
      if Ascii.eqb c sep then EmptyString :: split sep s'
      else match split sep s' with
           | [] => [String c EmptyString]
           | h :: t => String c h :: t
           end
  end.

(** [s.slice(0, n)] for [0 <= n]. *)
Definition slice0 (n : nat) (s : string) : string := String.substring 0 n s.

(** The string does not change under [toLowerCase]. *)
Definition isLowerCase (s : string) : Prop := toLowerCase s = s.

End JsString.

(** ** Plain objects used as maps *)

Module JsObj.

Definition t (V : Type) : Type := list (string * V).

(** The property names that every plain object inherits from
    [Object.prototype]. *)
Definition protoKeys : list string :=
  ["constructor"; "__defineGetter__"; "__defineSetter__"; "hasOwnProperty";
   "__lookupGetter__"; "__lookupSetter__"; "isPrototypeOf";
   "propertyIsEnumerable"; "toString"; "valueOf"; "__proto__";
   "toLocaleString"].

(** [k] names a member of [Object.prototype]. *)
Definition inherited (k : string) : bool := existsb (String.eqb k) protoKeys.

(** What the read [o[k]] finds: an entry of [o] itself, else, for a member
    name of [Object.prototype], that member (a function, or the prototype
    object for [__proto__]: truthy, and without any field of an entry),
    else [undefined]. *)
Inductive Lookup (V : Type) : Type :=
| Own (v : V)
| Inherited
| Undefined.
Arguments Own {V} v.
Arguments Inherited {V}.
Arguments Undefined {V}.

Section Ops.
Context {V : Type}.

Definition empty : t V := [].

(** The own entry of [o] under [k], if there is one: what [o[k]] reads
    when [k] is no member name of [Object.prototype] (see [lookup]). *)
Fixpoint get (o : t V) (k : string) : option V :=
  match o with
  | [] => None
  | (k', v) :: o' => if String.eqb k' k then Some v else get o' k
  end.

(** [o[k] = v]: an existing key keeps its place, a new key goes last.
    In JavaScript an assignment under the key [__proto__] sets the
    prototype of the object instead of making an entry, and what is stored
    then depends on the storage driver; here that key is stored like any
    other. *)
Fixpoint set (o : t V) (k : string) (v : V) : t V :=
  match o with
  | [] => [(k, v)]
  | (k', v') :: o' =>
      if String.eqb k' k then (k, v) :: o' else (k', v') :: set o' k v
  end.

(** [delete o[k]] *)
Fixpoint delete (o : t V) (k : string) : t V :=
  match o with
  | [] => []
  | (k', v') :: o' =>
      if String.eqb k' k then delete o' k else (k', v') :: delete o' k
  end.

(** [Object.keys(o)] *)
Definition keys (o : t V) : list string := map fst o.

(** [Object.entries(o)] *)
Definition entries (o : t V) : list (string * V) := o.

(** [o] has an entry of its own under [k]. *)
Definition has (o : t V) (k : string) : bool :=
  match get o k with Some _ => true | None => false end.

(** [o[k]] *)
Definition lookup (o : t V) (k : string) : Lookup V :=
  match get o k with
  | Some v => Own v
  | None => if inherited k then Inherited else Undefined
  end.

(** The test [if (o[k])] on an object whose entries are objects. *)
Definition truthy (o : t V) (k : string) : bool :=
  match lookup o k with
  | Undefined => false
  | _ => true
  end.


(** Representation invariant: an object holds a key once. *)
Fixpoint wfb (o : t V) : bool :=
  match o with
  | [] => true
  | (k, _) :: o' => negb (existsb (String.eqb k) (keys o')) && wfb o'
  end.

End Ops.

End JsObj.

(** ** domain-utils.js: matching *)

(** [domainMatches(childDomain, parentDomain)] *)
Definition domainMatches (childDomain parentDomain : string) : bool :=
  if String.eqb childDomain "" || String.eqb parentDomain "" then false
  else
    let child := JsString.toLowerCase childDomain in
    let parent := JsString.toLowerCase parentDomain in
    if String.eqb child parent then true
    else JsString.endsWith child ("." ++ parent).

(** ** errors.js *)

Inductive ErrorCode : Type :=
| INVALID_DOMAIN | INVALID_DURATION | DURATION_TOO_SHORT | DURATION_TOO_LONG
| INVALID_SCHEDULE | SCHEDULE_NO_DAYS | SCHEDULE_INVALID_TIME
| SCHEDULE_NO_DOMAINS
| BLOCK_NOT_FOUND | ALREADY_BLOCKED | NOT_BLOCKABLE
| UNBLOCK_PENDING | UNBLOCK_DELAY_NOT_COMPLETE | NO_PENDING_UNBLOCK
| STORAGE_READ_FAILED | STORAGE_WRITE_FAILED | STORAGE_LOCK_TIMEOUT
| MESSAGE_TIMEOUT | MESSAGE_FAILED | UNKNOWN_ACTION
| UNKNOWN_ERROR.

(** The value of each entry of [ErrorCodes]. *)
Definition ErrorCodes (c : ErrorCode) : string :=
  match c with
  | INVALID_DOMAIN => "invalid_domain"
  | INVALID_DURATION => "invalid_duration"
  | DURATION_TOO_SHORT => "duration_too_short"
  | DURATION_TOO_LONG => "duration_too_long"
  | INVALID_SCHEDULE => "invalid_schedule"
  | SCHEDULE_NO_DAYS => "schedule_no_days"
  | SCHEDULE_INVALID_TIME => "schedule_invalid_time"
  | SCHEDULE_NO_DOMAINS => "schedule_no_domains"
  | BLOCK_NOT_FOUND => "block_not_found"
  | ALREADY_BLOCKED => "already_blocked"
  | NOT_BLOCKABLE => "not_blockable"
  | UNBLOCK_PENDING => "unblock_pending"
  | UNBLOCK_DELAY_NOT_COMPLETE => "unblock_delay_not_complete"
  | NO_PENDING_UNBLOCK => "no_pending_unblock"
  | STORAGE_READ_FAILED => "storage_read_failed"
  | STORAGE_WRITE_FAILED => "storage_write_failed"
  | STORAGE_LOCK_TIMEOUT => "storage_lock_timeout"
  | MESSAGE_TIMEOUT => "message_timeout"
  | MESSAGE_FAILED => "message_failed"
  | UNKNOWN_ACTION => "unknown_action"
  | UNKNOWN_ERROR => "unknown_error"
  end.

(** A [FocusGuardError]: its [code] and the [remainingTime] entry of its
    [details] (the only detail the managers attach).  The human-readable
    message is not modelled. *)
Record FocusGuardError : Type := mkError {
  code : ErrorCode;
  remainingTime : option Z
}.

(** ** constants.js *)

Module DEFAULTS.
Definition BLOCK_DURATION_MINUTES : Z := 60.
Definition UNBLOCK_DELAY_BASE_MINUTES : Z := 5.
Definition UNBLOCK_DELAY_MAX_MINUTES : Z := 15.
Definition UNBLOCK_DELAY_ESCALATION_MINUTES : Z := 5.
Definition MIN_BLOCK_MINUTES : Z := 1.
Definition MAX_BLOCK_MINUTES : Z := 480.
Definition SCHEDULE_CHECK_INTERVAL_MINUTES : Z := 1.
Definition PENDING_UNBLOCK_GRACE_PERIOD_MS : Z := 60 * 60 * 1000.
End DEFAULTS.

Module BLOCK_REASONS.
Definition MANUAL : string := "manual".
Definition SCHEDULE : string := "schedule".
End BLOCK_REASONS.

Module ALARMS.
Definition CHECK_SCHEDULES : string := "checkSchedules".
Definition UNBLOCK_PREFIX : string := "unblock_".
End ALARMS.

Module STORAGE_KEYS.
Definition ACTIVE_BLOCKS : string := "activeBlocks".
Definition SCHEDULES : string := "schedules".
Definition SETTINGS : string := "settings".
Definition STATS : string := "stats".
Definition PENDING_UNBLOCKS : string := "pendingUnblocks".
Definition DAILY_ATTEMPTS : string := "dailyAttempts".
End STORAGE_KEYS.

(** ** Data model *)

Record BlockEntry : Type := mkBlockEntry {
  until : Z;
  blockedAt : Z;
  reason : string
}.

Record PendingUnblock : Type := mkPendingUnblock {
  requestedAt : Z;
  unlocksAt : Z;
  attemptNumber : Z
}.

(** The [settings] object: the merged view the managers read. *)
Record Settings : Type := mkSettings {
  defaultBlockDuration : Z;
  unblockDelayBase : Z;
  unblockDelayEscalation : bool;
  showMotivationalQuotes : bool
}.

(** The [settings] value as stored: any field may be absent. *)
Record StoredSettings : Type := mkStoredSettings {
  stored_defaultBlockDuration : option Z;
  stored_unblockDelayBase : option Z;
  stored_unblockDelayEscalation : option bool;
  stored_showMotivationalQuotes : option bool
}.

Definition DEFAULT_SETTINGS : Settings :=
  {| defaultBlockDuration := DEFAULTS.BLOCK_DURATION_MINUTES;
     unblockDelayBase := DEFAULTS.UNBLOCK_DELAY_BASE_MINUTES;
     unblockDelayEscalation := true;
     showMotivationalQuotes := true |}.

Record Schedule : Type := mkSchedule {
  id : string;
  domains : list string;
  startTime : string;
  endTime : string;
  days : list Z;
  enabled : bool;
  createdAt : Z
}.

(** What [getBlockInfo] returns: [{ domain, ...info }].  The fields of
    [info] are those of a BlockEntry, or none when [info] is a member of
    [Object.prototype] (the spread copies own enumerable properties, and
    the member has none). *)
Record BlockInfo : Type := mkBlockInfo {
  info_domain : string;
  info_entry : option BlockEntry
}.

(** The success response of [request]. *)
Record UnblockGrant : Type := mkUnblockGrant {
  waitTime : Z;
  grant_unlocksAt : Z;
  grant_attemptNumber : Z
}.

(** Values a caller can pass where a number is expected.  [JsInt z] is the
    Number with the integer value [z], which is to be a Number value
    ([JsNumber.isNumber]: every integer below [2^53] in magnitude is one);
    Numbers with a fraction and the infinities are not modelled. *)
Inductive JsValue : Type :=
| JsInt (z : Z)
| JsStr (s : string)
| JsBool (b : bool)
| JsNaN
| JsNull
| JsUndefined.

(** ** The world an operation runs in *)

Record World : Type := mkWorld {
  reads : nat;                              (* clock reads made so far *)
  activeBlocks : JsObj.t BlockEntry;        (* sync  / activeBlocks *)
  storedSettings : option StoredSettings;   (* sync  / settings *)
  pendingUnblocks : JsObj.t PendingUnblock; (* local / pendingUnblocks *)
  dailyAttempts : JsObj.t Z;                (* local / dailyAttempts *)
  totalBlocksCreated : Z;                   (* local / stats.totalBlocksCreated *)
  alarms : JsObj.t Z;                       (* chrome.alarms: name -> when *)
  writes : list string                      (* storage keys written, latest first *)
}.

Definition tick (w : World) : World :=
  mkWorld (S (reads w)) (activeBlocks w) (storedSettings w) (pendingUnblocks w)
          (dailyAttempts w) (totalBlocksCreated w) (alarms w) (writes w).

Definition write_activeBlocks (b : JsObj.t BlockEntry) (w : World) : World :=
  mkWorld (reads w) b (storedSettings w) (pendingUnblocks w)
          (dailyAttempts w) (totalBlocksCreated w) (alarms w)
          (STORAGE_KEYS.ACTIVE_BLOCKS :: writes w).

Definition write_pendingUnblocks (p : JsObj.t PendingUnblock) (w : World) : World :=
  mkWorld (reads w) (activeBlocks w) (storedSettings w) p
          (dailyAttempts w) (totalBlocksCreated w) (alarms w)
          (STORAGE_KEYS.PENDING_UNBLOCKS :: writes w).

Definition write_dailyAttempts (a : JsObj.t Z) (w : World) : World :=
  mkWorld (reads w) (activeBlocks w) (storedSettings w) (pendingUnblocks w)
          a (totalBlocksCreated w) (alarms w)
          (STORAGE_KEYS.DAILY_ATTEMPTS :: writes w).

Definition write_totalBlocksCreated (n : Z) (w : World) : World :=
  mkWorld (reads w) (activeBlocks w) (storedSettings w) (pendingUnblocks w)
          (dailyAttempts w) n (alarms w)
          (STORAGE_KEYS.STATS :: writes w).

Definition create_alarm (name : string) (when : Z) (w : World) : World :=
  mkWorld (reads w) (activeBlocks w) (storedSettings w) (pendingUnblocks w)
          (dailyAttempts w) (totalBlocksCreated w)
          (JsObj.set (alarms w) name when) (writes w).

(** ** Asynchronous functions as state-and-exception computations *)

(** How a call ends: it returns, it throws, or it has come upon a
    JavaScript value that the types of this model do not hold (a member of
    [Object.prototype] met where an entry or a count is expected) and is
    followed no further. *)
Inductive Outcome (A : Type) : Type :=
| Return (a : A)
| Throw (e : FocusGuardError)
| Unmodelled.
Arguments Return {A} a.
Arguments Throw {A} e.
Arguments Unmodelled {A}.

Definition M (A : Type) : Type := World -> Outcome A * World.

Definition ret {A} (a : A) : M A := fun w => (Return a, w).

Definition bind {A B} (m : M A) (k : A -> M B) : M B :=
  fun w => match m w with
           | (Return a, w') => k a w'
           | (Throw e, w') => (Throw e, w')
           | (Unmodelled, w') => (Unmodelled, w')
           end.


Definition throw {A} (c : ErrorCode) (remaining : option Z) : M A :=
  fun w => (Throw (mkError c remaining), w).

(** [try { m } catch (error) { h error }] *)
Definition tryCatch {A} (m : M A) (h : FocusGuardError -> M A) : M A :=
  fun w => match m w with
           | (Return a, w') => (Return a, w')
           | (Throw e, w') => h e w'
           | (Unmodelled, w') => (Unmodelled, w')
           end.

Definition gets {A} (f : World -> A) : M A := fun w => (Return (f w), w).

Definition modify (f : World -> World) : M unit := fun w => (Return tt, f w).

Declare Scope async_scope.
Delimit Scope async_scope with async.
Notation "x <- m ;; k" := (bind m (fun x => k))
  (at level 100, m at next level, right associativity) : async_scope.
Notation "m ;;; k" := (bind m (fun _ => k))
  (at level 100, right associativity) : async_scope.
Local Open Scope async_scope.

(** [for (const x of xs) { body x }] *)
Fixpoint forOf {A} (xs : list A) (body : A -> M unit) : M unit :=
  match xs with
  | [] => ret tt
  | x :: xs' => body x ;;; forOf xs' body
  end.

(** [Math.ceil(x / d)] for integers [x] and [0 < d]. *)
Definition ceilDiv (x d : Z) : Z := - ((- x) / d).

(** ** The host browser *)

Class Platform : Type := {
  (** [new URL(s).hostname], [None] when the constructor throws *)
  url_hostname : string -> option string;
  (** the value returned by the n-th read of the wall clock *)
  clock : nat -> Z;
  (** [new Date(t).toISOString()] *)
  date_toISOString : Z -> string;
  (** [new Date(t).getDay()] *)
  date_getDay : Z -> Z;
  (** [new Date(t).toTimeString()] *)
  date_toTimeString : Z -> string
}.

(** ** JavaScript number primitives *)

Module JsNumber.

Definition digitChar (d : Z) : ascii := ascii_of_nat (Z.to_nat (48 + d)).

(** Decimal digits of [n], most significant first, put in front of [acc]. *)
Fixpoint digitsOf (fuel : nat) (n : Z) (acc : string) : string :=
  match fuel with
  | O => acc
  | S fuel' =>
      let acc' := String (digitChar (n mod 10)) acc in
      if n <? 10 then acc' else digitsOf fuel' (n / 10) acc'
  end.

Fixpoint zeros (k : nat) : string :=
  match k with
  | O => EmptyString
  | S k' => String "0" (zeros k')
  end.

(** The gap between the Number [x] and the next Number above it, for
    [2^52 <= x]. *)
Definition ulp (x : Z) : Z := 2 ^ (Z.log2 x - 52).

(** The gap between [x] and the next Number below it. *)
Definition gapBelow (x : Z) : Z :=
  if x =? 2 ^ Z.log2 x then ulp x / 2 else ulp x.

(** The integer [z] is a Number value: it has at most 53 significant
    bits and is in range. *)
Definition isNumber (z : Z) : bool :=
  let a := Z.abs z in
  (a <? 2 ^ 53) || ((a mod ulp a =? 0) && (a <? 2 ^ 1024)).

(** The real number [c2 / 2] rounds to the Number [x] (to nearest, ties to
    the even significand). *)
Definition roundsTo (x c2 : Z) : bool :=
  let lo2 := 2 * x - gapBelow x in
  let hi2 := 2 * x + ulp x in
  if Z.even (x / ulp x) then (lo2 <=? c2) && (c2 <=? hi2)
  else (lo2 <? c2) && (c2 <? hi2).

(** The [s] of [k] digits for which [s * 10^(n - k)] rounds to [x] and is
    closest to it (the even one of two equally close), if there is one. *)
Definition candidate (x n k : Z) : option Z :=
  let p := 10 ^ (n - k) in
  let lo := x / p in
  let hi := lo + 1 in
  let okLo := roundsTo x (2 * (lo * p)) in
  let okHi := roundsTo x (2 * (hi * p)) && (hi <? 10 ^ k) in
  if okLo && okHi then
    let dLo := x - lo * p in
    let dHi := hi * p - x in
    if dLo <? dHi then Some lo
    else if dHi <? dLo then Some hi
    else if Z.even lo then Some lo else Some hi
  else if okLo then Some lo
  else if okHi then Some hi
  else None.

(** The candidate of the first [k], from [k] on and with [fuel] tries, that
    has one. *)
Fixpoint shortestFrom (fuel : nat) (x n k : Z) : option Z :=
  match fuel with
  | O => None
  | S fuel' =>
      match candidate x n k with
      | Some s => Some s
      | None => shortestFrom fuel' x n (k + 1)
      end
  end.

(** The number of decimal digits of [x]. *)
Definition digitCount (x : Z) : Z :=
  Z.of_nat (String.length (digitsOf 400 x "")).

(** The digits [s] and the exponent [n] that [Number::toString] prints for
    the Number [x], [2^53 <= x]: [s] has as few digits [k] as can be (at
    most 17 are needed) with [s * 10^(n - k)] rounding to [x]. *)
Definition shortest (x : Z) : Z * Z :=
  let n := digitCount x in
  if roundsTo x (2 * 10 ^ n) then (1, n + 1)
  else match shortestFrom 17 x n 1 with
       | Some s => (s, n)
       | None => (x, n)
       end.

(** [Number::toString] of an integral Number [x] with [2^53 <= x]: the
    digits and then zeros up to [10^21], exponent notation from there
    on. *)
Definition printLarge (x : Z) : string :=
  let '(s, n) := shortest x in
  let ds := digitsOf 400 s "" in
  let k := Z.of_nat (String.length ds) in
  if n <=? 21 then ds ++ zeros (Z.to_nat (n - k))
  else
    match ds with
    | String d EmptyString => String d ("e+" ++ digitsOf 400 (n - 1) "")
    | String d rest =>
        String d ("." ++ rest ++ "e+" ++ digitsOf 400 (n - 1) "")
    | EmptyString => EmptyString
    end.

(** [Number::toString] of an integral Number: below [2^53] in magnitude
    every integer is a Number and prints as itself. *)
Definition toString (z : Z) : string :=
  if Z.abs z <? 2 ^ 53 then
    if z <? 0 then String "-" (digitsOf 21 (- z) "")
    else digitsOf 21 z ""
  else if z <? 0 then String "-" (printLarge (- z))
  else printLarge z.

(** Value of the longest prefix of decimal digits, continuing from [acc]. *)
Fixpoint digitsValue (s : string) (acc : Z) : Z :=
  match s with
  | EmptyString => acc
  | String c s' =>
      if JsString.isDigit c then digitsValue s' (10 * acc + JsString.digitValue c)
      else acc
  end.

Definition startsWithDigit (s : string) : bool :=
  match s with
  | EmptyString => false
  | String c _ => JsString.isDigit c
  end.

(** [parseInt(s, 10)]: leading white space, an optional sign, then the
    longest run of decimal digits; [None] is NaN.  The value is the integer
    that the digits spell; the Number that the code gets is the nearest
    one, which compares with 1 and with 480 as the integer does, and is an
    infinity when the integer is out of range ([isFinite]). *)
Definition parseInt10 (s : string) : option Z :=
  let s1 := JsString.trimStart s in
  let '(sign, s2) :=
    match s1 with
    | String "-" r => (-1, r)
    | String "+" r => (1, r)
    | _ => (1, s1)
    end in
  if startsWithDigit s2 then Some (sign * digitsValue s2 0) else None.

(** [Number.isFinite(x)] for the Number nearest to the integer [z]: from
    [2^1024 - 2^970] on in magnitude, the integers round to an infinity. *)
Definition isFinite (z : Z) : bool := Z.abs z <? 2 ^ 1024 - 2 ^ 970.

Fixpoint allDigits (s : string) : bool :=
  match s with
  | EmptyString => true
  | String c s' => JsString.isDigit c && allDigits s'
  end.

(** [Number(s)] on the spellings a stored time can have: an empty or blank
    string is [0], a run of decimal digits is its value; any other string
    reads as NaN ([None]) here (signs, fractions, exponents and other
    radixes are not modelled). *)
Definition ofString (s : string) : option Z :=
  let s' := JsString.trim s in
  if String.eqb s' "" then Some 0
  else if allDigits s' then Some (digitsValue s' 0) else None.

(** [x || d] for a number [x] that may be missing. *)
Definition orElse (x : option Z) (d : Z) : Z :=
  match x with
  | Some v => if v =? 0 then d else v
  | None => d
  end.

End JsNumber.

(** [ToString(v)] *)
Definition ToString (v : JsValue) : string :=
  match v with
  | JsInt z => JsNumber.toString z
  | JsStr s => s
  | JsBool true => "true"
  | JsBool false => "false"
  | JsNaN => "NaN"
  | JsNull => "null"
  | JsUndefined => "undefined"
  end.

(** [parseInt(v, 10)] *)
Definition parseInt (v : JsValue) : option Z := JsNumber.parseInt10 (ToString v).

(** ** validation.js *)

Inductive ValidationResult (A : Type) : Type :=
| Valid (value : A)
| Invalid (first_error : ErrorCode).
Arguments Valid {A} value.
Arguments Invalid {A} first_error.

(** [validateDuration(minutes)] *)
Definition validateDuration (minutes : JsValue) : ValidationResult Z :=
  match parseInt minutes with
  | None => Invalid INVALID_DURATION
  | Some parsed =>
      if negb (JsNumber.isFinite parsed) then Invalid INVALID_DURATION
      else if parsed <? DEFAULTS.MIN_BLOCK_MINUTES then Invalid DURATION_TOO_SHORT
      else if DEFAULTS.MAX_BLOCK_MINUTES <? parsed then Invalid DURATION_TOO_LONG
      else Valid parsed
  end.

Fixpoint existsChar (p : ascii -> bool) (s : string) : bool :=
  match s with
  | EmptyString => false
  | String c s' => p c || existsChar p s'
  end.

(** A duration input with nothing numeric in it: [NaN], [null], [undefined],
    a boolean, or a string without a decimal digit. *)
Definition nonNumeric (v : JsValue) : bool :=
  match v with
  | JsInt _ => false
  | JsStr s => negb (existsChar JsString.isDigit s)
  | JsBool _ | JsNaN | JsNull | JsUndefined => true
  end.

(** The characters of the last pattern: less-than, greater-than, single
    quote, double quote and ampersand. *)
Definition isDangerousChar (c : ascii) : bool :=
  let n := nat_of_ascii c in
  ((n =? 60) || (n =? 62) || (n =? 39) || (n =? 34) || (n =? 38))%nat.

(** Some entry of [invalidPatterns] matches. *)
Definition matchesInvalidPattern (cleaned : string) : bool :=
  JsString.startsWith cleaned "."
  || JsString.endsWith cleaned "."
  || JsString.includes cleaned ".."
  || existsChar JsString.isWhiteSpace cleaned
  || existsChar isDangerousChar cleaned.

(** ** time-utils.js: parsing *)

(** [parseTimeToMinutes(timeStr)] *)
Definition parseTimeToMinutes (timeStr : string) : Z :=
  if String.eqb timeStr "" then 0
  else
    match map JsNumber.ofString (JsString.split ":" timeStr) with
    | Some hours :: Some mins :: _ => hours * 60 + mins
    | _ => 0
    end.

(** ** The library over a host browser *)

Section Library.

Context {host : Platform}.

(** [Date.now()] and [new Date()]: one read of the wall clock. *)
Definition Date_now : M Z :=
  fun w => (Return (clock (reads w)), tick w).

(** *** time-utils.js *)

(** [getTodayKey()] *)
Definition getTodayKey : M string :=
  t <- Date_now ;;
  ret (hd "" (JsString.split "T" (date_toISOString t))).

(** [getCurrentTime()] *)
Definition getCurrentTime : M string :=
  t <- Date_now ;;
  ret (JsString.slice0 5 (date_toTimeString t)).

(** [getCurrentDay()] *)
Definition getCurrentDay : M Z :=
  t <- Date_now ;;
  ret (date_getDay t).

(** [isInTimeWindow(startTime, endTime)] *)
Definition isInTimeWindow (startTime endTime : string) : M bool :=
  now <- getCurrentTime ;;
  let current := parseTimeToMinutes now in
  let start := parseTimeToMinutes startTime in
  let end_ := parseTimeToMinutes endTime in
  ret ((start <=? current) && (current <? end_)).

(** [minutesUntilEndTime(endTime)] *)
Definition minutesUntilEndTime (endTime : string) : M Z :=
  now <- getCurrentTime ;;
  let current := parseTimeToMinutes now in
  let end_ := parseTimeToMinutes endTime in
  let remaining := end_ - current in
  ret (if 0 <? remaining then remaining else 0).

(** [parseTimeToMinutes(getCurrentTime())] when the clock reads [t]. *)
Definition currentMinutes (t : Z) : Z :=
  parseTimeToMinutes (JsString.slice0 5 (date_toTimeString t)).

(** *** storage.js *)

(** [withLock(key, fn)] when no other invocation holds the lock of [key]
    (one caller runs at a time): the start time is read, the wait loop is not
    entered, and the lock taken before [fn] is released after it, so that the
    lock table is left as it was.  [Locking.step] is [withLock] with other
    invocations around. *)
Definition withLock {A} (key : string) (fn : M A) : M A :=
  startTime <- Date_now ;;
  fn.

Definition getActiveBlocks : M (JsObj.t BlockEntry) := gets activeBlocks.

Definition setActiveBlocks (blocks : JsObj.t BlockEntry) : M unit :=
  modify (write_activeBlocks blocks).

Definition updateActiveBlocks
    (updateFn : JsObj.t BlockEntry -> M (JsObj.t BlockEntry))
  : M (JsObj.t BlockEntry) :=
  withLock STORAGE_KEYS.ACTIVE_BLOCKS
    (current <- gets activeBlocks ;;
     updated <- updateFn current ;;
     modify (write_activeBlocks updated) ;;;
     ret updated).

(** [{ ...DEFAULT_SETTINGS, ...settings }] *)
Definition mergeSettings (stored : option StoredSettings) : Settings :=
  match stored with
  | None => DEFAULT_SETTINGS
  | Some s =>
      {| defaultBlockDuration :=
           match stored_defaultBlockDuration s with
           | Some v => v | None => defaultBlockDuration DEFAULT_SETTINGS end;
         unblockDelayBase :=
           match stored_unblockDelayBase s with
           | Some v => v | None => unblockDelayBase DEFAULT_SETTINGS end;
         unblockDelayEscalation :=
           match stored_unblockDelayEscalation s with
           | Some v => v | None => unblockDelayEscalation DEFAULT_SETTINGS end;
         showMotivationalQuotes :=
           match stored_showMotivationalQuotes s with
           | Some v => v | None => showMotivationalQuotes DEFAULT_SETTINGS end |}
  end.

Definition getSettings : M Settings :=
  gets (fun w => mergeSettings (storedSettings w)).

(** [updateStats], on the one field the managers change. *)
Definition updateStats (updateFn : Z -> M Z) : M Z :=
  withLock STORAGE_KEYS.STATS
    (current <- gets totalBlocksCreated ;;
     updated <- updateFn current ;;
     modify (write_totalBlocksCreated updated) ;;;
     ret updated).

Definition getPendingUnblocks : M (JsObj.t PendingUnblock) :=
  gets pendingUnblocks.

Definition updatePendingUnblocks
    (updateFn : JsObj.t PendingUnblock -> M (JsObj.t PendingUnblock))
  : M (JsObj.t PendingUnblock) :=
  withLock STORAGE_KEYS.PENDING_UNBLOCKS
    (current <- gets pendingUnblocks ;;
     updated <- updateFn current ;;
     modify (write_pendingUnblocks updated) ;;;
     ret updated).

Definition getDailyAttempts : M (JsObj.t Z) := gets dailyAttempts.

Definition updateDailyAttempts (updateFn : JsObj.t Z -> M (JsObj.t Z))
  : M (JsObj.t Z) :=
  withLock STORAGE_KEYS.DAILY_ATTEMPTS
    (current <- gets dailyAttempts ;;
     updated <- updateFn current ;;
     modify (write_dailyAttempts updated) ;;;
     ret updated).

(** *** domain-utils.js *)

(** [hostname.replace(/^www\./, '')] *)
Definition stripWww (hostname : string) : string :=
  if JsString.startsWith hostname "www."
  then String.substring 4 (String.length hostname - 4) hostname
  else hostname.

(** [extractDomain(url)]; [None] is [null]. *)
Definition extractDomain (url : string) : option string :=
  if String.eqb url "" then None
  else
    let urlToParse := JsString.trim url in
    let urlToParse :=
      if JsString.includes urlToParse "://" then urlToParse
      else "https://" ++ urlToParse in
    match url_hostname urlToParse with
    | None => None
    | Some hostname => Some (JsString.toLowerCase (stripWww hostname))
    end.

(** The guard [const cleanDomain = extractDomain(domain);
    if (!cleanDomain) ...]: the clean domain when it is a non-empty
    string. *)
Definition cleanDomainOf (domain : string) : option string :=
  match extractDomain domain with
  | Some cleanDomain =>
      if String.eqb cleanDomain "" then None else Some cleanDomain
  | None => None
  end.

(** *** validation.js *)

(** [validateDomain(domain)] *)
Definition validateDomain (domain : string) : ValidationResult string :=
  if String.eqb domain "" then Invalid INVALID_DOMAIN
  else
    match cleanDomainOf domain with
    | None => Invalid INVALID_DOMAIN
    | Some cleaned =>
        if (String.length cleaned <? 3)%nat then Invalid INVALID_DOMAIN
        else if negb (JsString.includes cleaned ".") then Invalid INVALID_DOMAIN
        else if matchesInvalidPattern cleaned then Invalid INVALID_DOMAIN
        else Valid cleaned
    end.

(** *** block-manager.js *)

(** [add(domain, minutes, reason)] *)
Definition add (domain : string) (minutes : JsValue) (reason : string)
  : M string :=
  match validateDomain domain with
  | Invalid c => throw c None
  | Valid cleanDomain =>
      match validateDuration minutes with
      | Invalid c => throw c None
      | Valid validMinutes =>
          updateActiveBlocks (fun blocks =>
            t1 <- Date_now ;;
            t2 <- Date_now ;;
            ret (JsObj.set blocks cleanDomain
                   {| until := t1 + validMinutes * 60 * 1000;
                      blockedAt := t2;
                      reason := reason |})) ;;;
          updateStats (fun total =>
            ret (JsNumber.orElse (Some total) 0 + 1)) ;;;
          ret cleanDomain
      end
  end.

(** [remove(domain)].  The flag [found] that the update callback sets
    under [if (blocks[cleanDomain])] is read off the object the callback
    received. *)
Definition remove (domain : string) : M string :=
  match cleanDomainOf domain with
  | None => throw INVALID_DOMAIN None
  | Some cleanDomain =>
      before <- gets activeBlocks ;;
      let found := JsObj.truthy before cleanDomain in
      updateActiveBlocks (fun blocks =>
        ret (if JsObj.truthy blocks cleanDomain
             then JsObj.delete blocks cleanDomain else blocks)) ;;;
      updatePendingUnblocks (fun pending =>
        ret (JsObj.delete pending cleanDomain)) ;;;
      if negb found then throw BLOCK_NOT_FOUND None
      else ret cleanDomain
  end.

(** One turn of the loop of [getAll]: an entry with [now < until] is
    copied to [activeBlocks], any other sets [hasExpired]. *)
Definition pruneStep (now : Z) (acc : JsObj.t BlockEntry * bool)
    (entry : string * BlockEntry) : JsObj.t BlockEntry * bool :=
  let '(activeBlocks, hasExpired) := acc in
  let '(domain, info) := entry in
  if now <? until info
  then (JsObj.set activeBlocks domain info, hasExpired)
  else (activeBlocks, true).

(** The loop of [getAll] over [Object.entries(blocks)]. *)
Definition pruneExpired (now : Z) (blocks : JsObj.t BlockEntry)
  : JsObj.t BlockEntry * bool :=
  fold_left (pruneStep now) (JsObj.entries blocks) (JsObj.empty, false).

(** The entry is still in force at [now]. *)
Definition unexpired (now : Z) (entry : string * BlockEntry) : Prop :=
  now < until (snd entry).

(** [getAll()] *)
Definition getAll : M (JsObj.t BlockEntry) :=
  blocks <- getActiveBlocks ;;
  now <- Date_now ;;
  let '(activeBlocks, hasExpired) := pruneExpired now blocks in
  (if hasExpired then setActiveBlocks activeBlocks else ret tt) ;;;
  ret activeBlocks.

(** [isBlocked(domain)] *)
Definition isBlocked (domain : string) : M bool :=
  match cleanDomainOf domain with
  | None => ret false
  | Some cleanDomain =>
      blocks <- getAll ;;
      if JsObj.truthy blocks cleanDomain then ret true
      else ret (existsb (fun blockedDomain =>
                           domainMatches cleanDomain blockedDomain)
                        (JsObj.keys blocks))
  end.

(** The lookup of [getBlockInfo] in the blocks [getAll] returned: what
    [blocks[cleanDomain]] finds, else the first entry, in the order of
    [Object.entries], whose key is a parent of the domain. *)
Definition findBlockInfo (blocks : JsObj.t BlockEntry) (cleanDomain : string)
  : option BlockInfo :=
  match JsObj.lookup blocks cleanDomain with
  | JsObj.Own info => Some (mkBlockInfo cleanDomain (Some info))
  | JsObj.Inherited => Some (mkBlockInfo cleanDomain None)
  | JsObj.Undefined =>
      match find (fun entry : string * BlockEntry =>
                    domainMatches cleanDomain (fst entry))
                 (JsObj.entries blocks) with
      | Some (blockedDomain, info) =>
          Some (mkBlockInfo blockedDomain (Some info))
      | None => None
      end
  end.

(** [getBlockInfo(domain)] *)
Definition getBlockInfo (domain : string) : M (option BlockInfo) :=
  match cleanDomainOf domain with
  | None => ret None
  | Some cleanDomain =>
      blocks <- getAll ;;
      ret (findBlockInfo blocks cleanDomain)
  end.

(** *** unblock-manager.js *)

(** [request(domain)] *)
Definition request (domain : string) : M UnblockGrant :=
  match cleanDomainOf domain with
  | None => throw INVALID_DOMAIN None
  | Some cleanDomain =>
      pending <- getPendingUnblocks ;;
      match JsObj.lookup pending cleanDomain with
      | JsObj.Own p =>
          now <- Date_now ;;
          let remaining := ceilDiv (unlocksAt p - now) 1000 in
          if 0 <? remaining then throw UNBLOCK_PENDING (Some remaining)
          else ret tt
      | JsObj.Inherited =>
          (* [unlocksAt] is undefined, [remaining] is NaN and the test
             [remaining > 0] fails *)
          now <- Date_now ;;
          ret tt
      | JsObj.Undefined => ret tt
      end ;;;
      settings <- getSettings ;;
      today <- getTodayKey ;;
      let attemptKey := cleanDomain ++ "_" ++ today in
      dailyAttempts <- getDailyAttempts ;;
      let attemptNumber :=
        JsNumber.orElse (JsObj.get dailyAttempts attemptKey) 0 + 1 in
      updateDailyAttempts (fun attempts =>
        ret (JsObj.set attempts attemptKey attemptNumber)) ;;;
      let delayMinutes :=
        JsNumber.orElse (Some (unblockDelayBase settings))
                        DEFAULTS.UNBLOCK_DELAY_BASE_MINUTES in
      let delayMinutes :=
        if unblockDelayEscalation settings && (1 <? attemptNumber)
        then Z.min DEFAULTS.UNBLOCK_DELAY_MAX_MINUTES
                   (delayMinutes
                    + (attemptNumber - 1)
                      * DEFAULTS.UNBLOCK_DELAY_ESCALATION_MINUTES)
        else delayMinutes in
      let waitTimeSeconds := delayMinutes * 60 in
      now <- Date_now ;;
      let unlocksAt := now + waitTimeSeconds * 1000 in
      updatePendingUnblocks (fun pending =>
        t <- Date_now ;;
        ret (JsObj.set pending cleanDomain
               {| requestedAt := t;
                  unlocksAt := unlocksAt;
                  attemptNumber := attemptNumber |})) ;;;
      modify (create_alarm (ALARMS.UNBLOCK_PREFIX ++ cleanDomain) unlocksAt) ;;;
      ret {| waitTime := waitTimeSeconds;
             grant_unlocksAt := unlocksAt;
             grant_attemptNumber := attemptNumber |}
  end.

(** [confirm(domain)] *)
Definition confirm (domain : string) : M string :=
  match cleanDomainOf domain with
  | None => throw INVALID_DOMAIN None
  | Some cleanDomain =>
      pending <- getPendingUnblocks ;;
      match JsObj.lookup pending cleanDomain with
      | JsObj.Own p =>
          now <- Date_now ;;
          let remaining := unlocksAt p - now in
          if 0 <? remaining
          then throw UNBLOCK_DELAY_NOT_COMPLETE (Some (ceilDiv remaining 1000))
          else ret tt
      | JsObj.Inherited =>
          (* [remaining] is NaN and the test [remaining > 0] fails *)
          now <- Date_now ;;
          ret tt
      | JsObj.Undefined => ret tt
      end ;;;
      remove cleanDomain ;;;
      updatePendingUnblocks (fun pending =>
        ret (JsObj.delete pending cleanDomain)) ;;;
      ret cleanDomain
  end.

(** *** schedule-manager.js *)

(** The test [!blockInfo || blockInfo.reason !== BLOCK_REASONS.SCHEDULE]. *)
Definition scheduleApplies (blockInfo : option BlockInfo) : bool :=
  match blockInfo with
  | None => true
  | Some bi =>
      match info_entry bi with
      | Some info => negb (String.eqb (reason info) BLOCK_REASONS.SCHEDULE)
      | None => true
      end
  end.

(** The body of the loop of [checkSingle] for one domain, with its
    [try] / [catch]. *)
Definition activateDomain (remainingMinutes : Z) (domain : string) : M unit :=
  tryCatch
    (blockInfo <- getBlockInfo domain ;;
     if scheduleApplies blockInfo
     then add domain (JsInt remainingMinutes) BLOCK_REASONS.SCHEDULE ;;; ret tt
     else ret tt)
    (fun _ => ret tt).

(** [checkSingle(schedule)] *)
Definition checkSingle (schedule : Schedule) : M unit :=
  if negb (enabled schedule) then ret tt
  else
    currentDay <- getCurrentDay ;;
    if negb (existsb (Z.eqb currentDay) (days schedule)) then ret tt
    else
      inWindow <- isInTimeWindow (startTime schedule) (endTime schedule) ;;
      if negb inWindow then ret tt
      else
        remainingMinutes <- minutesUntilEndTime (endTime schedule) ;;
        if remainingMinutes <=? 0 then ret tt
        else forOf (domains schedule) (activateDomain remainingMinutes).

End Library.

(** ** The lock table of storage.js under concurrent callers *)

Module Locking.

Definition LOCK_TIMEOUT_MS : Z := 5000.

(** An [async] function in progress: settled with its outcome, or suspended
    at an [await], to be resumed on the store as it is by then. *)
#[warnings="-register-all"] Inductive Async (A : Type) : Type :=
| Settled (result : Outcome A)
| Suspended (resume : World -> World * Async A).
Arguments Settled {A} result.
Arguments Suspended {A} resume.

(** An [async] function: a call runs it up to its first [await] or to its
    end. *)
Definition AsyncFn (A : Type) : Type := World -> World * Async A.

(** The [async] function with the body [m] and no [await] on the way. *)
Definition ofM {A} (m : M A) : AsyncFn A :=
  fun w => let (result, w') := m w in (w', Settled result).

(** Where an invocation [withLock(key, fn)] stands between two turns of the
    event loop. *)
Inductive Invocation (A : Type) : Type :=
| Called (key : string) (fn : AsyncFn A)
    (* about to be called *)
| Waiting (key : string) (fn : AsyncFn A) (startTime : Z)
    (* in [await new Promise(resolve => setTimeout(resolve, 10))] *)
| Holding (key : string) (body : Async A)
    (* in [await fn()], the lock taken *)
| Done (result : Outcome A).
Arguments Called {A} key fn.
Arguments Waiting {A} key fn startTime.
Arguments Holding {A} key body.
Arguments Done {A} result.

(** What invocation [i] did, for the record. *)
Inductive Event : Type :=
| Call (i : nat) (key : string)      (* [withLock(key, fn)] is called *)
| Enter (i : nat) (key : string)     (* the lock is taken and [fn] called *)
| Resume (i : nat) (key : string)    (* [fn] goes on after an [await] *)
| Exit (i : nat) (key : string)      (* the lock is released *)
| TimedOut (i : nat) (key : string). (* the wait loop gives up *)

Record State (A : Type) : Type := mkState {
  locks : list string;          (* the keys [k] with [locks.get(k)] set *)
  shared : World;
  calls : list (Invocation A);
  trace : list Event            (* latest first *)
}.
Arguments mkState {A} locks shared calls trace.
Arguments locks {A} s.
Arguments shared {A} s.
Arguments calls {A} s.
Arguments trace {A} s.

(** [locks.get(key)] *)
Definition locks_get (key : string) (l : list string) : bool :=
  existsb (String.eqb key) l.

(** [locks.set(key, true)] *)
Definition locks_set (key : string) (l : list string) : list string :=
  if locks_get key l then l else key :: l.

(** [locks.delete(key)] *)
Definition locks_delete (key : string) (l : list string) : list string :=
  filter (fun k => negb (String.eqb key k)) l.

Fixpoint setNth {X} (i : nat) (x : X) (l : list X) : list X :=
  match l, i with
  | [], _ => []
  | _ :: l', O => x :: l'
  | y :: l', S i' => y :: setNth i' x l'
  end.




Section Scheduler.

Context {host : Platform} {A : Type}.

(** [withLock] from the head of its wait loop to its next [await], for the
    invocation [i] that read [startTime] when it was called: with the lock
    of [key] taken it reads the clock and gives up or sleeps; with the lock
    free it takes it and calls [fn]. *)
Definition loop (i : nat) (key : string) (fn : AsyncFn A) (startTime : Z)
    (st : State A) : State A :=
  if locks_get key (locks st) then
    let now := clock (reads (shared st)) in
    if LOCK_TIMEOUT_MS <? now - startTime
    then mkState (locks st) (tick (shared st))
           (setNth i (Done (Throw (mkError STORAGE_LOCK_TIMEOUT None)))
                   (calls st))
           (TimedOut i key :: trace st)
    else mkState (locks st) (tick (shared st))
           (setNth i (Waiting key fn startTime) (calls st))
           (trace st)
  else
    let (w, body) := fn (shared st) in
    mkState (locks_set key (locks st)) w
      (setNth i (Holding key body) (calls st))
      (Enter i key :: trace st).

(** One turn of the event loop given to invocation [i]: it runs from where
    it stands to its next [await].  A call reads [startTime] and goes into
    the wait loop; a sleeper wakes up at the head of the loop; the holder of
    a lock sees [fn] go on to its next [await] or, [fn] settled, leaves
    through [finally], which releases the lock. *)
Definition step (i : nat) (st : State A) : State A :=
  match nth_error (calls st) i with
  | Some (Called key fn) =>
      let startTime := clock (reads (shared st)) in
      loop i key fn startTime
        (mkState (locks st) (tick (shared st)) (calls st)
                 (Call i key :: trace st))
  | Some (Waiting key fn startTime) => loop i key fn startTime st
  | Some (Holding key (Suspended resume)) =>
      let (w, body) := resume (shared st) in
      mkState (locks st) w (setNth i (Holding key body) (calls st))
              (Resume i key :: trace st)
  | Some (Holding key (Settled result)) =>
      mkState (locks_delete key (locks st)) (shared st)
              (setNth i (Done result) (calls st))
              (Exit i key :: trace st)
  | Some (Done _) => st
  | None => st
  end.

(** The turns of [schedule], one after the other. *)
Definition run (schedule : list nat) (st : State A) : State A :=
  fold_left (fun st i => step i st) schedule st.

(** The invocations [withLock(key, fn)] of [requests] before any of them is
    called, with no lock taken. *)
Definition start (requests : list (string * AsyncFn A)) (w : World)
    : State A :=
  mkState [] w (map (fun r => Called (fst r) (snd r)) requests) [].

End Scheduler.

End Locking.

(** ** A sample host

    A browser in the UTC time zone, used to run the library on concrete
    inputs.  Its URL parser covers the URLs [scheme://host], optionally
    followed by a path, a query or a fragment, whose host is made of ASCII
    letters, digits, [-], [_] and [.]; on these it returns what the URL
    standard returns for a host that is not an IPv4 address.  Its [Date]
    functions are the standard ones for instants from 1970 to 9999. *)

Module SampleHost.

Definition isHostChar (c : ascii) : bool :=
  let n := nat_of_ascii c in
  (((97 <=? n) && (n <=? 122)) || ((65 <=? n) && (n <=? 90))
   || ((48 <=? n) && (n <=? 57)) || (n =? 45) || (n =? 46) || (n =? 95))%nat.

Definition isHostEnd (c : ascii) : bool :=
  let n := nat_of_ascii c in ((n =? 47) || (n =? 63) || (n =? 35))%nat.

(** The text after the first occurrence of [://]. *)
Fixpoint afterScheme (s : string) : option string :=
  match s with
  | EmptyString => None
  | String c s' =>
      if String.prefix "://" s then Some (String.substring 3 (String.length s - 3) s)
      else afterScheme s'
  end.

Fixpoint hostPart (s : string) : string :=
  match s with
  | EmptyString => EmptyString
  | String c s' => if isHostEnd c then EmptyString else String c (hostPart s')
  end.

Fixpoint allChars (p : ascii -> bool) (s : string) : bool :=
  match s with
  | EmptyString => true
  | String c s' => p c && allChars p s'
  end.

Definition hostname (url : string) : option string :=
  match afterScheme url with
  | None => None
  | Some rest =>
      let h := hostPart rest in
      if String.eqb h "" then None
      else if allChars isHostChar h then Some (JsString.toLowerCase h)
      else None
  end.

Fixpoint zeros (k : nat) : string :=
  match k with
  | O => EmptyString
  | S k' => String "0" (zeros k')
  end.

(** [n] in decimal, padded with zeros to [width] digits. *)
Definition pad (width : nat) (n : Z) : string :=
  let s := JsNumber.toString n in
  zeros (Nat.sub width (String.length s)) ++ s.

Definition msPerDay : Z := 86400000.

(** Year, month and day of the civil date [days] days after 1970-01-01. *)
Definition civilFromDays (days : Z) : Z * Z * Z :=
  let z := days + 719468 in
  let era := z / 146097 in
  let doe := z - era * 146097 in
  let yoe := (doe - doe / 1460 + doe / 36524 - doe / 146096) / 365 in
  let doy := doe - (365 * yoe + yoe / 4 - yoe / 100) in
  let mp := (5 * doy + 2) / 153 in
  let d := doy - (153 * mp + 2) / 5 + 1 in
  let m := if mp <? 10 then mp + 3 else mp - 9 in
  let y := yoe + era * 400 + (if m <=? 2 then 1 else 0) in
  (y, m, d).

Definition clockTime (t : Z) : string :=
  let ms := t mod msPerDay in
  pad 2 (ms / 3600000) ++ ":" ++ pad 2 (ms / 60000 mod 60) ++ ":"
  ++ pad 2 (ms / 1000 mod 60).

Definition toISOString (t : Z) : string :=
  let '(y, m, d) := civilFromDays (t / msPerDay) in
  pad 4 y ++ "-" ++ pad 2 m ++ "-" ++ pad 2 d ++ "T" ++ clockTime t
  ++ "." ++ pad 3 (t mod 1000) ++ "Z".

Definition getDay (t : Z) : Z := (t / msPerDay + 4) mod 7.

Definition toTimeString (t : Z) : string :=
  clockTime t ++ " GMT+0000 (Coordinated Universal Time)".

(** The sample host with the wall clock [clk]. *)
Definition platform (clk : nat -> Z) : Platform :=
  {| url_hostname := hostname;
     clock := clk;
     date_toISOString := toISOString;
     date_getDay := getDay;
     date_toTimeString := toTimeString |}.



(** A clock that stands at [t]. *)
Definition frozen (t : Z) : nat -> Z := fun _ => t.

(** A clock that starts at [t] and gains [step] milliseconds per read. *)
Definition ticking (t step : Z) : nat -> Z := fun n => t + step * Z.of_nat n.

(** A clock that stands at [t] for the first [k] reads and at [t'] after. *)
Definition jumping (t : Z) (k : nat) (t' : Z) : nat -> Z :=
  fun n => if (n <? k)%nat then t else t'.


End SampleHost.

(** ** Sample states

    The instant 36000000 is Thursday 1970-01-01, 10:00 UTC. *)

Module Samples.

(** The sample host with the clock standing at 10:00. *)
Definition hostAtTen : Platform :=
  SampleHost.platform (SampleHost.frozen 36000000).

(** The sample host with a clock that starts at 10:00 and gains one
    millisecond per read. *)
Definition hostFromTen : Platform :=
  SampleHost.platform (SampleHost.ticking 36000000 1).



Definition emptyWorld : World := mkWorld 0 [] None [] [] 0 [] [].

(** A manual block of example.com from 10:00 to 18:00. *)
Definition longManualBlock : BlockEntry :=
  {| until := 64800000; blockedAt := 36000000;
     reason := BLOCK_REASONS.MANUAL |}.

(** A manual block of example.com from 10:00 to 11:00. *)
Definition shortManualBlock : BlockEntry :=
  {| until := 39600000; blockedAt := 36000000;
     reason := BLOCK_REASONS.MANUAL |}.

Definition longBlocked : World :=
  mkWorld 0 [("example.com", longManualBlock)] None [] [] 1 [] [].

Definition shortBlocked : World :=
  mkWorld 0 [("example.com", shortManualBlock)] None [] [] 1 [] [].

(** An unblock of example.com requested at 10:00, second attempt of the
    day, that unlocks at 10:05. *)
Definition pendingAtTen : PendingUnblock :=
  {| requestedAt := 36000000; unlocksAt := 36300000; attemptNumber := 2 |}.

(** example.com blocked until 18:00 with that unblock pending. *)
Definition blockedAndPending : World :=
  mkWorld 0 [("example.com", longManualBlock)] None
          [("example.com", pendingAtTen)]
          [("example.com_1970-01-01", 2)] 1
          [("unblock_example.com", 36300000)] [].


(** An expired block of old.example.org next to the block of example.com. *)
Definition withExpired : World :=
  mkWorld 0 [("old.example.org",
              {| until := 30000000; blockedAt := 20000000;
                 reason := BLOCK_REASONS.MANUAL |});
             ("example.com", longManualBlock)] None [] [] 2 [] [].


(** The [waitTime] of a granted request. *)
Definition grantedWait (result : Outcome UnblockGrant * World) : option Z :=
  match fst result with
  | Return grant => Some (waitTime grant)
  | _ => None
  end.

(** The code of the error thrown, if any. *)
Definition thrownCode {A} (result : Outcome A * World) : option string :=
  match fst result with
  | Throw e => Some (ErrorCodes (code e))
  | _ => None
  end.

(** example.com on working days from 09:00 to 17:00. *)
Definition workHours : Schedule :=
  {| id := "sch_1"; domains := ["example.com"];
     startTime := "09:00"; endTime := "17:00";
     days := [1; 2; 3; 4; 5]; enabled := true; createdAt := 0 |}.

End Samples.

(** ** The rest of the library

    The functions of the managers, of [domain-utils.js] and of
    [validation.js] that the properties above did not need. *)

(** [chrome.alarms.clear(name)] *)
Definition clear_alarm (name : string) (w : World) : World :=
  mkWorld (reads w) (activeBlocks w) (storedSettings w) (pendingUnblocks w)
          (dailyAttempts w) (totalBlocksCreated w)
          (JsObj.delete (alarms w) name) (writes w).

(** One turn of a loop [for (const [key, value] of Object.entries(o))] that
    copies the entries passing [keep] into a new object and notes whether
    some entry was left out. *)
Definition copyStep {V : Type} (keep : string * V -> bool)
    (acc : JsObj.t V * bool) (entry : string * V) : JsObj.t V * bool :=
  let '(copied, dropped) := acc in
  if keep entry then (JsObj.set copied (fst entry) (snd entry), dropped)
  else (copied, true).

(** The whole loop, from an empty object. *)
Definition copyWhere {V : Type} (keep : string * V -> bool) (o : JsObj.t V)
  : JsObj.t V * bool :=
  fold_left (copyStep keep) (JsObj.entries o) (JsObj.empty, false).

(** *** domain-utils.js *)

Definition unblockablePrefixes : list string :=
  ["chrome://"; "chrome-extension://"; "about:"; "edge://";
   "moz-extension://"; "file://"; "data:"; "javascript:"; "blob:"].

(** [isBlockableUrl(url)] *)
Definition isBlockableUrl (url : string) : bool :=
  if String.eqb url "" then false
  else
    let lowerUrl := JsString.toLowerCase url in
    negb (existsb (fun prefix => JsString.startsWith lowerUrl prefix)
                  unblockablePrefixes).

(** [s.replace(/^(https?:\/\/)?(www\.)?/, '')] *)
Definition stripSchemeAndWww (s : string) : string :=
  let rest :=
    if JsString.startsWith s "https://"
    then String.substring 8 (String.length s - 8) s
    else if JsString.startsWith s "http://"
    then String.substring 7 (String.length s - 7) s
    else s in
  stripWww rest.

(** [s.split(sep)[0]] *)
Definition upTo (sep : ascii) (s : string) : string :=
  hd "" (JsString.split sep s).

(** [cleanDomainInput(input)] *)
Definition cleanDomainInput (input : string) : string :=
  if String.eqb input "" then ""
  else
    upTo "#" (upTo "?" (upTo "/"
      (stripSchemeAndWww (JsString.toLowerCase (JsString.trim input))))).

(** *** validation.js *)

Definition isDigitBelow (bound : nat) (c : ascii) : bool :=
  let n := nat_of_ascii c in ((48 <=? n) && (n <? 48 + bound))%nat.

(** [/^([01]?[0-9]|2[0-3]):([0-5][0-9])$/.test(timeStr)] *)
Definition timeRegexTest (timeStr : string) : bool :=
  match timeStr with
  | String h (String colon (String m1 (String m2 EmptyString))) =>
      JsString.isDigit h
      && Ascii.eqb colon ":" && isDigitBelow 6 m1 && JsString.isDigit m2
  | String h1 (String h2 (String colon
      (String m1 (String m2 EmptyString)))) =>
      ((isDigitBelow 2 h1 && JsString.isDigit h2)
       || (Ascii.eqb h1 "2" && isDigitBelow 4 h2))
      && Ascii.eqb colon ":" && isDigitBelow 6 m1 && JsString.isDigit m2
  | _ => false
  end.

(** [validateTimeFormat(timeStr)] *)
Definition validateTimeFormat (timeStr : string) : ValidationResult string :=
  if String.eqb timeStr "" then Invalid SCHEDULE_INVALID_TIME
  else if negb (timeRegexTest timeStr) then Invalid SCHEDULE_INVALID_TIME
  else Valid timeStr.

(** [timeToMinutes(timeStr)]; [None] is NaN. *)
Definition timeToMinutes (timeStr : string) : option Z :=
  match map JsNumber.ofString (JsString.split ":" timeStr) with
  | Some hours :: Some mins :: _ => Some (hours * 60 + mins)
  | _ => None
  end.

(** The fields of a schedule that [validateSchedule] reads and rewrites. *)
Record ScheduleFields : Type := mkScheduleFields {
  f_domains : list string;
  f_startTime : string;
  f_endTime : string;
  f_days : list Z
}.

Definition isValid {A : Type} (r : ValidationResult A) : bool :=
  match r with
  | Valid _ => true
  | Invalid _ => false
  end.

(** [Number.isInteger(day) && day >= 0 && day <= 6] *)
Definition isWeekDay (day : Z) : bool := (0 <=? day) && (day <=? 6).

Section LibraryRest.

Context {host : Platform}.

(** [validateBlockableUrl(url)] *)
Definition validateBlockableUrl (url : string) : ValidationResult string :=
  if String.eqb url "" then Invalid NOT_BLOCKABLE
  else if negb (isBlockableUrl url) then Invalid NOT_BLOCKABLE
  else
    match cleanDomainOf url with
    | None => Invalid INVALID_DOMAIN
    | Some domain => Valid domain
    end.

(** The loop of [validateSchedule] over [schedule.domains]: the errors
    pushed and [validDomains]. *)
Fixpoint validateDomains (domains : list string)
  : list ErrorCode * list string :=
  match domains with
  | [] => ([], [])
  | domain :: rest =>
      let '(errors, validDomains) := validateDomains rest in
      match validateDomain domain with
      | Valid value => (errors, value :: validDomains)
      | Invalid e => (e :: errors, validDomains)
      end
  end.

(** [validateSchedule(schedule)]: the [errors] it collects, in order, and
    the schedule as it leaves it ([domains] and [days] are rewritten in
    place); the result is valid when there is no error, and its [value]
    is then that schedule. *)
Definition validateSchedule (schedule : ScheduleFields)
  : list ErrorCode * ScheduleFields :=
  let '(domainErrors, domains') :=
    match f_domains schedule with
    | [] => ([SCHEDULE_NO_DOMAINS], [])
    | domains => validateDomains domains
    end in
  let startResult := validateTimeFormat (f_startTime schedule) in
  let endResult := validateTimeFormat (f_endTime schedule) in
  let startErrors :=
    if isValid startResult then [] else [SCHEDULE_INVALID_TIME] in
  let endErrors :=
    if isValid endResult then [] else [SCHEDULE_INVALID_TIME] in
  let orderErrors :=
    if isValid startResult && isValid endResult
    then match timeToMinutes (f_startTime schedule),
               timeToMinutes (f_endTime schedule) with
         | Some startMinutes, Some endMinutes =>
             if endMinutes <=? startMinutes then [SCHEDULE_INVALID_TIME]
             else []
         | _, _ => []
         end
    else [] in
  let '(dayErrors, days') :=
    match f_days schedule with
    | [] => ([SCHEDULE_NO_DAYS], [])
    | days =>
        let validDays := filter isWeekDay days in
        (match validDays with [] => [SCHEDULE_NO_DAYS] | _ => [] end,
         validDays)
    end in
  ((domainErrors ++ startErrors ++ endErrors ++ orderErrors ++ dayErrors)%list,
   {| f_domains := domains';
      f_startTime := f_startTime schedule;
      f_endTime := f_endTime schedule;
      f_days := days' |}).

(** *** unblock-manager.js *)

Definition setPendingUnblocks (pending : JsObj.t PendingUnblock) : M unit :=
  modify (write_pendingUnblocks pending).

(** [cancel(domain)].  The flag [found] that the update callback sets
    under [if (pending[cleanDomain])] is read off the object the callback
    received. *)
Definition cancel (domain : string) : M string :=
  match cleanDomainOf domain with
  | None => throw INVALID_DOMAIN None
  | Some cleanDomain =>
      before <- gets pendingUnblocks ;;
      let found := JsObj.truthy before cleanDomain in
      updatePendingUnblocks (fun pending =>
        ret (if JsObj.truthy pending cleanDomain
             then JsObj.delete pending cleanDomain else pending)) ;;;
      modify (clear_alarm (ALARMS.UNBLOCK_PREFIX ++ cleanDomain)) ;;;
      if negb found then throw NO_PENDING_UNBLOCK None
      else ret cleanDomain
  end.


(** [now >= info.unlocksAt + DEFAULTS.PENDING_UNBLOCK_GRACE_PERIOD_MS] *)
Definition graceExpired (now : Z) (info : PendingUnblock) : bool :=
  unlocksAt info + DEFAULTS.PENDING_UNBLOCK_GRACE_PERIOD_MS <=? now.

(** [getPending()] *)
Definition getPending : M (JsObj.t PendingUnblock) :=
  pending <- getPendingUnblocks ;;
  now <- Date_now ;;
  let '(activePending, hasExpired) :=
    copyWhere (fun entry : string * PendingUnblock =>
                 negb (graceExpired now (snd entry))) pending in
  (if hasExpired then setPendingUnblocks activePending else ret tt) ;;;
  ret activePending.

(** [isReady(domain)] *)
Definition isReady (domain : string) : M bool :=
  match cleanDomainOf domain with
  | None => ret false
  | Some cleanDomain =>
      pending <- getPendingUnblocks ;;
      match JsObj.lookup pending cleanDomain with
      | JsObj.Undefined => ret false
      | JsObj.Own info =>
          now <- Date_now ;;
          ret (unlocksAt info <=? now)
      | JsObj.Inherited =>
          (* [info.unlocksAt] is undefined and the comparison is false *)
          now <- Date_now ;;
          ret false
      end
  end.


(** [cleanupDailyAttempts()] *)
Definition cleanupDailyAttempts : M unit :=
  today <- getTodayKey ;;
  updateDailyAttempts (fun attempts =>
    ret (fst (copyWhere (fun entry : string * Z =>
                           JsString.endsWith (fst entry) ("_" ++ today))
                        attempts))) ;;;
  ret tt.

End LibraryRest.

(** ** The managers over the whole store *)

(** The stored keys that the [World] leaves out: the schedules of the sync
    namespace and the rest of the [stats] object of the local namespace
    (its [totalBlocksCreated] is in the [World]).  The [stats] object is
    stored with its two maps, as [initializeStorage] and [reset] write
    it. *)
Record Store : Type := mkStore {
  world : World;
  schedules : list Schedule;          (* sync  / schedules *)
  blockedAttempts : JsObj.t Z;        (* local / stats.blockedAttempts *)
  siteAttempts : JsObj.t Z;           (* local / stats.siteAttempts *)
  streakStartDate : option string;    (* local / stats.streakStartDate *)
  lastActiveDate : option string      (* local / stats.lastActiveDate *)
}.

Definition with_world (w : World) (s : Store) : Store :=
  mkStore w (schedules s) (blockedAttempts s) (siteAttempts s)
          (streakStartDate s) (lastActiveDate s).

(** A write of a storage key is noted in the log of the [World]. *)
Definition log_write (key : string) (w : World) : World :=
  mkWorld (reads w) (activeBlocks w) (storedSettings w) (pendingUnblocks w)
          (dailyAttempts w) (totalBlocksCreated w) (alarms w)
          (key :: writes w).

Definition write_schedules (l : list Schedule) (s : Store) : Store :=
  mkStore (log_write STORAGE_KEYS.SCHEDULES (world s)) l
          (blockedAttempts s) (siteAttempts s)
          (streakStartDate s) (lastActiveDate s).

(** The [stats] object as the managers see it. *)
Record Stats : Type := mkStats {
  stats_totalBlocksCreated : Z;
  stats_blockedAttempts : JsObj.t Z;
  stats_siteAttempts : JsObj.t Z;
  stats_streakStartDate : option string;
  stats_lastActiveDate : option string
}.

Definition read_stats (s : Store) : Stats :=
  {| stats_totalBlocksCreated := totalBlocksCreated (world s);
     stats_blockedAttempts := blockedAttempts s;
     stats_siteAttempts := siteAttempts s;
     stats_streakStartDate := streakStartDate s;
     stats_lastActiveDate := lastActiveDate s |}.

Definition write_stats (stats : Stats) (s : Store) : Store :=
  mkStore (write_totalBlocksCreated (stats_totalBlocksCreated stats) (world s))
          (schedules s)
          (stats_blockedAttempts stats) (stats_siteAttempts stats)
          (stats_streakStartDate stats) (stats_lastActiveDate stats).

(** Computations over the [Store]. *)
Definition MS (A : Type) : Type := Store -> Outcome A * Store.

Definition retS {A} (a : A) : MS A := fun s => (Return a, s).

Definition bindS {A B} (m : MS A) (k : A -> MS B) : MS B :=
  fun s => match m s with
           | (Return a, s') => k a s'
           | (Throw e, s') => (Throw e, s')
           | (Unmodelled, s') => (Unmodelled, s')
           end.

Definition unmodelledS {A} : MS A := fun s => (Unmodelled, s).

Definition throwS {A} (c : ErrorCode) (remaining : option Z) : MS A :=
  fun s => (Throw (mkError c remaining), s).

Definition getsS {A} (f : Store -> A) : MS A := fun s => (Return (f s), s).

Definition modifyS (f : Store -> Store) : MS unit :=
  fun s => (Return tt, f s).

(** A computation over the [World], run on the [World] of the store. *)
Definition liftW {A} (m : M A) : MS A :=
  fun s => let '(o, w') := m (world s) in (o, with_world w' s).

Declare Scope store_scope.
Delimit Scope store_scope with store.
Notation "x <- m ;; k" := (bindS m (fun x => k))
  (at level 100, m at next level, right associativity) : store_scope.
Notation "m ;;; k" := (bindS m (fun _ => k))
  (at level 100, right associativity) : store_scope.


(** [xs.filter(p)] for a test that reads the clock. *)
Fixpoint filterM {A} (p : A -> M bool) (xs : list A) : M (list A) :=
  match xs with
  | [] => ret []
  | x :: xs' =>
      keep <- p x ;;
      rest <- filterM p xs' ;;
      ret (if keep then x :: rest else rest)
  end.

(** [xs.findIndex(p)]; [None] is [-1]. *)
Fixpoint findIndex {A} (p : A -> bool) (xs : list A) : option nat :=
  match xs with
  | [] => None
  | x :: xs' => if p x then Some O else option_map S (findIndex p xs')
  end.

(** [xs.splice(index, 1)], the array it leaves. *)
Definition splice1 {A} (index : nat) (xs : list A) : list A :=
  (firstn index xs ++ skipn (S index) xs)%list.

(** [s => s.id === id] *)
Definition hasId (wanted : string) (s : Schedule) : bool :=
  String.eqb (id s) wanted.

(** [const schedule = schedules.find(s => s.id === id);
    if (schedule) schedule.enabled = value], the array it leaves. *)
Fixpoint setEnabled (wanted : string) (value : bool) (xs : list Schedule)
  : list Schedule :=
  match xs with
  | [] => []
  | s :: xs' =>
      if hasId wanted s
      then mkSchedule (id s) (domains s) (startTime s) (endTime s) (days s)
                      value (createdAt s) :: xs'
      else s :: setEnabled wanted value xs'
  end.

(** One step of a stable sort by [(a, b) => b.count - a.count]: [x] goes
    before the first entry whose count is not above its own. *)
Fixpoint insertByCount (x : string * Z) (sorted : list (string * Z))
  : list (string * Z) :=
  match sorted with
  | [] => [x]
  | y :: rest =>
      if snd y <=? snd x then x :: sorted else y :: insertByCount x rest
  end.

(** [entries.sort((a, b) => b.count - a.count)]: the sort is stable. *)
Definition sortByCount (entries : list (string * Z)) : list (string * Z) :=
  fold_right insertByCount [] entries.

Module ScheduleManager.

Section Manager.

Context {host : Platform}.

Local Open Scope store_scope.

(** *** storage.js *)

Definition getSchedules : MS (list Schedule) := getsS schedules.

Definition updateSchedules
    (updateFn : list Schedule -> MS (list Schedule)) : MS (list Schedule) :=
  startTime <- liftW Date_now ;;
  current <- getsS schedules ;;
  updated <- updateFn current ;;
  modifyS (write_schedules updated) ;;;
  retS updated.

(** *** schedule-manager.js *)

(** [delete(id)].  The flag [found] that the update callback sets is read
    off the array the callback received. *)
Definition delete (wanted : string) : MS string :=
  before <- getsS schedules ;;
  let found :=
    match findIndex (hasId wanted) before with
    | Some _ => true
    | None => false
    end in
  updateSchedules (fun schedules =>
    retS (match findIndex (hasId wanted) schedules with
          | Some index => splice1 index schedules
          | None => schedules
          end)) ;;;
  if negb found then throwS INVALID_SCHEDULE None
  else retS wanted.

(** [toggle(id, enabled)]; it answers [{ id, enabled }]. *)
Definition toggle (wanted : string) (value : bool) : MS (string * bool) :=
  before <- getsS schedules ;;
  let found := existsb (hasId wanted) before in
  updateSchedules (fun schedules =>
    retS (setEnabled wanted value schedules)) ;;;
  if negb found then throwS INVALID_SCHEDULE None
  else retS (wanted, value).

(** [getAll()] *)
Definition getAll : MS (list Schedule) := getSchedules.

(** [get(id)]; [None] is [null]. *)
Definition get (wanted : string) : MS (option Schedule) :=
  schedules <- getSchedules ;;
  retS (find (hasId wanted) schedules).


(** The callback of the filter of [getActive]. *)
Definition activeNow (currentDay : Z) (schedule : Schedule) : M bool :=
  if negb (enabled schedule) then ret false
  else if negb (existsb (Z.eqb currentDay) (days schedule)) then ret false
  else isInTimeWindow (startTime schedule) (endTime schedule).

(** [getActive()] *)
Definition getActive : MS (list Schedule) :=
  schedules <- getSchedules ;;
  currentDay <- liftW getCurrentDay ;;
  liftW (filterM (activeNow currentDay) schedules).

End Manager.

End ScheduleManager.

(** The calendar of the host: [date_daysBefore t n] is the time value of
    [d] after [d.setDate(d.getDate() - n)], for [d = new Date(t)]. *)
Class Calendar : Type := {
  date_daysBefore : Z -> Z -> Z
}.

Module StatsManager.

Section Manager.

Context {host : Platform} {calendar : Calendar}.

Local Open Scope store_scope.

(** *** storage.js *)

Definition getStats : MS Stats := getsS read_stats.


Definition updateStats (updateFn : Stats -> MS Stats) : MS Stats :=
  startTime <- liftW Date_now ;;
  current <- getsS read_stats ;;
  updated <- updateFn current ;;
  modifyS (write_stats updated) ;;;
  retS updated.

(** *** stats-manager.js *)

(** [!stats.streakStartDate] *)
Definition noDate (d : option string) : bool :=
  match d with
  | None => true
  | Some s => String.eqb s ""
  end.

(** [recordBlockedAttempt(domain)].  For a site that names a member of
    [Object.prototype] and has no count of its own yet,
    [(stats.siteAttempts[cleanDomain] || 0) + 1] is the text of that member
    followed by [1], a count that [siteAttempts] does not hold: the call
    writes the other fields as the code does, leaves the count of the site
    out, and ends outside the model. *)
Definition recordBlockedAttempt (domain : string) : MS unit :=
  let cleanDomain :=
    match cleanDomainOf domain with
    | Some c => c
    | None => domain
    end in
  today <- liftW getTodayKey ;;
  before <- getsS siteAttempts ;;
  updateStats (fun stats =>
    retS {| stats_totalBlocksCreated := stats_totalBlocksCreated stats;
            stats_blockedAttempts :=
              JsObj.set (stats_blockedAttempts stats) today
                (JsNumber.orElse
                   (JsObj.get (stats_blockedAttempts stats) today) 0 + 1);
            stats_siteAttempts :=
              match JsObj.lookup (stats_siteAttempts stats) cleanDomain with
              | JsObj.Inherited => stats_siteAttempts stats
              | _ =>
                  JsObj.set (stats_siteAttempts stats) cleanDomain
                    (JsNumber.orElse
                       (JsObj.get (stats_siteAttempts stats) cleanDomain) 0
                     + 1)
              end;
            stats_streakStartDate :=
              if noDate (stats_streakStartDate stats) then Some today
              else stats_streakStartDate stats;
            stats_lastActiveDate := Some today |}) ;;;
  match JsObj.lookup before cleanDomain with
  | JsObj.Inherited => unmodelledS
  | _ => retS tt
  end.

(** [getTodayCount()] *)
Definition getTodayCount : MS Z :=
  stats <- getStats ;;
  today <- liftW getTodayKey ;;
  retS (JsNumber.orElse (JsObj.get (stats_blockedAttempts stats) today) 0).


(** [getTopSites(limit)], each [{ domain, count }] as a pair. *)
Definition getTopSites (limit : nat) : MS (list (string * Z)) :=
  stats <- getStats ;;
  retS (firstn limit
          (sortByCount (JsObj.entries (stats_siteAttempts stats)))).


(** [incrementBlocksCreated()] *)
Definition incrementBlocksCreated : MS unit :=
  updateStats (fun stats =>
    retS {| stats_totalBlocksCreated :=
              JsNumber.orElse (Some (stats_totalBlocksCreated stats)) 0 + 1;
            stats_blockedAttempts := stats_blockedAttempts stats;
            stats_siteAttempts := stats_siteAttempts stats;
            stats_streakStartDate := stats_streakStartDate stats;
            stats_lastActiveDate := stats_lastActiveDate stats |}) ;;;
  retS tt.

(** The [dateKey] of the loops of [getWeekCount] and [getStreak] at
    index [i]. *)
Definition dayKey (today i : Z) : string :=
  hd "" (JsString.split "T" (date_toISOString (date_daysBefore today i))).

(** The loop of [getWeekCount] from index [i], with [fuel] turns left. *)
Fixpoint weekFrom (attempts : JsObj.t Z) (today : Z) (fuel : nat)
    (i total : Z) : Z :=
  match fuel with
  | O => total
  | S fuel' =>
      weekFrom attempts today fuel' (i + 1)
        (total + JsNumber.orElse (JsObj.get attempts (dayKey today i)) 0)
  end.

(** [getWeekCount()] *)
Definition getWeekCount : MS Z :=
  stats <- getStats ;;
  today <- liftW Date_now ;;
  retS (weekFrom (stats_blockedAttempts stats) today 7 0 0).

(** [attempts[dateKey] > 0] *)
Definition hasAttempts (attempts : JsObj.t Z) (dateKey : string) : bool :=
  match JsObj.get attempts dateKey with
  | Some count => 0 <? count
  | None => false
  end.

(** The loop of [getStreak] from index [i], with [fuel] turns left. *)
Fixpoint streakFrom (attempts : JsObj.t Z) (today : Z) (fuel : nat)
    (i streak : Z) : Z :=
  match fuel with
  | O => streak
  | S fuel' =>
      if hasAttempts attempts (dayKey today i)
      then streakFrom attempts today fuel' (i + 1) (streak + 1)
      else if 0 <? i then streak
      else streakFrom attempts today fuel' (i + 1) streak
  end.

(** [getStreak()] *)
Definition getStreak : MS Z :=
  stats <- getStats ;;
  today <- liftW Date_now ;;
  retS (streakFrom (stats_blockedAttempts stats) today 365 0 0).

(** [cleanup()]; [date >= cutoffKey] compares the two strings. *)
Definition cleanup : MS unit :=
  now <- liftW Date_now ;;
  let cutoffKey := dayKey now 30 in
  updateStats (fun stats =>
    retS {| stats_totalBlocksCreated := stats_totalBlocksCreated stats;
            stats_blockedAttempts :=
              fst (copyWhere (fun entry : string * Z =>
                                negb (String.ltb (fst entry) cutoffKey))
                             (stats_blockedAttempts stats));
            stats_siteAttempts := stats_siteAttempts stats;
            stats_streakStartDate := stats_streakStartDate stats;
            stats_lastActiveDate := stats_lastActiveDate stats |}) ;;;
  retS tt.


End Manager.

End StatsManager.

(** ** More sample data *)

Module MoreSamples.

Import Samples.

(** The sample host with the clock standing at 11:05. *)
Definition hostAtElevenFive : Platform :=
  SampleHost.platform (SampleHost.frozen 39900000).

(** A calendar without daylight saving: a day is 86 400 000 ms. *)
Definition plainCalendar : Calendar :=
  {| date_daysBefore := fun t n => t - n * 86400000 |}.

(** Attempt counters of yesterday and of today. *)
Definition staleAttempts : World :=
  mkWorld 0 [] None []
          [("example.com_1969-12-31", 3); ("example.com_1970-01-01", 2)]
          0 [] [].

(** video.example.org at weekends from 22:00 to 23:30, switched off. *)
Definition nightOwl : Schedule :=
  {| id := "sch_2"; domains := ["video.example.org"];
     startTime := "22:00"; endTime := "23:30";
     days := [0; 6]; enabled := false; createdAt := 0 |}.

Definition twoSchedules : Store :=
  mkStore longBlocked [workHours; nightOwl] [] [] None None.


(** Blocked attempts on the last three days, none today. *)
Definition threeDayStreak : Store :=
  mkStore emptyWorld []
          [("1969-12-29", 4); ("1969-12-30", 1); ("1969-12-31", 2);
           ("1969-11-01", 7)]
          [("example.com", 7); ("video.example.org", 7); ("a.org", 9)]
          (Some "1969-12-29") (Some "1969-12-31").

(** A schedule as a caller writes it, and as [validateSchedule] leaves
    it. *)
Definition officeHoursInput : ScheduleFields :=
  {| f_domains := ["Example.com"; "https://www.a.org/news"];
     f_startTime := "09:00"; f_endTime := "17:00";
     f_days := [1; 2; 9] |}.

Definition officeHoursClean : ScheduleFields :=
  {| f_domains := ["example.com"; "a.org"];
     f_startTime := "09:00"; f_endTime := "17:00";
     f_days := [1; 2] |}.

End MoreSamples.

(** ** Sample callers of [withLock] *)

Module LockSamples.

Import Locking Samples.








End LockSamples.

(** * Properties *)

(** ** Strings *)

Lemma endsWith_iff (s suffix : string) :
  JsString.endsWith s suffix = true <-> exists p, s = p ++ suffix.
Proof.
  split.
  - induction s as [|c s IH]; cbn [JsString.endsWith]; intros H.
    + destruct (String.eqb "" suffix) eqn:E; [|discriminate H].
      apply String.eqb_eq in E. exists "". subst suffix. reflexivity.
    + destruct (String.eqb (String c s) suffix) eqn:E.
      * apply String.eqb_eq in E. exists "". subst suffix. reflexivity.
      * destruct (IH H) as [p Hp]. exists (String c p).
        simpl. now rewrite Hp.
  - intros [p Hp]. revert s Hp.
    induction p as [|c p IH]; intros s Hp; cbn [String.append] in Hp; subst s.
    + destruct suffix; cbn [JsString.endsWith]; now rewrite String.eqb_refl.
    + cbn [JsString.endsWith].
      destruct (String.eqb (String c (p ++ suffix)) suffix); [reflexivity|].
      now apply IH.
Qed.

Lemma toLowerCase_nonempty (s : string) :
  s <> "" -> JsString.toLowerCase s <> "".
Proof. destruct s; simpl; [congruence|discriminate]. Qed.

(** [domainMatches] on non-empty arguments compares the lower-cased strings. *)
Lemma domainMatches_lowered (a b : string) :
  a <> "" -> b <> "" ->
  (domainMatches a b = true <->
   JsString.toLowerCase a = JsString.toLowerCase b
   \/ exists p, JsString.toLowerCase a = p ++ "." ++ JsString.toLowerCase b).
Proof.
  intros Ha Hb. unfold domainMatches.
  apply String.eqb_neq in Ha. apply String.eqb_neq in Hb.
  rewrite Ha, Hb. cbn [orb].
  destruct (String.eqb_spec (JsString.toLowerCase a) (JsString.toLowerCase b))
    as [E|E].
  - split; auto.
  - rewrite endsWith_iff. split; [auto|]. intros [H|H]; [contradiction|exact H].
Qed.

(** C4 (as amended).  For all non-empty strings [a] and [b],
    [domainMatches a b] is true iff the lower-cased [a] equals the lower-cased
    [b] or ends with ["."] followed by the lower-cased [b]; so for lower-case
    domains it is true iff [a = b] or [a] ends with ["." ++ b].  In particular
    ["notexample.com"] does not match ["example.com"], and ["example.com"]
    does not match ["sub.example.com"]. *)
Theorem domainMatches_containment :
  (forall a b : string, a <> "" -> b <> "" ->
     (domainMatches a b = true <->
      JsString.toLowerCase a = JsString.toLowerCase b
      \/ exists p, JsString.toLowerCase a = p ++ "." ++ JsString.toLowerCase b))
  /\ (forall a b : string, a <> "" -> b <> "" ->
        JsString.isLowerCase a -> JsString.isLowerCase b ->
        (domainMatches a b = true <-> a = b \/ exists p, a = p ++ "." ++ b))
  /\ domainMatches "notexample.com" "example.com" = false
  /\ domainMatches "example.com" "sub.example.com" = false.
Proof.
  split; [exact domainMatches_lowered|].
  split; [|split; reflexivity].
  intros a b Ha Hb La Lb.
  rewrite (domainMatches_lowered a b Ha Hb).
  unfold JsString.isLowerCase in La, Lb. rewrite La, Lb. reflexivity.
Qed.

(** C4, the claim as stated fails: ["Example.com"] matches ["example.com"],
    yet the two strings differ and the first does not end with
    [".example.com"]. *)
Lemma domainMatches_ignores_case :
  "Example.com" <> "" /\ "example.com" <> ""
  /\ domainMatches "Example.com" "example.com" = true
  /\ ~ ("Example.com" = "example.com"
        \/ exists p, "Example.com" = p ++ "." ++ "example.com").
Proof.
  repeat split; try discriminate.
  intros [H|H]; [discriminate|].
  apply endsWith_iff in H. discriminate.
Qed.

(** ** Numbers *)

Lemma ceilDiv_pos (x d : Z) : 0 < d -> 0 < x -> 0 < ceilDiv x d.
Proof.
  intros Hd Hx. unfold ceilDiv.
  assert ((- x) / d < 0); [|lia].
  apply Z.div_lt_upper_bound; lia.
Qed.

Lemma ceilDiv_nonpos (x d : Z) : 0 < d -> x <= 0 -> ceilDiv x d <= 0.
Proof.
  intros Hd Hx. unfold ceilDiv.
  assert (0 <= (- x) / d); [|lia].
  apply Z.div_pos; lia.
Qed.

Lemma ceilDiv_le (x d g : Z) : 0 < d -> x <= g * d -> ceilDiv x d <= g.
Proof.
  intros Hd Hx. unfold ceilDiv.
  assert (- g <= (- x) / d); [|lia].
  apply Z.div_le_lower_bound; lia.
Qed.

Lemma digitChar_isDigit (d : Z) :
  0 <= d < 10 ->
  JsString.isDigit (JsNumber.digitChar d) = true
  /\ JsString.digitValue (JsNumber.digitChar d) = d
  /\ JsString.isWhiteSpace (JsNumber.digitChar d) = false
  /\ (forall (A : Type) (x y z : A),
        match JsNumber.digitChar d with
        | "-"%char => x
        | "+"%char => y
        | _ => z
        end = z).
Proof.
  intros H.
  assert (d = 0 \/ d = 1 \/ d = 2 \/ d = 3 \/ d = 4 \/ d = 5 \/ d = 6
          \/ d = 7 \/ d = 8 \/ d = 9) as Hd by lia.
  repeat (destruct Hd as [Hd|Hd]; [subst d; repeat split|]).
  subst d; repeat split.
Qed.

Lemma digitsOf_head (fuel : nat) (n : Z) (rest : string) :
  0 <= n ->
  exists d r, 0 <= d < 10
              /\ JsNumber.digitsOf (S fuel) n rest = String (JsNumber.digitChar d) r.
Proof.
  revert n rest. induction fuel as [|fuel IH]; intros n rest Hn.
  - cbn [JsNumber.digitsOf]. exists (n mod 10). eexists. split.
    + apply Z.mod_pos_bound; lia.
    + destruct (n <? 10); reflexivity.
  - change (JsNumber.digitsOf (S (S fuel)) n rest)
      with (let acc' := String (JsNumber.digitChar (n mod 10)) rest in
            if n <? 10 then acc' else JsNumber.digitsOf (S fuel) (n / 10) acc').
    cbv zeta. destruct (n <? 10).
    + exists (n mod 10). eexists. split; [apply Z.mod_pos_bound; lia|reflexivity].
    + apply IH. apply Z.div_pos; lia.
Qed.

Lemma digitsValue_digitsOf (fuel : nat) (n : Z) (rest : string) :
  0 <= n < 10 ^ Z.of_nat fuel ->
  JsNumber.digitsValue (JsNumber.digitsOf fuel n rest) 0
  = JsNumber.digitsValue rest n.
Proof.
  revert n rest. induction fuel as [|fuel IH]; intros n rest Hn.
  - cbn in Hn. assert (n = 0) by lia. subst n. reflexivity.
  - cbn [JsNumber.digitsOf].
    assert (0 <= n mod 10 < 10) as Hm by (apply Z.mod_pos_bound; lia).
    destruct (digitChar_isDigit (n mod 10) Hm) as (Hd & Hv & _).
    destruct (Z.ltb_spec n 10) as [Hlt|Hge].
    + cbn [JsNumber.digitsValue]. rewrite Hd, Hv.
      rewrite Z.mod_small by lia.
      replace (10 * 0 + n) with n by lia. reflexivity.
    + rewrite IH.
      * cbn [JsNumber.digitsValue]. rewrite Hd, Hv.
        replace (10 * (n / 10) + n mod 10) with n; [reflexivity|].
        pose proof (Z.div_mod n 10). lia.
      * split; [apply Z.div_pos; lia|].
        apply Z.div_lt_upper_bound; [lia|].
        rewrite Nat2Z.inj_succ, Z.pow_succ_r in Hn by lia. lia.
Qed.

(** [parseInt] gives back an integer that prints as itself. *)
Lemma parseInt_JsInt (m : Z) :
  Z.abs m < 2 ^ 53 -> parseInt (JsInt m) = Some m.
Proof.
  intros Hm. unfold parseInt, ToString, JsNumber.toString.
  destruct (Z.ltb_spec (Z.abs m) (2 ^ 53)) as [_|Hge]; [|lia].
  assert (Z.abs m < 10 ^ 21) as Hm' by lia. clear Hm. rename Hm' into Hm.
  destruct (Z.ltb_spec m 0) as [Hneg|Hpos].
  - unfold JsNumber.parseInt10. cbn [JsString.trimStart].
    change (JsString.isWhiteSpace "-") with false. cbv iota.
    destruct (digitsOf_head 20 (- m) "") as (d & r & Hd & E); [lia|].
    assert (JsNumber.startsWithDigit (JsNumber.digitsOf 21 (- m) "") = true) as Hs.
    { rewrite E. cbn [JsNumber.startsWithDigit].
      apply (digitChar_isDigit d Hd). }
    rewrite Hs. rewrite (digitsValue_digitsOf 21); [|change (Z.of_nat 21) with 21; lia].
    cbn [JsNumber.digitsValue]. f_equal. lia.
  - unfold JsNumber.parseInt10.
    destruct (digitsOf_head 20 m "") as (d & r & Hd & E); [lia|].
    destruct (digitChar_isDigit d Hd) as (Hdig & _ & Hws & Hsign).
    assert (JsString.trimStart (JsNumber.digitsOf 21 m "")
            = JsNumber.digitsOf 21 m "") as Ht.
    { rewrite E. cbn [JsString.trimStart]. now rewrite Hws. }
    rewrite Ht. rewrite E at 1. rewrite Hsign.
    assert (JsNumber.startsWithDigit (JsNumber.digitsOf 21 m "") = true) as Hs.
    { rewrite E. exact Hdig. }
    rewrite Hs. rewrite (digitsValue_digitsOf 21); [|change (Z.of_nat 21) with 21; lia].
    cbn [JsNumber.digitsValue]. f_equal. lia.
Qed.

(** The integers below [10^300] in magnitude are in the range of the
    Numbers. *)
Lemma isFinite_below (z : Z) :
  Z.abs z < 10 ^ 300 -> JsNumber.isFinite z = true.
Proof.
  intros Hz. unfold JsNumber.isFinite. apply Z.ltb_lt.
  assert (10 ^ 300 < 2 ^ 1024 - 2 ^ 970) by reflexivity. lia.
Qed.

Lemma validateDuration_JsInt (m : Z) :
  Z.abs m < 2 ^ 53 ->
  validateDuration (JsInt m)
  = if m <? 1 then Invalid DURATION_TOO_SHORT
    else if 480 <? m then Invalid DURATION_TOO_LONG
    else Valid m.
Proof.
  intros Hm. unfold validateDuration. rewrite (parseInt_JsInt m Hm).
  rewrite isFinite_below; [reflexivity|].
  assert (2 ^ 53 < 10 ^ 300) by reflexivity. lia.
Qed.


Lemma digitsOf_S (fuel : nat) (n : Z) (acc : string) :
  JsNumber.digitsOf (S fuel) n acc
  = if n <? 10 then String (JsNumber.digitChar (n mod 10)) acc
    else JsNumber.digitsOf fuel (n / 10)
           (String (JsNumber.digitChar (n mod 10)) acc).
Proof. reflexivity. Qed.

Lemma allDigits_digitsOf (fuel : nat) (n : Z) (acc : string) :
  0 <= n -> JsNumber.allDigits acc = true ->
  JsNumber.allDigits (JsNumber.digitsOf fuel n acc) = true.
Proof.
  revert n acc. induction fuel as [|fuel IH]; intros n acc Hn Hacc;
    [exact Hacc|].
  rewrite digitsOf_S.
  assert (JsNumber.allDigits (String (JsNumber.digitChar (n mod 10)) acc)
          = true) as H.
  { cbn [JsNumber.allDigits]. rewrite Hacc.
    destruct (digitChar_isDigit (n mod 10)) as (-> & _);
      [apply Z.mod_pos_bound; lia|reflexivity]. }
  destruct (n <? 10); [exact H|]. apply IH; [apply Z.div_pos; lia|exact H].
Qed.

(** The first digit printed for a positive integer is not zero. *)
Lemma digitsOf_head_pos (fuel : nat) (n : Z) (acc : string) :
  0 < n < 10 ^ Z.of_nat fuel ->
  exists d r, 1 <= d < 10
              /\ JsNumber.digitsOf fuel n acc = String (JsNumber.digitChar d) r.
Proof.
  revert n acc. induction fuel as [|fuel IH]; intros n acc Hn.
  - cbn in Hn. lia.
  - rewrite digitsOf_S. destruct (Z.ltb_spec n 10) as [Hlt|Hge].
    + exists (n mod 10). eexists. split; [|reflexivity].
      rewrite Z.mod_small; lia.
    + apply IH. split; [apply Z.div_str_pos; lia|].
      apply Z.div_lt_upper_bound; [lia|].
      rewrite Nat2Z.inj_succ, Z.pow_succ_r in Hn by lia. lia.
Qed.

Lemma length_digitsOf_upper (fuel : nat) (n : Z) (acc : string) (j : nat) :
  0 <= n < 10 ^ Z.of_nat j -> (1 <= j)%nat ->
  (String.length (JsNumber.digitsOf fuel n acc) <= j + String.length acc)%nat.
Proof.
  revert n acc j. induction fuel as [|fuel IH]; intros n acc j Hn Hj;
    [cbn; lia|].
  rewrite digitsOf_S. destruct (Z.ltb_spec n 10) as [Hlt|Hge].
  - cbn [String.length]. lia.
  - destruct j as [|[|j]]; [lia|cbn in Hn; lia|].
    specialize (IH (n / 10) (String (JsNumber.digitChar (n mod 10)) acc)
                   (S j)).
    cbn [String.length] in IH.
    assert (0 <= n / 10 < 10 ^ Z.of_nat (S j)) as H.
    { split; [apply Z.div_pos; lia|]. apply Z.div_lt_upper_bound; [lia|].
      rewrite (Nat2Z.inj_succ (S j)), Z.pow_succ_r in Hn by lia. lia. }
    specialize (IH H ltac:(lia)). lia.
Qed.

Lemma length_digitsOf_lower (fuel : nat) (n : Z) (acc : string) (j : nat) :
  10 ^ Z.of_nat j <= n -> (j < fuel)%nat ->
  (j + 1 + String.length acc
   <= String.length (JsNumber.digitsOf fuel n acc))%nat.
Proof.
  revert n acc j. induction fuel as [|fuel IH]; intros n acc j Hn Hj; [lia|].
  rewrite digitsOf_S. destruct (Z.ltb_spec n 10) as [Hlt|Hge].
  - destruct j as [|j]; [cbn [String.length]; lia|].
    rewrite Nat2Z.inj_succ, Z.pow_succ_r in Hn by lia.
    assert (0 < 10 ^ Z.of_nat j) by (apply Z.pow_pos_nonneg; lia). lia.
  - destruct j as [|j].
    + destruct fuel as [|fuel]; [cbn [JsNumber.digitsOf String.length]; lia|].
      assert (1 <= n / 10) as H by (apply Z.div_le_lower_bound; lia).
      specialize (IH (n / 10) (String (JsNumber.digitChar (n mod 10)) acc)
                     O ltac:(cbn; lia) ltac:(lia)).
      cbn [String.length] in IH. lia.
    + specialize (IH (n / 10) (String (JsNumber.digitChar (n mod 10)) acc) j).
      cbn [String.length] in IH.
      assert (10 ^ Z.of_nat j <= n / 10) as H.
      { apply Z.div_le_lower_bound; [lia|].
        rewrite Nat2Z.inj_succ, Z.pow_succ_r in Hn by lia. lia. }
      specialize (IH H ltac:(lia)). lia.
Qed.

Lemma allDigits_zeros (k : nat) : JsNumber.allDigits (JsNumber.zeros k) = true.
Proof. induction k as [|k IH]; [reflexivity|exact IH]. Qed.

Lemma allDigits_app (a b : string) :
  JsNumber.allDigits a = true -> JsNumber.allDigits b = true ->
  JsNumber.allDigits (a ++ b) = true.
Proof.
  induction a as [|c a IH]; cbn [append JsNumber.allDigits]; [auto|].
  intros H Hb. apply andb_true_iff in H as [Hc Ha].
  rewrite Hc. now apply IH.
Qed.

Lemma length_app (a b : string) :
  String.length (a ++ b) = (String.length a + String.length b)%nat.
Proof. induction a as [|c a IH]; cbn [append String.length]; [reflexivity|now rewrite IH]. Qed.

Lemma length_zeros (k : nat) : String.length (JsNumber.zeros k) = k.
Proof. induction k as [|k IH]; cbn [JsNumber.zeros String.length]; [reflexivity|now rewrite IH]. Qed.

(** A run of digits is worth at least what it starts from, shifted. *)
Lemma digitsValue_lower (r : string) (acc : Z) :
  JsNumber.allDigits r = true -> 0 <= acc ->
  acc * 10 ^ Z.of_nat (String.length r) <= JsNumber.digitsValue r acc.
Proof.
  revert acc. induction r as [|c r IH]; intros acc Hr Hacc.
  - cbn. lia.
  - cbn [JsNumber.allDigits] in Hr. apply andb_true_iff in Hr as [Hc Hr].
    cbn [JsNumber.digitsValue String.length]. rewrite Hc.
    assert (0 <= JsString.digitValue c) as Hv.
    { unfold JsString.isDigit in Hc. unfold JsString.digitValue.
      apply andb_true_iff in Hc as [Hlo _]. apply Nat.leb_le in Hlo. lia. }
    specialize (IH (10 * acc + JsString.digitValue c) Hr ltac:(lia)).
    rewrite Nat2Z.inj_succ, Z.pow_succ_r by lia.
    assert (0 <= 10 ^ Z.of_nat (String.length r)) by (apply Z.pow_nonneg; lia).
    nia.
Qed.

Lemma digitsValue_nonneg (r : string) (acc : Z) :
  0 <= acc -> 0 <= JsNumber.digitsValue r acc.
Proof.
  revert acc. induction r as [|c r IH]; intros acc Hacc; [exact Hacc|].
  cbn [JsNumber.digitsValue]. destruct (JsString.isDigit c) eqn:Hc; [|exact Hacc].
  apply IH. unfold JsString.isDigit in Hc. unfold JsString.digitValue.
  apply andb_true_iff in Hc as [Hlo _]. apply Nat.leb_le in Hlo. lia.
Qed.

(** [parseInt] of a text that starts with a digit. *)
Lemma digitsValue_upper (r : string) (acc : Z) :
  0 <= acc ->
  JsNumber.digitsValue r acc < (acc + 1) * 10 ^ Z.of_nat (String.length r).
Proof.
  revert acc. induction r as [|c r IH]; intros acc Hacc.
  - cbn. lia.
  - cbn [JsNumber.digitsValue String.length].
    rewrite Nat2Z.inj_succ, Z.pow_succ_r by lia.
    assert (0 < 10 ^ Z.of_nat (String.length r)) by (apply Z.pow_pos_nonneg; lia).
    destruct (JsString.isDigit c) eqn:Ec.
    + assert (0 <= JsString.digitValue c <= 9) as Hd.
      { unfold JsString.isDigit in Ec. unfold JsString.digitValue.
        apply andb_true_iff in Ec as [Hlo Hhi].
        apply Nat.leb_le in Hlo, Hhi. lia. }
      specialize (IH (10 * acc + JsString.digitValue c) ltac:(lia)). nia.
    + nia.
Qed.

Lemma parseInt10_digit (d : Z) (r : string) :
  0 <= d < 10 ->
  JsNumber.parseInt10 (String (JsNumber.digitChar d) r)
  = Some (JsNumber.digitsValue r d).
Proof.
  intros Hd. destruct (digitChar_isDigit d Hd) as (Hdig & Hv & Hws & Hsign).
  unfold JsNumber.parseInt10. cbn [JsString.trimStart]. rewrite Hws, Hsign.
  cbn [JsNumber.startsWithDigit JsNumber.digitsValue]. rewrite Hdig, Hv.
  replace (10 * 0 + d) with d by lia. f_equal.
  destruct (JsNumber.digitsValue r d); reflexivity.
Qed.

Lemma parseInt10_minus_digit (d : Z) (r : string) :
  0 <= d < 10 ->
  JsNumber.parseInt10 (String "-" (String (JsNumber.digitChar d) r))
  = Some (- JsNumber.digitsValue r d).
Proof.
  intros Hd. destruct (digitChar_isDigit d Hd) as (Hdig & Hv & Hws & Hsign).
  unfold JsNumber.parseInt10. cbn [JsString.trimStart].
  change (JsString.isWhiteSpace "-") with false. cbv iota.
  cbn [JsNumber.startsWithDigit JsNumber.digitsValue]. rewrite Hdig, Hv.
  replace (10 * 0 + d) with d by lia. f_equal; lia.
Qed.

(** *** Numbers from [2^53] on *)

Lemma ulp_bounds (x : Z) :
  2 ^ 53 <= x -> 2 <= JsNumber.ulp x /\ JsNumber.ulp x * 2 ^ 52 <= x.
Proof.
  intros Hx. unfold JsNumber.ulp.
  assert (0 < x) as Hpos by lia.
  pose proof (Z.log2_spec x Hpos) as [Hlo _].
  assert (53 <= Z.log2 x) as Hl by (apply Z.log2_le_pow2; lia).
  split.
  - change 2 with (2 ^ 1) at 1. apply Z.pow_le_mono_r; lia.
  - rewrite <- Z.pow_add_r by lia.
    replace (Z.log2 x - 52 + 52) with (Z.log2 x) by lia. exact Hlo.
Qed.

Lemma gapBelow_le (x : Z) :
  2 ^ 53 <= x -> 0 <= JsNumber.gapBelow x <= JsNumber.ulp x.
Proof.
  intros Hx. destruct (ulp_bounds x Hx) as [H2 _]. unfold JsNumber.gapBelow.
  destruct (x =? 2 ^ Z.log2 x); [|lia].
  split; [apply Z.div_pos; lia|]. apply Z.div_le_upper_bound; lia.
Qed.

Lemma roundsTo_bounds (x c2 : Z) :
  2 ^ 53 <= x -> JsNumber.roundsTo x c2 = true ->
  2 * x - JsNumber.ulp x <= c2 <= 2 * x + JsNumber.ulp x.
Proof.
  intros Hx H. pose proof (gapBelow_le x Hx). unfold JsNumber.roundsTo in H.
  destruct (Z.even _); apply andb_true_iff in H as [H1 H2].
  - apply Z.leb_le in H1, H2. lia.
  - apply Z.ltb_lt in H1, H2. lia.
Qed.

Lemma candidate_roundsTo (x n k s : Z) :
  JsNumber.candidate x n k = Some s ->
  JsNumber.roundsTo x (2 * (s * 10 ^ (n - k))) = true.
Proof.
  unfold JsNumber.candidate.
  set (p := 10 ^ (n - k)). set (lo := x / p).
  destruct (JsNumber.roundsTo x (2 * (lo * p))) eqn:Elo;
    destruct (JsNumber.roundsTo x (2 * ((lo + 1) * p))) eqn:Ehi;
    cbn [andb]; try discriminate.
  - destruct (lo + 1 <? 10 ^ k); cbn [andb].
    + destruct (_ <? _); [now intros [= <-]|].
      destruct (_ <? _); [now intros [= <-]|].
      destruct (Z.even lo); now intros [= <-].
    + now intros [= <-].
  - now intros [= <-].
  - destruct (lo + 1 <? 10 ^ k); cbn [andb]; [now intros [= <-]|discriminate].
Qed.

Lemma shortestFrom_roundsTo (fuel : nat) (x n k s : Z) :
  JsNumber.shortestFrom fuel x n k = Some s ->
  exists k', JsNumber.roundsTo x (2 * (s * 10 ^ (n - k'))) = true.
Proof.
  revert k. induction fuel as [|fuel IH]; intros k; cbn [JsNumber.shortestFrom];
    [discriminate|].
  destruct (JsNumber.candidate x n k) as [s'|] eqn:E.
  - intros [= <-]. exists k. now apply candidate_roundsTo.
  - apply IH.
Qed.

(** The digits that [shortest] gives are those of a positive integer. *)
Lemma shortest_digits (x : Z) :
  2 ^ 53 <= x ->
  0 < fst (JsNumber.shortest x) <= 2 * x.
Proof.
  intros Hx. unfold JsNumber.shortest.
  destruct (JsNumber.roundsTo x (2 * 10 ^ JsNumber.digitCount x));
    [cbn [fst]; lia|].
  destruct (JsNumber.shortestFrom 17 x (JsNumber.digitCount x) 1) as [s|] eqn:E;
    [|cbn [fst]; lia].
  cbn [fst]. apply shortestFrom_roundsTo in E as (k & Hr).
  apply (roundsTo_bounds x _ Hx) in Hr.
  destruct (ulp_bounds x Hx) as [Hu1 Hu2].
  set (p := 10 ^ (JsNumber.digitCount x - k)) in *.
  assert (0 <= p) as Hp by (apply Z.pow_nonneg; lia).
  assert (0 < s * p) as Hsp by lia.
  assert (0 < s) as Hs by nia.
  split; [exact Hs|].
  assert (1 <= p) as Hp1 by nia.
  assert (s * 1 <= s * p) as Hle by (apply Z.mul_le_mono_nonneg_l; lia).
  assert (JsNumber.ulp x <= x) by nia.
  lia.
Qed.

Lemma digitCount_upper (x : Z) (j : nat) :
  0 <= x < 10 ^ Z.of_nat j -> (1 <= j)%nat ->
  JsNumber.digitCount x <= Z.of_nat j.
Proof.
  intros Hx Hj. unfold JsNumber.digitCount.
  pose proof (length_digitsOf_upper 400 x "" j Hx Hj) as H.
  cbn [String.length] in H. lia.
Qed.

Lemma digitCount_lower (x : Z) (j : nat) :
  10 ^ Z.of_nat j <= x -> (j < 400)%nat ->
  Z.of_nat j + 1 <= JsNumber.digitCount x.
Proof.
  intros Hx Hj. unfold JsNumber.digitCount.
  pose proof (length_digitsOf_lower 400 x "" j Hx Hj) as H.
  cbn [String.length] in H. lia.
Qed.

Lemma printLarge_head (x : Z) :
  2 ^ 53 <= x < 10 ^ 399 ->
  exists d r, 1 <= d < 10
    /\ JsNumber.digitsOf 400 (fst (JsNumber.shortest x)) ""
       = String (JsNumber.digitChar d) r
    /\ JsNumber.allDigits r = true.
Proof.
  intros Hx. destruct (shortest_digits x) as [Hs1 Hs2]; [lia|].
  destruct (digitsOf_head_pos 400 (fst (JsNumber.shortest x)) "")
    as (d & r & Hd & E).
  { split; [exact Hs1|]. change (Z.of_nat 400) with 400.
    assert (10 ^ 400 = 10 * 10 ^ 399) as -> by reflexivity. lia. }
  exists d, r. split; [exact Hd|]. split; [exact E|].
  pose proof (allDigits_digitsOf 400 (fst (JsNumber.shortest x)) ""
                ltac:(lia) eq_refl) as Hall.
  rewrite E in Hall. cbn [JsNumber.allDigits] in Hall.
  now apply andb_true_iff in Hall as [_ Hall].
Qed.

Lemma shortest_exponent_lower (x : Z) (j : nat) :
  10 ^ Z.of_nat j <= x -> (j < 400)%nat ->
  Z.of_nat j + 1 <= snd (JsNumber.shortest x).
Proof.
  intros Hx Hj. pose proof (digitCount_lower x j Hx Hj).
  unfold JsNumber.shortest.
  destruct (JsNumber.roundsTo _ _); [cbn [snd]; lia|].
  destruct (JsNumber.shortestFrom _ _ _ _); cbn [snd]; lia.
Qed.

Lemma pow10_21_divide (e : Z) : 0 <= e <= 21 -> (2 ^ e | 10 ^ 21).
Proof.
  intros He. exists (2 ^ (21 - e) * 5 ^ 21).
  rewrite <- Z.mul_assoc, (Z.mul_comm (5 ^ 21)), Z.mul_assoc.
  rewrite <- Z.pow_add_r by lia.
  replace (21 - e + e) with 21 by lia. reflexivity.
Qed.

(** A Number below [10^21] prints without an exponent. *)
Lemma shortest_exponent_upper (x : Z) :
  JsNumber.isNumber x = true -> 2 ^ 53 <= x < 10 ^ 21 ->
  snd (JsNumber.shortest x) <= 21.
Proof.
  intros Hnum Hx.
  assert (JsNumber.digitCount x <= 21) as Hn.
  { apply (digitCount_upper x 21); [|lia]. change (Z.of_nat 21) with 21. lia. }
  unfold JsNumber.shortest.
  destruct (JsNumber.roundsTo x (2 * 10 ^ JsNumber.digitCount x)) eqn:Hr.
  2:{ destruct (JsNumber.shortestFrom _ _ _ _); cbn [snd]; exact Hn. }
  cbn [snd]. destruct (Z.eq_dec (JsNumber.digitCount x) 21) as [E|]; [|lia].
  exfalso. rewrite E in Hr. apply roundsTo_bounds in Hr; [|lia].
  destruct (ulp_bounds x) as [Hu1 Hu2]; [lia|].
  unfold JsNumber.isNumber in Hnum. rewrite Z.abs_eq in Hnum by lia.
  apply orb_true_iff in Hnum as [H|H]; [apply Z.ltb_lt in H; lia|].
  apply andb_true_iff in H as [H _]. apply Z.eqb_eq in H.
  assert (Z.log2 x < 70) as Hl.
  { apply Z.log2_lt_pow2; [lia|]. 
    assert (10 ^ 21 < 2 ^ 70) by reflexivity. lia. }
  assert (53 <= Z.log2 x) as Hl' by (apply Z.log2_le_pow2; lia).
  assert ((JsNumber.ulp x | 10 ^ 21)) as Hdiv.
  { unfold JsNumber.ulp. apply pow10_21_divide. lia. }
  apply Z.mod_divide in Hdiv; [|lia].
  assert ((10 ^ 21 - x) mod JsNumber.ulp x = 0) as Hd.
  { rewrite Zminus_mod, Hdiv, H. apply Z.mod_0_l. lia. }
  apply Z.mod_divide in Hd as [q Hq]; [|lia].
  assert (0 < q) by nia. nia.
Qed.

(** [validateDuration] on a Number of magnitude [2^53] and more that
    prints without an exponent. *)
Lemma validateDuration_JsInt_large (m : Z) :
  JsNumber.isNumber m = true -> 2 ^ 53 <= m < 10 ^ 21 ->
  validateDuration (JsInt m) = Invalid DURATION_TOO_LONG.
Proof.
  intros Hnum Hm.
  destruct (printLarge_head m) as (d & r & Hd & E & Hall).
  { split; [lia|]. assert (10 ^ 21 < 10 ^ 399) by reflexivity. lia. }
  pose proof (shortest_exponent_upper m Hnum Hm) as Hup.
  pose proof (shortest_exponent_lower m 15) as Hlow.
  change (Z.of_nat 15) with 15 in Hlow.
  specialize (Hlow ltac:(assert (10 ^ 15 <= 2 ^ 53) by (apply Z.leb_le; reflexivity); lia) ltac:(lia)).
  unfold validateDuration, parseInt, ToString, JsNumber.toString.
  destruct (Z.ltb_spec (Z.abs m) (2 ^ 53)); [lia|].
  destruct (Z.ltb_spec m 0); [lia|].
  unfold JsNumber.printLarge.
  destruct (JsNumber.shortest m) as [s n] eqn:Es. cbn [fst snd] in *.
  destruct (Z.leb_spec n 21); [|lia]. rewrite E.
  cbn [append]. rewrite (parseInt10_digit d) by lia.
  set (j := Z.to_nat (n - Z.of_nat (String.length (String (JsNumber.digitChar d) r)))).
  assert (JsNumber.allDigits (r ++ JsNumber.zeros j) = true) as Hall'
    by (apply allDigits_app; [exact Hall|apply allDigits_zeros]).
  pose proof (digitsValue_lower (r ++ JsNumber.zeros j) d Hall' ltac:(lia))
    as Hv.
  rewrite length_app, length_zeros in Hv.
  assert (3 <= String.length r + j)%nat as Hlen.
  { subst j. cbn [String.length]. lia. }
  assert (10 ^ 3 <= 10 ^ Z.of_nat (String.length r + j)) as Hp.
  { apply Z.pow_le_mono_r; lia. }
  change (10 ^ 3) with 1000 in Hp.
  pose proof (digitsValue_upper (r ++ JsNumber.zeros j) d ltac:(lia)) as Hv'.
  rewrite length_app, length_zeros in Hv'.
  assert (String.length r + j <= 42)%nat as Hlen'.
  { pose proof (shortest_digits m ltac:(lia)) as Hs. rewrite Es in Hs.
    cbn [fst] in Hs.
    pose proof (length_digitsOf_upper 400 s "" 22
                  ltac:(change (Z.of_nat 22) with 22;
                        assert (2 * 10 ^ 21 < 10 ^ 22) by reflexivity; lia)
                  ltac:(lia)) as Hl.
    rewrite E in Hl. cbn [String.length] in Hl. subst j. lia. }
  assert (10 ^ Z.of_nat (String.length r + j) <= 10 ^ 42) as Hp'.
  { apply Z.pow_le_mono_r; lia. }
  set (v := JsNumber.digitsValue (r ++ JsNumber.zeros j) d) in *.
  assert (1000 <= v) by nia.
  assert (v < 10 ^ 300) as Hfin.
  { assert (10 * 10 ^ 42 < 10 ^ 300) by reflexivity. nia. }
  rewrite isFinite_below by lia. cbn [negb].
  unfold DEFAULTS.MIN_BLOCK_MINUTES, DEFAULTS.MAX_BLOCK_MINUTES.
  destruct (Z.ltb_spec v 1); [lia|]. destruct (Z.ltb_spec 480 v); [reflexivity|lia].
Qed.

(** From [10^21] on a Number prints in exponent notation, and [parseInt]
    reads no further than its first digit. *)
Lemma validateDuration_JsInt_exponent (m : Z) :
  10 ^ 21 <= m < 10 ^ 399 ->
  exists d, 1 <= d <= 9 /\ validateDuration (JsInt m) = Valid d.
Proof.
  intros Hm.
  assert (2 ^ 53 < 10 ^ 21) as H53 by reflexivity.
  destruct (printLarge_head m) as (d & r & Hd & E & Hall); [lia|].
  pose proof (shortest_exponent_lower m 21) as Hlow.
  change (Z.of_nat 21) with 21 in Hlow.
  specialize (Hlow ltac:(lia) ltac:(lia)).
  exists d. split; [lia|].
  unfold validateDuration, parseInt, ToString, JsNumber.toString.
  destruct (Z.ltb_spec (Z.abs m) (2 ^ 53)); [lia|].
  destruct (Z.ltb_spec m 0); [lia|].
  unfold JsNumber.printLarge.
  destruct (JsNumber.shortest m) as [s n] eqn:Es. cbn [fst snd] in *.
  destruct (Z.leb_spec n 21); [lia|]. rewrite E.
  assert (JsNumber.parseInt10
            match r with
            | "" => String (JsNumber.digitChar d)
                      ("e+" ++ JsNumber.digitsOf 400 (n - 1) "")
            | String _ _ =>
                String (JsNumber.digitChar d)
                  ("." ++ r ++ "e+" ++ JsNumber.digitsOf 400 (n - 1) "")
            end = Some d) as ->.
  { destruct r as [|c r']; rewrite (parseInt10_digit d) by lia; reflexivity. }
  rewrite isFinite_below by (assert (10 < 10 ^ 300) by reflexivity; lia).
  cbn [negb].
  unfold DEFAULTS.MIN_BLOCK_MINUTES, DEFAULTS.MAX_BLOCK_MINUTES.
  destruct (Z.ltb_spec d 1); [lia|]. destruct (Z.ltb_spec 480 d); [lia|].
  reflexivity.
Qed.

(** A Number of [-2^53] and less prints as a minus sign and digits. *)
Lemma validateDuration_JsInt_negative (m : Z) :
  - 10 ^ 399 < m <= - 2 ^ 53 ->
  validateDuration (JsInt m) = Invalid DURATION_TOO_SHORT.
Proof.
  intros Hm.
  destruct (printLarge_head (- m)) as (d & r & Hd & E & Hall); [lia|].
  unfold validateDuration, parseInt, ToString, JsNumber.toString.
  destruct (Z.ltb_spec (Z.abs m) (2 ^ 53)); [lia|].
  destruct (Z.ltb_spec m 0); [|lia].
  unfold JsNumber.printLarge.
  destruct (JsNumber.shortest (- m)) as [s n] eqn:Es. cbn [fst snd] in *.
  rewrite E.
  assert (exists rest,
            (if n <=? 21
             then String (JsNumber.digitChar d) r
                  ++ JsNumber.zeros
                       (Z.to_nat
                          (n - Z.of_nat
                                 (String.length
                                    (String (JsNumber.digitChar d) r))))
             else
               match r with
               | "" => String (JsNumber.digitChar d)
                         ("e+" ++ JsNumber.digitsOf 400 (n - 1) "")
               | String _ _ =>
                   String (JsNumber.digitChar d)
                     ("." ++ r ++ "e+" ++ JsNumber.digitsOf 400 (n - 1) "")
               end) = String (JsNumber.digitChar d) rest
            /\ JsNumber.digitsValue rest d < 10 * 10 ^ 42)
    as (rest & -> & Hv).
  { destruct (Z.leb_spec n 21) as [Hn|Hn].
    - eexists. split; [reflexivity|].
      set (j := Z.to_nat (n - Z.of_nat (String.length
                                          (String (JsNumber.digitChar d) r)))).
      pose proof (digitsValue_upper (r ++ JsNumber.zeros j) d ltac:(lia))
        as Hv.
      rewrite length_app, length_zeros in Hv.
      assert (- m < 10 ^ 21) as Hx.
      { destruct (Z.lt_ge_cases (- m) (10 ^ 21)) as [Hlt|Hge]; [exact Hlt|].
        pose proof (shortest_exponent_lower (- m) 21 Hge ltac:(lia)) as Hlow.
        rewrite Es in Hlow. cbn [snd] in Hlow.
        change (Z.of_nat 21) with 21 in Hlow. lia. }
      assert (String.length r + j <= 42)%nat as Hlen.
      { pose proof (shortest_digits (- m) ltac:(lia)) as Hs. rewrite Es in Hs.
        cbn [fst] in Hs.
        pose proof (length_digitsOf_upper 400 s "" 22
                      ltac:(change (Z.of_nat 22) with 22;
                            assert (2 * 10 ^ 21 < 10 ^ 22) by reflexivity; lia)
                      ltac:(lia)) as Hl.
        rewrite E in Hl. cbn [String.length] in Hl. subst j.
        cbn [String.length]. lia. }
      assert (10 ^ Z.of_nat (String.length r + j) <= 10 ^ 42) as Hp.
      { apply Z.pow_le_mono_r; lia. }
      assert (0 < 10 ^ Z.of_nat (String.length r + j))
        by (apply Z.pow_pos_nonneg; lia).
      eapply Z.lt_le_trans; [exact Hv|].
      transitivity (10 * 10 ^ Z.of_nat (String.length r + j));
        [apply Z.mul_le_mono_nonneg_r; lia
        |apply Z.mul_le_mono_nonneg_l; [lia|exact Hp]].
    - assert (10 <= 10 * 10 ^ 42) by (apply Z.leb_le; reflexivity).
      destruct r; eexists; (split; [reflexivity|]);
        cbn [append JsNumber.digitsValue];
        change (JsString.isDigit "e") with false;
        change (JsString.isDigit ".") with false; cbn iota; lia. }
  rewrite (parseInt10_minus_digit d) by lia.
  pose proof (digitsValue_nonneg rest d ltac:(lia)).
  rewrite isFinite_below
    by (assert (10 * 10 ^ 42 < 10 ^ 300) by reflexivity; lia).
  cbn [negb].
  unfold DEFAULTS.MIN_BLOCK_MINUTES.
  destruct (Z.ltb_spec (- JsNumber.digitsValue rest d) 1); [reflexivity|lia].
Qed.

(** [validateDuration] on an integral Number that prints without an
    exponent. *)
Lemma validateDuration_JsInt_plain (m : Z) :
  JsNumber.isNumber m = true -> Z.abs m < 10 ^ 21 ->
  validateDuration (JsInt m)
  = if m <? 1 then Invalid DURATION_TOO_SHORT
    else if 480 <? m then Invalid DURATION_TOO_LONG
    else Valid m.
Proof.
  intros Hnum Hm. assert (10 ^ 21 < 10 ^ 399) as Hbig by reflexivity.
  destruct (Z.lt_ge_cases (Z.abs m) (2 ^ 53)) as [Hs|Hl].
  - now apply validateDuration_JsInt.
  - destruct (Z.lt_ge_cases m 0) as [Hneg|Hpos].
    + rewrite validateDuration_JsInt_negative by lia.
      destruct (Z.ltb_spec m 1); [reflexivity|lia].
    + rewrite validateDuration_JsInt_large by (try exact Hnum; lia).
      assert (480 < 2 ^ 53) by reflexivity.
      destruct (Z.ltb_spec m 1); [lia|].
      destruct (Z.ltb_spec 480 m); [reflexivity|lia].
Qed.

(** ** Objects *)

Section ObjectFacts.

Context {V : Type}.
Implicit Types (o : JsObj.t V) (k : string) (v : V).

Lemma get_set_same o k v : JsObj.get (JsObj.set o k v) k = Some v.
Proof.
  induction o as [|[k' v'] o IH]; cbn [JsObj.set JsObj.get].
  - now rewrite String.eqb_refl.
  - destruct (String.eqb k' k) eqn:E; cbn [JsObj.get].
    + now rewrite String.eqb_refl.
    + now rewrite E.
Qed.

Lemma get_set_other o k k' v :
  k <> k' -> JsObj.get (JsObj.set o k v) k' = JsObj.get o k'.
Proof.
  intros Hne. induction o as [|[k1 v1] o IH]; cbn [JsObj.set JsObj.get].
  - apply String.eqb_neq in Hne. now rewrite Hne.
  - destruct (String.eqb k1 k) eqn:E; cbn [JsObj.get].
    + apply String.eqb_eq in E. subst k1.
      apply String.eqb_neq in Hne. now rewrite Hne.
    + now rewrite IH.
Qed.

Lemma get_delete_same o k : JsObj.get (JsObj.delete o k) k = None.
Proof.
  induction o as [|[k1 v1] o IH]; cbn [JsObj.delete JsObj.get]; [reflexivity|].
  destruct (String.eqb k1 k) eqn:E; [exact IH|].
  cbn [JsObj.get]. now rewrite E.
Qed.

Lemma get_delete_other o k k' :
  k <> k' -> JsObj.get (JsObj.delete o k) k' = JsObj.get o k'.
Proof.
  intros Hne. induction o as [|[k1 v1] o IH];
    cbn [JsObj.delete JsObj.get]; [reflexivity|].
  destruct (String.eqb k1 k) eqn:E.
  - apply String.eqb_eq in E. subst k1.
    apply String.eqb_neq in Hne. now rewrite Hne.
  - cbn [JsObj.get]. now rewrite IH.
Qed.

Lemma delete_absent o k : JsObj.get o k = None -> JsObj.delete o k = o.
Proof.
  induction o as [|[k1 v1] o IH]; cbn [JsObj.delete JsObj.get]; [reflexivity|].
  destruct (String.eqb k1 k); [discriminate|].
  intros H. now rewrite IH.
Qed.

Lemma lookup_own o k v : JsObj.get o k = Some v -> JsObj.lookup o k = JsObj.Own v.
Proof. intros H. unfold JsObj.lookup. now rewrite H. Qed.

Lemma lookup_absent o k :
  JsObj.get o k = None ->
  JsObj.lookup o k
  = if JsObj.inherited k then JsObj.Inherited else JsObj.Undefined.
Proof. intros H. unfold JsObj.lookup. now rewrite H. Qed.

Lemma lookup_own_inv o k v :
  JsObj.lookup o k = JsObj.Own v -> JsObj.get o k = Some v.
Proof.
  unfold JsObj.lookup. destruct (JsObj.get o k); [now intros [= ->]|].
  destruct (JsObj.inherited k); discriminate.
Qed.

Lemma truthy_own o k v : JsObj.get o k = Some v -> JsObj.truthy o k = true.
Proof. intros H. unfold JsObj.truthy. now rewrite (lookup_own o k v H). Qed.

Lemma truthy_false_get o k : JsObj.truthy o k = false -> JsObj.get o k = None.
Proof.
  unfold JsObj.truthy, JsObj.lookup. destruct (JsObj.get o k); [discriminate|].
  reflexivity.
Qed.

(** [if (o[k])] finds an entry of [o], or a member of [Object.prototype]. *)
Lemma truthy_spec o k :
  JsObj.truthy o k = JsObj.has o k || JsObj.inherited k.
Proof.
  unfold JsObj.truthy, JsObj.lookup, JsObj.has.
  destruct (JsObj.get o k); [reflexivity|].
  now destruct (JsObj.inherited k).
Qed.

Lemma get_In o k v : JsObj.get o k = Some v -> In (k, v) o.
Proof.
  induction o as [|[k1 v1] o IH]; cbn [JsObj.get]; [discriminate|].
  destruct (String.eqb k1 k) eqn:E.
  - apply String.eqb_eq in E. intros [= ->]. subst. now left.
  - intros H. right. now apply IH.
Qed.

Lemma get_None_keys o k :
  JsObj.get o k = None <-> ~ In k (JsObj.keys o).
Proof.
  induction o as [|[k1 v1] o IH]; cbn [JsObj.get JsObj.keys map fst In].
  - tauto.
  - destruct (String.eqb_spec k1 k) as [E|E].
    + split; [discriminate|]. intros H. exfalso. apply H. now left.
    + rewrite IH. unfold JsObj.keys. tauto.
Qed.

Lemma existsb_key o k :
  existsb (String.eqb k) (JsObj.keys o) = true <-> In k (JsObj.keys o).
Proof.
  rewrite existsb_exists. split.
  - intros (x & Hx & E). apply String.eqb_eq in E. now subst.
  - intros H. exists k. split; [exact H|apply String.eqb_refl].
Qed.

Lemma keys_set o k v k' :
  In k' (JsObj.keys (JsObj.set o k v)) <-> In k' (JsObj.keys o) \/ k' = k.
Proof.
  induction o as [|[k1 v1] o IH]; cbn [JsObj.set JsObj.keys map fst In].
  - intuition congruence.
  - destruct (String.eqb_spec k1 k) as [E|E];
      cbn [JsObj.keys map fst In].
    + subst k1. intuition congruence.
    + unfold JsObj.keys in IH. rewrite IH. intuition congruence.
Qed.

Lemma keys_delete o k k' :
  In k' (JsObj.keys (JsObj.delete o k)) <-> In k' (JsObj.keys o) /\ k' <> k.
Proof.
  induction o as [|[k1 v1] o IH]; cbn [JsObj.delete JsObj.keys map fst In].
  - tauto.
  - destruct (String.eqb_spec k1 k) as [E|E];
      cbn [JsObj.keys map fst In]; unfold JsObj.keys in IH; rewrite IH.
    + subst k1. intuition congruence.
    + intuition congruence.
Qed.

Lemma wfb_cons o k v :
  JsObj.wfb ((k, v) :: o) = true
  <-> ~ In k (JsObj.keys o) /\ JsObj.wfb o = true.
Proof.
  cbn [JsObj.wfb]. rewrite andb_true_iff, negb_true_iff.
  rewrite <- existsb_key. destruct (existsb _ _); intuition congruence.
Qed.

Lemma wfb_set o k v : JsObj.wfb o = true -> JsObj.wfb (JsObj.set o k v) = true.
Proof.
  induction o as [|[k1 v1] o IH]; intros H.
  - reflexivity.
  - apply wfb_cons in H as [Hk Ho]. cbn [JsObj.set].
    destruct (String.eqb_spec k1 k) as [E|E]; apply wfb_cons.
    + subst k1. now split.
    + split; [|now apply IH]. rewrite keys_set. intuition congruence.
Qed.

Lemma wfb_delete o k : JsObj.wfb o = true -> JsObj.wfb (JsObj.delete o k) = true.
Proof.
  induction o as [|[k1 v1] o IH]; intros H.
  - reflexivity.
  - apply wfb_cons in H as [Hk Ho]. cbn [JsObj.delete].
    destruct (String.eqb k1 k); [now apply IH|].
    apply wfb_cons. split; [|now apply IH]. rewrite keys_delete. tauto.
Qed.

(** In a well-formed object an entry is found under its key. *)
Lemma In_get o k v : JsObj.wfb o = true -> In (k, v) o -> JsObj.get o k = Some v.
Proof.
  induction o as [|[k1 v1] o IH]; intros Hwf Hin; [destruct Hin|].
  apply wfb_cons in Hwf as [Hk Ho]. cbn [JsObj.get].
  destruct Hin as [E|Hin].
  - injection E as -> ->. now rewrite String.eqb_refl.
  - destruct (String.eqb_spec k1 k) as [E|E]; [|now apply IH].
    subst k1. exfalso. apply Hk.
    change k with (fst (k, v)). now apply in_map.
Qed.

(** Writing a key that is not there appends the entry. *)
Lemma set_fresh o k v :
  ~ In k (JsObj.keys o) -> JsObj.set o k v = (o ++ [(k, v)])%list.
Proof.
  induction o as [|[k1 v1] o IH]; intros H; [reflexivity|].
  cbn [JsObj.set]. cbn [JsObj.keys map fst In] in H.
  destruct (String.eqb_spec k1 k) as [E|E]; [exfalso; auto|].
  cbn [app]. f_equal. apply IH. unfold JsObj.keys. tauto.
Qed.


End ObjectFacts.

(** ** The library *)

Section LibraryFacts.

Context {host : Platform}.

(** Unfolds the storage and clock primitives of a computation. *)
Ltac run :=
  cbv [bind ret throw gets modify tryCatch withLock
       getPendingUnblocks getSettings getDailyAttempts getActiveBlocks
       setActiveBlocks updateDailyAttempts updatePendingUnblocks
       updateActiveBlocks updateStats Date_now getTodayKey getCurrentTime
       getCurrentDay isInTimeWindow minutesUntilEndTime].

(** *** Expiry pruning *)

Lemma pruneStep_fst (now : Z) (acc : JsObj.t BlockEntry) (b : bool)
    (k : string) (e : BlockEntry) :
  fst (pruneStep now (acc, b) (k, e))
  = if now <? until e then JsObj.set acc k e else acc.
Proof. cbn. now destruct (now <? until e). Qed.

Lemma pruneStep_snd (now : Z) (acc : JsObj.t BlockEntry) (b : bool)
    (k : string) (e : BlockEntry) :
  snd (pruneStep now (acc, b) (k, e))
  = if now <? until e then b else true.
Proof. cbn. now destruct (now <? until e). Qed.

(** The loop keeps what it has built well formed and unexpired, and takes
    its keys from the entries it visits. *)
Lemma prune_fold_invariant (now : Z) (l : list (string * BlockEntry)) :
  forall (acc : JsObj.t BlockEntry) (b : bool),
    JsObj.wfb acc = true -> Forall (unexpired now) acc ->
    let r := fst (fold_left (pruneStep now) l (acc, b)) in
    JsObj.wfb r = true /\ Forall (unexpired now) r
    /\ (forall k, In k (JsObj.keys r) ->
                  In k (JsObj.keys acc) \/ In k (JsObj.keys l)).
Proof.
  induction l as [|[k e] l IH]; intros acc b Hwf Hall; cbn [fold_left].
  - cbn. auto.
  - cbv zeta.
    destruct (pruneStep now (acc, b) (k, e)) as [acc' b'] eqn:E.
    assert (acc' = if now <? until e then JsObj.set acc k e else acc) as Hacc.
    { rewrite <- (pruneStep_fst now acc b k e). now rewrite E. }
    assert (JsObj.wfb acc' = true /\ Forall (unexpired now) acc'
            /\ forall k', In k' (JsObj.keys acc') ->
                          In k' (JsObj.keys acc) \/ k' = k) as (Hwf' & Hall' & Hk').
    { subst acc'. destruct (Z.ltb_spec now (until e)) as [Hlt|Hge].
      - split; [now apply wfb_set|]. split.
        + clear -Hall Hlt. induction acc as [|[k1 e1] acc IH]; cbn [JsObj.set].
          * constructor; [exact Hlt|constructor].
          * inversion Hall; subst.
            destruct (String.eqb k1 k); constructor; auto.
        + intros k'. now rewrite keys_set.
      - auto. }
    destruct (IH acc' b' Hwf' Hall') as (H1 & H2 & H3).
    split; [exact H1|]. split; [exact H2|].
    intros k' Hin. cbn [JsObj.keys map fst In].
    destruct (H3 k' Hin) as [H|H]; [|now right; right].
    destruct (Hk' k' H) as [H'|H']; [now left|right; left; congruence].
Qed.

Lemma pruneExpired_wf (now : Z) (blocks : JsObj.t BlockEntry) :
  JsObj.wfb (fst (pruneExpired now blocks)) = true.
Proof.
  apply (prune_fold_invariant now blocks JsObj.empty false); [reflexivity|constructor].
Qed.

Lemma pruneExpired_unexpired (now : Z) (blocks : JsObj.t BlockEntry) :
  Forall (unexpired now) (fst (pruneExpired now blocks)).
Proof.
  apply (prune_fold_invariant now blocks JsObj.empty false); [reflexivity|constructor].
Qed.


(** [hasExpired] is set exactly when some entry has [until <= now]. *)
Lemma prune_fold_flag (now : Z) (l : list (string * BlockEntry)) :
  forall (acc : JsObj.t BlockEntry) (b : bool),
    snd (fold_left (pruneStep now) l (acc, b))
    = b || existsb (fun entry => until (snd entry) <=? now) l.
Proof.
  induction l as [|[k e] l IH]; intros acc b; cbn [fold_left existsb snd].
  - now rewrite orb_false_r.
  - destruct (pruneStep now (acc, b) (k, e)) as [acc' b'] eqn:E.
    rewrite IH.
    assert (b' = if now <? until e then b else true) as ->.
    { rewrite <- (pruneStep_snd now acc b k e). now rewrite E. }
    destruct (Z.ltb_spec now (until e)), (Z.leb_spec (until e) now);
      try lia; now destruct b.
Qed.

(** Over well-formed, unexpired entries the loop rebuilds its input. *)
Lemma prune_fold_fixpoint (now : Z) (l : list (string * BlockEntry)) :
  forall (acc : JsObj.t BlockEntry) (b : bool),
    JsObj.wfb (acc ++ l)%list = true -> Forall (unexpired now) l ->
    fst (fold_left (pruneStep now) l (acc, b)) = (acc ++ l)%list.
Proof.
  induction l as [|[k e] l IH]; intros acc b Hwf Hall; cbn [fold_left].
  - cbn. now rewrite app_nil_r.
  - inversion Hall as [|x xs Hx Hxs]; subst. unfold unexpired in Hx. cbn in Hx.
    destruct (pruneStep now (acc, b) (k, e)) as [acc' b'] eqn:E.
    assert (acc' = JsObj.set acc k e) as ->.
    { transitivity (fst (pruneStep now (acc, b) (k, e))); [now rewrite E|].
      rewrite pruneStep_fst. apply Z.ltb_lt in Hx. now rewrite Hx. }
    assert (~ In k (JsObj.keys acc)) as Hk.
    { clear -Hwf. induction acc as [|[k1 e1] acc IHa]; [tauto|].
      cbn [app] in Hwf. apply wfb_cons in Hwf as [H1 H2].
      cbn [JsObj.keys map fst In]. intros [->|H].
      - apply H1. unfold JsObj.keys. rewrite map_app. apply in_or_app.
        right. now left.
      - now apply IHa. }
    rewrite (set_fresh acc k e Hk).
    rewrite IH; [now rewrite <- app_assoc| |exact Hxs].
    now rewrite <- app_assoc.
Qed.

Lemma pruneExpired_fixpoint (now : Z) (blocks : JsObj.t BlockEntry) :
  JsObj.wfb blocks = true -> Forall (unexpired now) blocks ->
  pruneExpired now blocks = (blocks, false).
Proof.
  intros Hwf Hall. unfold pruneExpired, JsObj.entries.
  rewrite (surjective_pairing (fold_left _ _ _)).
  rewrite (prune_fold_fixpoint now blocks JsObj.empty false Hwf Hall).
  rewrite prune_fold_flag. cbn [orb app JsObj.empty]. f_equal.
  clear Hwf. induction Hall as [|[k e] l Hx _ IH]; [reflexivity|].
  cbn [existsb snd]. rewrite IH. unfold unexpired in Hx. cbn in Hx.
  destruct (Z.leb_spec (until e) now); [lia|reflexivity].
Qed.

(** An unexpired entry of a well-formed object survives the loop. *)
Lemma prune_fold_keeps (now : Z) (k : string) (e : BlockEntry)
    (l : list (string * BlockEntry)) :
  forall (acc : JsObj.t BlockEntry) (b : bool),
    (forall e', In (k, e') l -> e' = e) -> now < until e ->
    In (k, e) l \/ JsObj.get acc k = Some e ->
    JsObj.get (fst (fold_left (pruneStep now) l (acc, b))) k = Some e.
Proof.
  induction l as [|[k1 e1] l IH]; intros acc b Hsame Hlt Hor; cbn [fold_left].
  - destruct Hor as [[]|H]. exact H.
  - destruct (pruneStep now (acc, b) (k1, e1)) as [acc' b'] eqn:E.
    assert (acc' = if now <? until e1 then JsObj.set acc k1 e1 else acc) as ->.
    { rewrite <- (pruneStep_fst now acc b k1 e1). now rewrite E. }
    apply IH; [intros e' H; apply Hsame; now right|exact Hlt|].
    destruct (String.eqb_spec k1 k) as [Ek|Ek].
    + subst k1. assert (e1 = e) by (apply Hsame; now left). subst e1.
      apply Z.ltb_lt in Hlt. rewrite Hlt. right. apply get_set_same.
    + destruct Hor as [[H|H]|H]; [congruence|now left|right].
      destruct (now <? until e1); [|exact H].
      now rewrite get_set_other.
Qed.

Lemma pruneExpired_keeps (now : Z) (blocks : JsObj.t BlockEntry)
    (k : string) (e : BlockEntry) :
  JsObj.wfb blocks = true -> JsObj.get blocks k = Some e -> now < until e ->
  JsObj.get (fst (pruneExpired now blocks)) k = Some e.
Proof.
  intros Hwf Hget Hlt. unfold pruneExpired, JsObj.entries.
  apply prune_fold_keeps; [|exact Hlt|left; now apply get_In].
  intros e' Hin. apply (In_get _ _ _ Hwf) in Hin. congruence.
Qed.

(** *** Block registry *)

Lemma remove_run (w : World) (domain c : string) :
  cleanDomainOf domain = Some c ->
  remove domain w
  = (if JsObj.truthy (activeBlocks w) c then Return c
     else Throw (mkError BLOCK_NOT_FOUND None),
     write_pendingUnblocks (JsObj.delete (pendingUnblocks w) c)
       (write_activeBlocks (JsObj.delete (activeBlocks w) c) (tick (tick w)))).
Proof.
  intros Hc. unfold remove. rewrite Hc. run.
  cbn [activeBlocks pendingUnblocks tick write_activeBlocks].
  destruct (JsObj.truthy (activeBlocks w) c) eqn:E.
  - reflexivity.
  - rewrite (delete_absent _ _ (truthy_false_get _ _ E)). reflexivity.
Qed.

(** C7.  For every stored state and every domain that normalizes to a
    non-empty clean domain [c], [remove] deletes the BlockEntry of [c] if
    there is one and deletes any PendingUnblock of [c], leaving every other
    entry as it was, and it returns [c] when [c] had a BlockEntry.  It
    throws [block_not_found] when [c] had no BlockEntry, unless [c] names a
    member of [Object.prototype] ([constructor], [__proto__]): the test
    [if (blocks[cleanDomain])] then finds that member, and [remove]
    returns [c] although nothing was blocked. *)
Theorem remove_clears_block_and_pending (w : World) (domain c : string) :
  cleanDomainOf domain = Some c ->
  exists (out : Outcome string) (w' : World),
    remove domain w = (out, w')
    /\ JsObj.get (activeBlocks w') c = None
    /\ JsObj.get (pendingUnblocks w') c = None
    /\ (forall k, k <> c ->
          JsObj.get (activeBlocks w') k = JsObj.get (activeBlocks w) k
          /\ JsObj.get (pendingUnblocks w') k = JsObj.get (pendingUnblocks w) k)
    /\ (forall e, JsObj.get (activeBlocks w) c = Some e -> out = Return c)
    /\ (out = Throw (mkError BLOCK_NOT_FOUND None)
        <-> JsObj.get (activeBlocks w) c = None /\ JsObj.inherited c = false)
    /\ (JsObj.get (activeBlocks w) c = None -> JsObj.inherited c = true ->
        out = Return c).
Proof.
  intros Hc. rewrite (remove_run w domain c Hc).
  eexists. eexists. split; [reflexivity|].
  cbn [activeBlocks pendingUnblocks write_pendingUnblocks write_activeBlocks
       tick].
  split; [apply get_delete_same|]. split; [apply get_delete_same|].
  split.
  - intros k Hk. split; apply get_delete_other; congruence.
  - rewrite truthy_spec. unfold JsObj.has.
    destruct (JsObj.get (activeBlocks w) c); cbn [orb].
    + split; [reflexivity|]. split; [|discriminate].
      split; [discriminate|]. intros [[=] _].
    + split; [discriminate|]. destruct (JsObj.inherited c).
      * split; [|reflexivity]. split; [discriminate|].
        intros [_ H]. discriminate H.
      * split; [|discriminate]. tauto.
Qed.


Lemma getAll_run (w : World) :
  getAll w
  = (Return (fst (pruneExpired (clock (reads w)) (activeBlocks w))),
     if snd (pruneExpired (clock (reads w)) (activeBlocks w))
     then write_activeBlocks
            (fst (pruneExpired (clock (reads w)) (activeBlocks w))) (tick w)
     else tick w).
Proof.
  unfold getAll. run. cbn [activeBlocks reads tick].
  destruct (pruneExpired (clock (reads w)) (activeBlocks w)) as [r [|]];
    reflexivity.
Qed.

Lemma pruneExpired_flag (now : Z) (blocks : JsObj.t BlockEntry) :
  snd (pruneExpired now blocks) = true
  <-> exists entry, In entry blocks /\ until (snd entry) <= now.
Proof.
  unfold pruneExpired, JsObj.entries. rewrite prune_fold_flag. cbn [orb].
  rewrite existsb_exists. split; intros (entry & Hin & H); exists entry;
    (split; [exact Hin|]); now apply Z.leb_le.
Qed.

(** C8.  At a fixed clock instant, two calls of [getAll] in succession
    return the same object, whose entries are all unexpired (and which
    holds every unexpired entry of a well-formed store); the second call
    changes nothing but the count of clock reads: no storage key is
    written.  The first call writes the pruned object exactly when some
    stored entry had expired, and otherwise writes nothing either. *)
Theorem getAll_idempotent (w : World) :
  clock (S (reads w)) = clock (reads w) ->
  exists (r : JsObj.t BlockEntry) (w1 w2 : World),
    getAll w = (Return r, w1)
    /\ getAll w1 = (Return r, w2)
    /\ w2 = tick w1
    /\ Forall (unexpired (clock (reads w))) r
    /\ (JsObj.wfb (activeBlocks w) = true ->
        forall k e, JsObj.get (activeBlocks w) k = Some e ->
                    clock (reads w) < until e -> JsObj.get r k = Some e)
    /\ ((exists entry, In entry (activeBlocks w)
                       /\ until (snd entry) <= clock (reads w)) ->
        w1 = write_activeBlocks r (tick w))
    /\ ((forall entry, In entry (activeBlocks w) ->
                       clock (reads w) < until (snd entry)) ->
        w1 = tick w).
Proof.
  intros Hclock. rewrite (getAll_run w).
  set (now := clock (reads w)) in *.
  set (pr := pruneExpired now (activeBlocks w)).
  pose proof (pruneExpired_wf now (activeBlocks w)) as Hwf.
  pose proof (pruneExpired_unexpired now (activeBlocks w)) as Hun.
  pose proof (pruneExpired_flag now (activeBlocks w)) as Hflag.
  fold pr in Hwf, Hun, Hflag.
  exists (fst pr). eexists. eexists. split; [reflexivity|].
  split; [|split; [reflexivity|split; [exact Hun|split; [|split]]]].
  - rewrite getAll_run. destruct (snd pr) eqn:Es.
    + cbn [reads activeBlocks write_activeBlocks tick]. rewrite Hclock.
      fold now. rewrite (pruneExpired_fixpoint now (fst pr) Hwf Hun).
      reflexivity.
    + cbn [reads activeBlocks tick]. rewrite Hclock. fold now. fold pr.
      rewrite Es. reflexivity.
  - intros Hw k e Hk Hlt. now apply pruneExpired_keeps.
  - intros Hex. apply Hflag in Hex. now rewrite Hex.
  - intros Hall. destruct (snd pr) eqn:Es; [|reflexivity].
    destruct (proj1 Hflag eq_refl) as (entry & Hin & Hle).
    specialize (Hall entry Hin). lia.
Qed.


Lemma trimStart_no_digit (s : string) :
  existsChar JsString.isDigit s = false ->
  existsChar JsString.isDigit (JsString.trimStart s) = false.
Proof.
  induction s as [|c s IH]; cbn [JsString.trimStart]; [auto|].
  intros H. destruct (JsString.isWhiteSpace c); [|exact H].
  apply IH. cbn [existsChar] in H. now apply orb_false_elim in H.
Qed.

Lemma parseInt10_no_digit (s : string) :
  existsChar JsString.isDigit s = false -> JsNumber.parseInt10 s = None.
Proof.
  intros H. apply trimStart_no_digit in H. unfold JsNumber.parseInt10.
  destruct (JsString.trimStart s) as [|c r] eqn:E; [reflexivity|].
  cbn [existsChar] in H. apply orb_false_elim in H as [Hc Hr].
  assert (JsNumber.startsWithDigit r = false) as Hr'.
  { destruct r as [|c' r']; [reflexivity|]. cbn [existsChar] in Hr.
    now apply orb_false_elim in Hr. }
  assert (JsNumber.startsWithDigit (String c r) = false) as Hcr by exact Hc.
  destruct c as [[|] [|] [|] [|] [|] [|] [|] [|]];
    first [now rewrite Hr' | now rewrite Hcr].
Qed.

Lemma parseInt_nonNumeric (v : JsValue) :
  nonNumeric v = true -> parseInt v = None.
Proof.
  destruct v as [z|s|[|]| | |]; cbn [nonNumeric]; intros H;
    try discriminate; try reflexivity.
  apply negb_true_iff in H. now apply parseInt10_no_digit.
Qed.

Lemma add_run (w : World) (domain c reason : string) (minutes : JsValue) :
  validateDomain domain = Valid c ->
  add domain minutes reason w
  = match validateDuration minutes with
    | Invalid e => (Throw (mkError e None), w)
    | Valid validMinutes =>
        (Return c,
         write_totalBlocksCreated
           (JsNumber.orElse (Some (totalBlocksCreated w)) 0 + 1)
           (write_activeBlocks
              (JsObj.set (activeBlocks w) c
                 {| until := clock (S (reads w)) + validMinutes * 60 * 1000;
                    blockedAt := clock (S (S (reads w)));
                    reason := reason |})
              (tick (tick (tick (tick w))))))
    end.
Proof.
  intros Hd. unfold add. rewrite Hd.
  destruct (validateDuration minutes); reflexivity.
Qed.

Lemma digitsOf_app (fuel : nat) (n : Z) (acc rest : string) :
  JsNumber.digitsOf fuel n acc ++ rest = JsNumber.digitsOf fuel n (acc ++ rest).
Proof.
  revert n acc. induction fuel as [|fuel IH]; intros n acc; [reflexivity|].
  rewrite !digitsOf_S. destruct (n <? 10); [reflexivity|]. now rewrite IH.
Qed.

(** [parseInt] reads the integer that a text starts with and ignores what
    follows it. *)
Lemma parseInt10_leading (n : Z) (rest : string) :
  0 <= n < 2 ^ 53 -> JsNumber.startsWithDigit rest = false ->
  JsNumber.parseInt10 (JsNumber.toString n ++ rest) = Some n.
Proof.
  intros Hn Hrest. unfold JsNumber.toString.
  destruct (Z.ltb_spec (Z.abs n) (2 ^ 53)); [|lia].
  destruct (Z.ltb_spec n 0); [lia|].
  rewrite digitsOf_app. cbn [append].
  destruct (digitsOf_head 20 n rest) as (d & r & Hd & E); [lia|].
  pose proof (digitsValue_digitsOf 21 n rest) as Hv.
  change (Z.of_nat 21) with 21 in Hv.
  assert (2 ^ 53 < 10 ^ 21) as H53 by reflexivity.
  specialize (Hv ltac:(lia)). rewrite E in Hv |- *.
  rewrite (parseInt10_digit d r Hd). f_equal.
  cbn [JsNumber.digitsValue] in Hv.
  destruct (digitChar_isDigit d Hd) as (Hdig & Hdv & _).
  rewrite Hdig, Hdv in Hv. replace (10 * 0 + d) with d in Hv by lia.
  rewrite Hv. destruct rest as [|c rest']; [reflexivity|].
  cbn [JsNumber.startsWithDigit] in Hrest. cbn [JsNumber.digitsValue].
  now rewrite Hrest.
Qed.

(** C6 (as amended).  For every valid domain, [add] with an integer
    duration [m] below [10^21] in magnitude (such a Number prints in plain
    decimal) succeeds exactly when [1 <= m <= 480], storing the block;
    below 1 it throws [duration_too_short] and above 480
    [duration_too_long], two distinct codes, and in both cases changes
    nothing.  So 0 and 481 are rejected, 1 and 480 accepted.  An integer
    from [10^21] on prints in exponent notation, of which [parseInt] reads
    the first digit [d]: it is accepted as [d] minutes.  An input is
    rejected with the third code [invalid_duration] exactly when
    [parseInt] finds no number in it, that is when its text, after leading
    white space and a sign, does not start with a decimal digit, or finds
    digits that spell an integer beyond the range of the Numbers: so are
    [NaN], [null], [undefined], the booleans and every string without a
    digit; a string that starts with an integer is read as that
    integer. *)
Theorem add_duration_range (w : World) (domain c reason : string) :
  validateDomain domain = Valid c ->
  (forall m : Z, JsNumber.isNumber m = true -> Z.abs m < 10 ^ 21 ->
     (1 <= m <= 480 ->
      exists w', add domain (JsInt m) reason w = (Return c, w')
                 /\ JsObj.get (activeBlocks w') c
                    = Some {| until := clock (S (reads w)) + m * 60 * 1000;
                              blockedAt := clock (S (S (reads w)));
                              reason := reason |})
     /\ (m < 1 ->
         add domain (JsInt m) reason w
         = (Throw (mkError DURATION_TOO_SHORT None), w))
     /\ (480 < m ->
         add domain (JsInt m) reason w
         = (Throw (mkError DURATION_TOO_LONG None), w)))
  /\ add domain (JsInt 0) reason w
     = (Throw (mkError DURATION_TOO_SHORT None), w)
  /\ add domain (JsInt 481) reason w
     = (Throw (mkError DURATION_TOO_LONG None), w)
  /\ (exists w', add domain (JsInt 1) reason w = (Return c, w'))
  /\ (exists w', add domain (JsInt 480) reason w = (Return c, w'))
  /\ (forall m : Z, JsNumber.isNumber m = true -> 10 ^ 21 <= m ->
        exists d w',
          1 <= d <= 9
          /\ add domain (JsInt m) reason w = (Return c, w')
          /\ JsObj.get (activeBlocks w') c
             = Some {| until := clock (S (reads w)) + d * 60 * 1000;
                       blockedAt := clock (S (S (reads w)));
                       reason := reason |})
  /\ (forall v : JsValue,
        add domain v reason w = (Throw (mkError INVALID_DURATION None), w)
        <-> match parseInt v with
            | None => True
            | Some parsed => JsNumber.isFinite parsed = false
            end)
  /\ (forall v : JsValue, nonNumeric v = true ->
        add domain v reason w = (Throw (mkError INVALID_DURATION None), w))
  /\ (forall (n : Z) (rest : string),
        1 <= n <= 480 -> JsNumber.startsWithDigit rest = false ->
        exists w',
          add domain (JsStr (JsNumber.toString n ++ rest)) reason w
          = (Return c, w')
          /\ JsObj.get (activeBlocks w') c
             = Some {| until := clock (S (reads w)) + n * 60 * 1000;
                       blockedAt := clock (S (S (reads w)));
                       reason := reason |})
  /\ ErrorCodes DURATION_TOO_SHORT <> ErrorCodes DURATION_TOO_LONG
  /\ ErrorCodes INVALID_DURATION <> ErrorCodes DURATION_TOO_SHORT
  /\ ErrorCodes INVALID_DURATION <> ErrorCodes DURATION_TOO_LONG.
Proof.
  intros Hd.
  assert (forall m : Z, JsNumber.isNumber m = true -> Z.abs m < 10 ^ 21 ->
     (1 <= m <= 480 ->
      exists w', add domain (JsInt m) reason w = (Return c, w')
                 /\ JsObj.get (activeBlocks w') c
                    = Some {| until := clock (S (reads w)) + m * 60 * 1000;
                              blockedAt := clock (S (S (reads w)));
                              reason := reason |})
     /\ (m < 1 ->
         add domain (JsInt m) reason w
         = (Throw (mkError DURATION_TOO_SHORT None), w))
     /\ (480 < m ->
         add domain (JsInt m) reason w
         = (Throw (mkError DURATION_TOO_LONG None), w))) as Hrange.
  { intros m Hnum Hm. rewrite (add_run w domain c reason (JsInt m) Hd).
    rewrite (validateDuration_JsInt_plain m Hnum Hm).
    destruct (Z.ltb_spec m 1) as [H1|H1];
      [|destruct (Z.ltb_spec 480 m) as [H2|H2]].
    - split; [intros; lia|split; [intros; reflexivity|intros; lia]].
    - split; [intros; lia|split; [intros; lia|intros; reflexivity]].
    - split; [|split; lia]. intros _. eexists. split; [reflexivity|].
      cbn [activeBlocks write_totalBlocksCreated write_activeBlocks].
      apply get_set_same. }
  split; [exact Hrange|].
  assert (forall m : Z, JsNumber.isNumber m = true -> Z.abs m < 10 ^ 21 ->
            1 <= m <= 480 ->
            exists w', add domain (JsInt m) reason w = (Return c, w')) as Hok.
  { intros m Hnum Hm Hb. destruct (Hrange m Hnum Hm) as (H & _).
    destruct (H Hb) as (w' & Hw' & _). now exists w'. }
  split; [apply (Hrange 0); [reflexivity|reflexivity|lia]|].
  split; [apply (Hrange 481); [reflexivity|reflexivity|lia]|].
  split; [apply (Hok 1); [reflexivity|reflexivity|lia]|].
  split; [apply (Hok 480); [reflexivity|reflexivity|lia]|].
  split.
  { intros m Hnum Hm.
    assert (m < 10 ^ 399) as Hup.
    { unfold JsNumber.isNumber in Hnum. rewrite Z.abs_eq in Hnum by lia.
      assert (2 ^ 53 < 10 ^ 21) by reflexivity.
      assert (2 ^ 1024 < 10 ^ 399) by reflexivity.
      apply orb_true_iff in Hnum as [H1|H1]; [apply Z.ltb_lt in H1; lia|].
      apply andb_true_iff in H1 as [_ H1]. apply Z.ltb_lt in H1. lia. }
    destruct (validateDuration_JsInt_exponent m) as (d & Hdig & Hv); [lia|].
    exists d. rewrite (add_run w domain c reason (JsInt m) Hd), Hv.
    eexists. split; [exact Hdig|]. split; [reflexivity|].
    cbn [activeBlocks write_totalBlocksCreated write_activeBlocks].
    apply get_set_same. }
  split.
  { intros v. rewrite (add_run w domain c reason v Hd).
    unfold validateDuration. destruct (parseInt v) as [parsed|].
    - destruct (JsNumber.isFinite parsed); cbn [negb].
      + split; [|discriminate].
        destruct (parsed <? _); [discriminate|].
        destruct (_ <? parsed); discriminate.
      + split; reflexivity.
    - split; [exact (fun _ => I)|reflexivity]. }
  split.
  { intros v Hv. rewrite (add_run w domain c reason v Hd).
    unfold validateDuration. now rewrite (parseInt_nonNumeric v Hv). }
  split; [|repeat split; discriminate].
  intros n rest Hn Hrest. rewrite (add_run w domain c reason _ Hd).
  unfold validateDuration, parseInt, ToString.
  assert (480 < 2 ^ 53) as H53 by reflexivity.
  rewrite (parseInt10_leading n rest) by (try exact Hrest; lia).
  rewrite isFinite_below by (assert (480 < 10 ^ 300) by reflexivity; lia).
  cbn [negb].
  unfold DEFAULTS.MIN_BLOCK_MINUTES, DEFAULTS.MAX_BLOCK_MINUTES.
  destruct (Z.ltb_spec n 1); [lia|]. destruct (Z.ltb_spec 480 n); [lia|].
  eexists. split; [reflexivity|].
  cbn [activeBlocks write_totalBlocksCreated write_activeBlocks].
  apply get_set_same.
Qed.


(** *** Unblock throttle *)

Lemma request_rejected (w : World) (domain c : string) (p : PendingUnblock) :
  cleanDomainOf domain = Some c ->
  JsObj.get (pendingUnblocks w) c = Some p ->
  clock (reads w) < unlocksAt p ->
  request domain w
  = (Throw (mkError UNBLOCK_PENDING
              (Some (ceilDiv (unlocksAt p - clock (reads w)) 1000))),
     tick w).
Proof.
  intros Hc Hp Hlt. unfold request. rewrite Hc. run.
  rewrite (lookup_own _ _ _ Hp).
  assert (0 < ceilDiv (unlocksAt p - clock (reads w)) 1000) as H
    by (apply ceilDiv_pos; lia).
  apply Z.ltb_lt in H. rewrite H. reflexivity.
Qed.

(** The run of [request] when no pending unblock is still locked.  The
    guard [if (pending[cleanDomain])] reads the clock when it finds
    something. *)
Lemma request_granted (w : World) (domain c : string) :
  cleanDomainOf domain = Some c ->
  (forall p, JsObj.get (pendingUnblocks w) c = Some p ->
             unlocksAt p <= clock (reads w)) ->
  let w1 := if JsObj.truthy (pendingUnblocks w) c then tick w else w in
  let today :=
    hd "" (JsString.split "T" (date_toISOString (clock (reads w1)))) in
  let attemptKey := c ++ "_" ++ today in
  let attemptNumber :=
    JsNumber.orElse (JsObj.get (dailyAttempts w) attemptKey) 0 + 1 in
  let settings := mergeSettings (storedSettings w) in
  let base := JsNumber.orElse (Some (unblockDelayBase settings)) 5 in
  let delayMinutes :=
    if unblockDelayEscalation settings && (1 <? attemptNumber)
    then Z.min 15 (base + (attemptNumber - 1) * 5) else base in
  let unlocks := clock (S (S (reads w1))) + delayMinutes * 60 * 1000 in
  let entry := {| requestedAt := clock (S (S (S (S (reads w1)))));
                  unlocksAt := unlocks;
                  attemptNumber := attemptNumber |} in
  request domain w
  = (Return {| waitTime := delayMinutes * 60;
               grant_unlocksAt := unlocks;
               grant_attemptNumber := attemptNumber |},
     create_alarm (ALARMS.UNBLOCK_PREFIX ++ c) unlocks
       (write_pendingUnblocks (JsObj.set (pendingUnblocks w) c entry)
          (write_dailyAttempts
             (JsObj.set (dailyAttempts w) attemptKey attemptNumber)
             (tick (tick (tick (tick (tick w1)))))))).
Proof.
  intros Hc Hp. cbv zeta. unfold request. rewrite Hc. run.
  unfold JsObj.truthy, JsObj.lookup.
  destruct (JsObj.get (pendingUnblocks w) c) as [p|] eqn:E.
  - specialize (Hp p eq_refl).
    assert (ceilDiv (unlocksAt p - clock (reads w)) 1000 <= 0) as H
      by (apply ceilDiv_nonpos; lia).
    apply Z.ltb_ge in H. rewrite H. reflexivity.
  - destruct (JsObj.inherited c); reflexivity.
Qed.

(** What a successful [request] leaves behind: it was not rejected, so it
    ran to the end. *)
Lemma request_Return_inv (w0 w : World) (domain c : string)
    (grant : UnblockGrant) :
  cleanDomainOf domain = Some c ->
  request domain w0 = (Return grant, w) ->
  exists i : nat,
    (S i < reads w)%nat
    /\ grant_unlocksAt grant = clock i + waitTime grant * 1000
    /\ exists p, JsObj.get (pendingUnblocks w) c = Some p
                 /\ unlocksAt p = grant_unlocksAt grant
                 /\ attemptNumber p = grant_attemptNumber grant.
Proof.
  intros Hc Hreq.
  assert (forall p, JsObj.get (pendingUnblocks w0) c = Some p ->
                    unlocksAt p <= clock (reads w0)) as Hfree.
  { intros p Hp. destruct (Z.le_gt_cases (unlocksAt p) (clock (reads w0)))
      as [H|H]; [exact H|].
    rewrite (request_rejected w0 domain c p Hc Hp) in Hreq by lia.
    discriminate Hreq. }
  rewrite (request_granted w0 domain c Hc Hfree) in Hreq. cbv zeta in Hreq.
  injection Hreq as Hg Hw. subst grant w.
  set (w1 := if JsObj.truthy (pendingUnblocks w0) c then tick w0 else w0).
  exists (S (S (reads w1))). cbn [reads create_alarm write_pendingUnblocks
                             write_dailyAttempts tick pendingUnblocks
                             grant_unlocksAt waitTime grant_attemptNumber].
  split; [lia|]. split; [lia|].
  eexists. split; [apply get_set_same|]. split; reflexivity.
Qed.

(** C5.  While a PendingUnblock of the domain is still locked
    ([now < unlocksAt], [now] read from the clock by this call), [request]
    throws [unblock_pending] with the remaining seconds, a positive number,
    and leaves the stored pending unblocks and the daily attempt counters
    as they were, writing no storage key.  When the call comes straight
    after the [request] that was granted (and the clock does not run
    backwards), the remaining seconds are at most the [waitTime] granted
    then. *)
Theorem request_while_pending_rejected (w : World) (domain c : string)
    (p : PendingUnblock) :
  cleanDomainOf domain = Some c ->
  JsObj.get (pendingUnblocks w) c = Some p ->
  clock (reads w) < unlocksAt p ->
  let remaining := ceilDiv (unlocksAt p - clock (reads w)) 1000 in
  exists w' : World,
    request domain w = (Throw (mkError UNBLOCK_PENDING (Some remaining)), w')
    /\ 0 < remaining
    /\ pendingUnblocks w' = pendingUnblocks w
    /\ dailyAttempts w' = dailyAttempts w
    /\ writes w' = writes w
    /\ (forall (w0 : World) (grant : UnblockGrant),
          (forall i j : nat, (i <= j)%nat -> clock i <= clock j) ->
          request domain w0 = (Return grant, w) ->
          remaining <= waitTime grant).
Proof.
  intros Hc Hp Hlt remaining. exists (tick w).
  split; [exact (request_rejected w domain c p Hc Hp Hlt)|].
  split; [apply ceilDiv_pos; lia|].
  repeat (split; [reflexivity|]).
  intros w0 grant Hmono Hreq.
  destruct (request_Return_inv w0 w domain c grant Hc Hreq)
    as (i & Hi & Hun & p' & Hp' & Hup & _).
  rewrite Hp in Hp'. injection Hp' as <-.
  assert (clock i <= clock (reads w)) by (apply Hmono; lia).
  apply ceilDiv_le; lia.
Qed.



Lemma cleanDomainOf_nonempty (domain c : string) :
  cleanDomainOf domain = Some c -> c <> "".
Proof.
  unfold cleanDomainOf. destruct (extractDomain domain) as [d|]; [|discriminate].
  destruct (String.eqb_spec d ""); [discriminate|]. now intros [= <-].
Qed.

Lemma domainMatches_refl (c : string) : c <> "" -> domainMatches c c = true.
Proof.
  intros Hc. unfold domainMatches. apply String.eqb_neq in Hc. rewrite Hc.
  cbn [orb]. now rewrite String.eqb_refl.
Qed.

Lemma confirm_locked (w : World) (domain c : string) (p : PendingUnblock) :
  cleanDomainOf domain = Some c ->
  JsObj.get (pendingUnblocks w) c = Some p ->
  clock (reads w) < unlocksAt p ->
  confirm domain w
  = (Throw (mkError UNBLOCK_DELAY_NOT_COMPLETE
              (Some (ceilDiv (unlocksAt p - clock (reads w)) 1000))),
     tick w).
Proof.
  intros Hc Hp Hlt. unfold confirm. rewrite Hc. run.
  rewrite (lookup_own _ _ _ Hp).
  assert (0 < unlocksAt p - clock (reads w)) as H by lia.
  apply Z.ltb_lt in H. rewrite H. reflexivity.
Qed.

(** The run of [confirm] when no pending unblock is still locked.  The
    guard [if (pending[cleanDomain])] reads the clock when it finds
    something; [remove] is given the clean domain and normalizes it once
    more, to [c']. *)
Lemma confirm_passed (w : World) (domain c : string) :
  cleanDomainOf domain = Some c ->
  (forall p, JsObj.get (pendingUnblocks w) c = Some p ->
             unlocksAt p <= clock (reads w)) ->
  let w1 := if JsObj.truthy (pendingUnblocks w) c then tick w else w in
  confirm domain w
  = match cleanDomainOf c with
    | None => (Throw (mkError INVALID_DOMAIN None), w1)
    | Some c' =>
        let removed :=
          write_pendingUnblocks (JsObj.delete (pendingUnblocks w) c')
            (write_activeBlocks (JsObj.delete (activeBlocks w) c')
               (tick (tick w1))) in
        if JsObj.truthy (activeBlocks w) c'
        then (Return c,
              write_pendingUnblocks
                (JsObj.delete (JsObj.delete (pendingUnblocks w) c') c)
                (tick removed))
        else (Throw (mkError BLOCK_NOT_FOUND None), removed)
    end.
Proof.
  intros Hc Hfree. cbv zeta. unfold confirm. rewrite Hc.
  cbv [bind getPendingUnblocks gets].
  assert (JsObj.truthy (pendingUnblocks w) c
          = match JsObj.lookup (pendingUnblocks w) c with
            | JsObj.Undefined => false
            | _ => true
            end) as -> by reflexivity.
  assert (forall w1 : World,
            activeBlocks w1 = activeBlocks w ->
            pendingUnblocks w1 = pendingUnblocks w ->
            match
              match remove c w1 with
              | (Return _, w') =>
                  match updatePendingUnblocks
                          (fun pending => ret (JsObj.delete pending c)) w' with
                  | (Return _, w'') => ret c w''
                  | (Throw e, w'') => (Throw e, w'')
                  | (Unmodelled, w'') => (Unmodelled, w'')
                  end
              | (Throw e, w') => (Throw e, w')
              | (Unmodelled, w') => (Unmodelled, w')
              end
            with
            | (out, w') => (out, w')
            end
            = match cleanDomainOf c with
              | None => (Throw (mkError INVALID_DOMAIN None), w1)
              | Some c' =>
                  if JsObj.truthy (activeBlocks w) c'
                  then (Return c,
                        write_pendingUnblocks
                          (JsObj.delete
                             (JsObj.delete (pendingUnblocks w) c') c)
                          (tick
                             (write_pendingUnblocks
                                (JsObj.delete (pendingUnblocks w) c')
                                (write_activeBlocks
                                   (JsObj.delete (activeBlocks w) c')
                                   (tick (tick w1))))))
                  else (Throw (mkError BLOCK_NOT_FOUND None),
                        write_pendingUnblocks
                          (JsObj.delete (pendingUnblocks w) c')
                          (write_activeBlocks
                             (JsObj.delete (activeBlocks w) c')
                             (tick (tick w1))))
              end) as Hrest.
  { intros w1 Hb Hp. destruct (cleanDomainOf c) as [c'|] eqn:Hcc.
    - rewrite (remove_run w1 c c' Hcc). rewrite Hb, Hp.
      destruct (JsObj.truthy (activeBlocks w) c'); reflexivity.
    - unfold remove. rewrite Hcc. reflexivity. }
  destruct (JsObj.lookup (pendingUnblocks w) c) as [p| |] eqn:E.
  - apply lookup_own_inv in E. specialize (Hfree p E).
    assert (unlocksAt p - clock (reads w) <= 0) as H by lia.
    apply Z.ltb_ge in H. cbv [Date_now ret]. rewrite H.
    specialize (Hrest (tick w) eq_refl eq_refl).
    destruct (remove c (tick w)) as [[r|e|] w']; exact Hrest.
  - cbv [Date_now ret].
    specialize (Hrest (tick w) eq_refl eq_refl).
    destruct (remove c (tick w)) as [[r|e|] w']; exact Hrest.
  - cbv [ret].
    specialize (Hrest w eq_refl eq_refl).
    destruct (remove c w) as [[r|e|] w']; exact Hrest.
Qed.

Lemma isBlocked_run (w : World) (domain c : string) :
  cleanDomainOf domain = Some c ->
  fst (isBlocked domain w)
  = let blocks := fst (pruneExpired (clock (reads w)) (activeBlocks w)) in
    Return (JsObj.truthy blocks c
            || existsb (fun blockedDomain => domainMatches c blockedDomain)
                       (JsObj.keys blocks)).
Proof.
  intros Hc. unfold isBlocked. rewrite Hc. unfold bind.
  rewrite getAll_run. cbv zeta.
  destruct (JsObj.truthy _ c); reflexivity.
Qed.



(** *** Schedule engine *)

Lemma add_invalid_domain (w : World) (domain reason : string)
    (minutes : JsValue) (e : ErrorCode) :
  validateDomain domain = Invalid e ->
  add domain minutes reason w = (Throw (mkError e None), w).
Proof. intros H. unfold add. now rewrite H. Qed.

Lemma validateDomain_clean (domain c : string) :
  validateDomain domain = Valid c -> cleanDomainOf domain = Some c.
Proof.
  unfold validateDomain. destruct (String.eqb domain ""); [discriminate|].
  destruct (cleanDomainOf domain) as [cleaned|]; [|discriminate].
  destruct (_ <? _)%nat; [discriminate|].
  destruct (negb _); [discriminate|].
  destruct (matchesInvalidPattern cleaned); [discriminate|].
  now intros [= ->].
Qed.

(** Validity of a domain depends on its clean form only. *)
Lemma validateDomain_same_clean (domain domain' c : string) :
  validateDomain domain = Valid c -> cleanDomainOf domain' = Some c ->
  validateDomain domain' = Valid c.
Proof.
  intros Hv Hc'. pose proof (validateDomain_clean domain c Hv) as Hc.
  unfold validateDomain in *. rewrite Hc in Hv. rewrite Hc'.
  destruct (String.eqb_spec domain "") as [E|_]; [discriminate|].
  destruct (String.eqb_spec domain' "") as [E|_]; [|exact Hv].
  subst domain'. unfold cleanDomainOf, extractDomain in Hc'.
  cbn in Hc'. discriminate.
Qed.

(** The run of the loop body of [checkSingle]. *)
Lemma activateDomain_run (remainingMinutes : Z) (domain : string) (w : World) :
  activateDomain remainingMinutes domain w
  = (Return tt,
     match cleanDomainOf domain with
     | None => w
     | Some c =>
         if scheduleApplies
              (findBlockInfo
                 (fst (pruneExpired (clock (reads w)) (activeBlocks w))) c)
         then snd (add domain (JsInt remainingMinutes) BLOCK_REASONS.SCHEDULE
                       (snd (getAll w)))
         else snd (getAll w)
     end).
Proof.
  unfold activateDomain, getBlockInfo, tryCatch.
  destruct (cleanDomainOf domain) as [c|] eqn:Hc.
  - unfold bind at 1. unfold bind at 1. rewrite getAll_run.
    cbn [fst snd]. unfold ret at 1.
    destruct (scheduleApplies _); [|reflexivity].
    unfold bind. destruct (validateDomain domain) as [c0|e0] eqn:Hv.
    + rewrite (add_run _ domain c0 _ _ Hv).
      destruct (validateDuration _); reflexivity.
    + now rewrite (add_invalid_domain _ _ _ _ _ Hv).
  - unfold bind at 1. unfold ret at 1. cbn [scheduleApplies].
    assert (validateDomain domain = Invalid INVALID_DOMAIN) as Hv.
    { unfold validateDomain. rewrite Hc.
      now destruct (String.eqb domain ""). }
    unfold bind. now rewrite (add_invalid_domain _ _ _ _ _ Hv).
Qed.

Lemma getAll_reads (w : World) : reads (snd (getAll w)) = S (reads w).
Proof.
  rewrite getAll_run. cbn [snd].
  now destruct (snd (pruneExpired _ _)).
Qed.

Lemma getAll_blocks (w : World) :
  activeBlocks (snd (getAll w))
  = if snd (pruneExpired (clock (reads w)) (activeBlocks w))
    then fst (pruneExpired (clock (reads w)) (activeBlocks w))
    else activeBlocks w.
Proof.
  rewrite getAll_run. cbn [snd].
  now destruct (snd (pruneExpired _ _)).
Qed.

(** [getAll] keeps an unexpired entry of a well-formed store, and the
    store well formed. *)
Lemma getAll_keeps (w : World) (k : string) (e : BlockEntry) :
  JsObj.wfb (activeBlocks w) = true ->
  JsObj.get (activeBlocks w) k = Some e ->
  clock (reads w) < until e ->
  JsObj.wfb (activeBlocks (snd (getAll w))) = true
  /\ JsObj.get (activeBlocks (snd (getAll w))) k = Some e
  /\ JsObj.get (fst (pruneExpired (clock (reads w)) (activeBlocks w))) k
     = Some e.
Proof.
  intros Hwf Hget Hlt. rewrite getAll_blocks.
  pose proof (pruneExpired_keeps _ _ k e Hwf Hget Hlt) as Hk.
  destruct (snd (pruneExpired _ _)).
  - split; [apply pruneExpired_wf|]. now split.
  - now repeat split.
Qed.

(** What [add] does to the world, whatever it returns. *)
Lemma add_world (w : World) (domain reason : string) (minutes : JsValue) :
  snd (add domain minutes reason w) = w
  \/ exists c m,
       validateDomain domain = Valid c
       /\ validateDuration minutes = Valid m
       /\ snd (add domain minutes reason w)
          = write_totalBlocksCreated
              (JsNumber.orElse (Some (totalBlocksCreated w)) 0 + 1)
              (write_activeBlocks
                 (JsObj.set (activeBlocks w) c
                    {| until := clock (S (reads w)) + m * 60 * 1000;
                       blockedAt := clock (S (S (reads w)));
                       reason := reason |})
                 (tick (tick (tick (tick w))))).
Proof.
  destruct (validateDomain domain) as [c|e] eqn:Hd.
  - rewrite (add_run w domain c reason minutes Hd).
    destruct (validateDuration minutes) as [m|e] eqn:Hm; [|now left].
    right. exists c, m. now repeat split.
  - left. now rewrite (add_invalid_domain _ _ _ _ _ Hd).
Qed.

(** One turn of the loop leaves a schedule-sourced block that has not
    expired as it is. *)
Lemma activateDomain_keeps (r : Z) (domain : string) (w : World)
    (k : string) (e : BlockEntry) :
  JsObj.wfb (activeBlocks w) = true ->
  JsObj.get (activeBlocks w) k = Some e ->
  reason e = BLOCK_REASONS.SCHEDULE ->
  let w' := snd (activateDomain r domain w) in
  ((reads w < reads w')%nat -> clock (reads w) < until e) ->
  JsObj.wfb (activeBlocks w') = true
  /\ JsObj.get (activeBlocks w') k = Some e
  /\ (reads w <= reads w')%nat.
Proof.
  intros Hwf Hget Hreason. cbv zeta. rewrite activateDomain_run. cbn [snd].
  destruct (cleanDomainOf domain) as [c|] eqn:Hc; [|auto].
  intros Hclock.
  assert (clock (reads w) < until e) as Hlt.
  { apply Hclock. destruct (scheduleApplies _).
    - destruct (add_world (snd (getAll w)) domain BLOCK_REASONS.SCHEDULE (JsInt r))
        as [->|(c' & m & _ & _ & ->)]; cbn [reads write_totalBlocksCreated
                                             write_activeBlocks tick];
        rewrite getAll_reads; lia.
    - rewrite getAll_reads. lia. }
  destruct (getAll_keeps w k e Hwf Hget Hlt) as (Hwf' & Hget' & HR).
  destruct (scheduleApplies _) eqn:Happ;
    [|rewrite getAll_reads; repeat split; auto].
  destruct (add_world (snd (getAll w)) domain BLOCK_REASONS.SCHEDULE (JsInt r))
    as [->|(c' & m & Hv & _ & ->)];
    [rewrite getAll_reads; repeat split; auto|].
  cbn [activeBlocks reads write_totalBlocksCreated write_activeBlocks tick].
  rewrite getAll_reads.
  split; [now apply wfb_set|]. split; [|lia].
  apply validateDomain_clean in Hv. rewrite Hc in Hv. injection Hv as <-.
  rewrite get_set_other; [exact Hget'|].
  intros ->. unfold findBlockInfo in Happ.
  rewrite (lookup_own _ _ _ HR) in Happ.
  cbn [scheduleApplies info_entry] in Happ. rewrite Hreason in Happ.
  discriminate Happ.
Qed.


Lemma forOf_activate_cons (r : Z) (d : string) (ds : list string) (w : World) :
  snd (forOf (d :: ds) (activateDomain r) w)
  = snd (forOf ds (activateDomain r) (snd (activateDomain r d w))).
Proof. cbn [forOf]. unfold bind. now rewrite activateDomain_run. Qed.

Lemma activateDomain_reads (r : Z) (d : string) (w : World) :
  (reads w <= reads (snd (activateDomain r d w)))%nat.
Proof.
  rewrite activateDomain_run. cbn [snd].
  destruct (cleanDomainOf d); [|lia].
  destruct (scheduleApplies _); [|rewrite getAll_reads; lia].
  destruct (add_world (snd (getAll w)) d BLOCK_REASONS.SCHEDULE (JsInt r))
    as [->|(c' & m & _ & _ & ->)];
    cbn [reads write_totalBlocksCreated write_activeBlocks tick];
    rewrite getAll_reads; lia.
Qed.

Lemma forOf_activate_reads (r : Z) (ds : list string) (w : World) :
  (reads w <= reads (snd (forOf ds (activateDomain r) w)))%nat.
Proof.
  revert w. induction ds as [|d ds IH]; intros w; [cbn; lia|].
  rewrite forOf_activate_cons.
  pose proof (activateDomain_reads r d w).
  pose proof (IH (snd (activateDomain r d w))). lia.
Qed.

(** The loop of [checkSingle] leaves a schedule-sourced block as it is,
    if the block outlasts the clock reads of the loop. *)
Lemma forOf_activate_keeps (r : Z) (k : string) (e : BlockEntry)
    (ds : list string) :
  forall w : World,
    JsObj.wfb (activeBlocks w) = true ->
    JsObj.get (activeBlocks w) k = Some e ->
    reason e = BLOCK_REASONS.SCHEDULE ->
    let w' := snd (forOf ds (activateDomain r) w) in
    (forall i : nat, (reads w <= i < reads w')%nat -> clock i < until e) ->
    JsObj.wfb (activeBlocks w') = true
    /\ JsObj.get (activeBlocks w') k = Some e.
Proof.
  induction ds as [|d ds IH]; intros w Hwf Hget Hreason; cbv zeta.
  - cbn. auto.
  - rewrite forOf_activate_cons. intros Hclock.
    pose proof (forOf_activate_reads r ds (snd (activateDomain r d w))) as Hr.
    destruct (activateDomain_keeps r d w k e Hwf Hget Hreason)
      as (Hwf1 & Hget1 & Hr1).
    { intros Hlt. apply Hclock. lia. }
    apply (IH _ Hwf1 Hget1 Hreason). intros i Hi. apply Hclock. lia.
Qed.


Lemma getAll_wf (w : World) :
  JsObj.wfb (activeBlocks w) = true ->
  JsObj.wfb (activeBlocks (snd (getAll w))) = true.
Proof.
  intros Hwf. rewrite getAll_blocks.
  destruct (snd (pruneExpired _ _)); [apply pruneExpired_wf|exact Hwf].
Qed.

Lemma activateDomain_wf (r : Z) (d : string) (w : World) :
  JsObj.wfb (activeBlocks w) = true ->
  JsObj.wfb (activeBlocks (snd (activateDomain r d w))) = true.
Proof.
  intros Hwf. rewrite activateDomain_run. cbn [snd].
  destruct (cleanDomainOf d); [|exact Hwf].
  pose proof (getAll_wf w Hwf) as Hwf'.
  destruct (scheduleApplies _); [|exact Hwf'].
  destruct (add_world (snd (getAll w)) d BLOCK_REASONS.SCHEDULE (JsInt r))
    as [->|(c' & m & _ & _ & ->)]; [exact Hwf'|].
  cbn [activeBlocks write_totalBlocksCreated write_activeBlocks].
  now apply wfb_set.
Qed.

Lemma forOf_activate_wf (r : Z) (ds : list string) (w : World) :
  JsObj.wfb (activeBlocks w) = true ->
  JsObj.wfb (activeBlocks (snd (forOf ds (activateDomain r) w))) = true.
Proof.
  revert w. induction ds as [|d ds IH]; intros w Hwf; [exact Hwf|].
  rewrite forOf_activate_cons. apply IH. now apply activateDomain_wf.
Qed.

(** One turn of the loop, at the instant [now], on a block of the domain
    that is not schedule-sourced: a domain with the clean form [c] has it
    replaced by the schedule block, any other leaves it alone. *)
Lemma activateDomain_replaces (r now : Z) (c domain0 : string)
    (e : BlockEntry) (d : string) (w : World) :
  validateDomain domain0 = Valid c ->
  1 <= r <= 480 ->
  JsObj.wfb (activeBlocks w) = true ->
  JsObj.get (activeBlocks w) c = Some e ->
  reason e <> BLOCK_REASONS.SCHEDULE ->
  now < until e ->
  let w' := snd (activateDomain r d w) in
  (forall i : nat, (reads w <= i < reads w')%nat -> clock i = now) ->
  JsObj.get (activeBlocks w') c
  = Some {| until := now + r * 60 * 1000;
            blockedAt := now;
            reason := BLOCK_REASONS.SCHEDULE |}
  \/ (JsObj.get (activeBlocks w') c = Some e /\ cleanDomainOf d <> Some c).
Proof.
  intros Hv0 Hr Hwf Hget Hreason Hlt. cbv zeta.
  rewrite activateDomain_run. cbn [snd].
  destruct (cleanDomainOf d) as [c'|] eqn:Hc;
    [|intros _; right; split; [exact Hget|discriminate]].
  intros Hclock.
  assert (clock (reads w) = now) as Hnow.
  { apply Hclock. destruct (scheduleApplies _).
    - destruct (add_world (snd (getAll w)) d BLOCK_REASONS.SCHEDULE (JsInt r))
        as [->|(c1 & m & _ & _ & ->)]; cbn [reads write_totalBlocksCreated
                                             write_activeBlocks tick];
        rewrite getAll_reads; lia.
    - rewrite getAll_reads. lia. }
  destruct (getAll_keeps w c e Hwf Hget ltac:(lia)) as (Hwf' & Hget' & HR).
  rewrite Hnow in *.
  destruct (String.eqb_spec c' c) as [->|Hne].
  - unfold findBlockInfo in *. rewrite (lookup_own _ _ _ HR) in *.
    cbn [scheduleApplies info_entry] in *.
    apply String.eqb_neq in Hreason. rewrite Hreason in *. cbn [negb] in *.
    pose proof (validateDomain_same_clean domain0 d c Hv0 Hc) as Hvd.
    rewrite (add_run _ d c BLOCK_REASONS.SCHEDULE (JsInt r) Hvd) in *.
    rewrite (validateDuration_JsInt r) in * by lia.
    destruct (Z.ltb_spec r 1); [lia|]. destruct (Z.ltb_spec 480 r); [lia|].
    cbn [snd activeBlocks reads write_totalBlocksCreated write_activeBlocks
         tick] in *.
    rewrite getAll_reads in *. left. rewrite get_set_same.
    rewrite (Hclock (S (S (reads w)))), (Hclock (S (S (S (reads w))))) by lia.
    reflexivity.
  - right. split; [|congruence].
    destruct (scheduleApplies _); [|exact Hget'].
    destruct (add_world (snd (getAll w)) d BLOCK_REASONS.SCHEDULE (JsInt r))
      as [->|(c1 & m & Hv1 & _ & ->)]; [exact Hget'|].
    cbn [activeBlocks write_totalBlocksCreated write_activeBlocks].
    apply validateDomain_clean in Hv1. rewrite Hc in Hv1. injection Hv1 as <-.
    now rewrite get_set_other.
Qed.


(** The loop of [checkSingle], at the instant [now], replaces a block that
    is not schedule-sourced by the schedule block when the schedule lists
    its domain. *)
Lemma forOf_activate_replaces (r now : Z) (c domain0 : string)
    (e : BlockEntry) (ds : list string) :
  validateDomain domain0 = Valid c ->
  1 <= r <= 480 ->
  reason e <> BLOCK_REASONS.SCHEDULE ->
  now < until e ->
  forall w : World,
    JsObj.wfb (activeBlocks w) = true ->
    JsObj.get (activeBlocks w) c = Some e ->
    (exists d, In d ds /\ cleanDomainOf d = Some c) ->
    let w' := snd (forOf ds (activateDomain r) w) in
    (forall i : nat, (reads w <= i < reads w')%nat -> clock i = now) ->
    JsObj.get (activeBlocks w') c
    = Some {| until := now + r * 60 * 1000;
              blockedAt := now;
              reason := BLOCK_REASONS.SCHEDULE |}.
Proof.
  intros Hv0 Hr Hreason Hlt.
  induction ds as [|d ds IH]; intros w Hwf Hget (d0 & Hin & Hd0); cbv zeta;
    [destruct Hin|].
  rewrite forOf_activate_cons. intros Hclock.
  pose proof (activateDomain_reads r d w) as Hr1.
  pose proof (forOf_activate_reads r ds (snd (activateDomain r d w))) as Hr2.
  pose proof (activateDomain_wf r d w Hwf) as Hwf1.
  destruct (activateDomain_replaces r now c domain0 e d w Hv0 Hr Hwf Hget
              Hreason Hlt) as [Hnew|[Hold Hd]].
  { intros i Hi. apply Hclock. lia. }
  - apply (forOf_activate_keeps r c _ ds _ Hwf1 Hnew eq_refl).
    intros i Hi. rewrite Hclock by lia. cbn [until]. lia.
  - apply (IH _ Hwf1 Hold).
    + destruct Hin as [->|Hin]; [contradiction|]. now exists d0.
    + intros i Hi. apply Hclock. lia.
Qed.

(** The run of [checkSingle]: its guards, each with its own clock read,
    then the loop over the domains. *)
Lemma checkSingle_run (schedule : Schedule) (w : World) :
  checkSingle schedule w
  = if negb (enabled schedule) then (Return tt, w)
    else if negb (existsb (Z.eqb (date_getDay (clock (reads w))))
                          (days schedule))
    then (Return tt, tick w)
    else if negb
              ((parseTimeToMinutes (startTime schedule)
                <=? currentMinutes (clock (S (reads w))))
               && (currentMinutes (clock (S (reads w)))
                   <? parseTimeToMinutes (endTime schedule)))
    then (Return tt, tick (tick w))
    else
      let remaining :=
        parseTimeToMinutes (endTime schedule)
        - currentMinutes (clock (S (S (reads w)))) in
      let remainingMinutes := if 0 <? remaining then remaining else 0 in
      if remainingMinutes <=? 0 then (Return tt, tick (tick (tick w)))
      else forOf (domains schedule) (activateDomain remainingMinutes)
                 (tick (tick (tick w))).
Proof.
  unfold checkSingle, currentMinutes.
  destruct (negb (enabled schedule)); [reflexivity|].
  run. cbn [reads tick].
  destruct (negb (existsb _ _)); [reflexivity|].
  destruct (negb (_ && _)); [reflexivity|].
  cbv zeta. destruct (_ <=? 0); reflexivity.
Qed.


(** What [checkSingle] does to the blocks in place, on a well-formed
    store: a schedule-sourced block already in place is not restarted,
    the run leaves its entry, and so its [until], as it is, if the block
    outlasts the clock reads of the run; in particular a second run straight
    after the one that created the block changes nothing in it.  A manual
    block of a domain the schedule lists is replaced, when the window is
    open and has at most 480 minutes left, by a schedule-sourced block that
    runs to the end of the window, and so is extended whenever the window
    outlasts it. *)
Theorem checkSingle_schedule_blocks (w : World) (schedule : Schedule) :
  let w' := snd (checkSingle schedule w) in
  JsObj.wfb (activeBlocks w) = true ->
  JsObj.wfb (activeBlocks w') = true
  /\ (forall (k : string) (e : BlockEntry),
        JsObj.get (activeBlocks w) k = Some e ->
        reason e = BLOCK_REASONS.SCHEDULE ->
        (forall i : nat, (reads w <= i < reads w')%nat -> clock i < until e) ->
        JsObj.get (activeBlocks w') k = Some e)
  /\ (forall (domain c : string) (e : BlockEntry) (now : Z),
        In domain (domains schedule) ->
        validateDomain domain = Valid c ->
        JsObj.get (activeBlocks w) c = Some e ->
        reason e = BLOCK_REASONS.MANUAL ->
        now < until e ->
        (forall i : nat, (reads w <= i < reads w')%nat -> clock i = now) ->
        enabled schedule = true ->
        In (date_getDay now) (days schedule) ->
        parseTimeToMinutes (startTime schedule) <= currentMinutes now ->
        currentMinutes now < parseTimeToMinutes (endTime schedule) ->
        let remaining :=
          parseTimeToMinutes (endTime schedule) - currentMinutes now in
        remaining <= 480 ->
        until e <= now + remaining * 60 * 1000 ->
        exists e' : BlockEntry,
          JsObj.get (activeBlocks w') c = Some e'
          /\ reason e' = BLOCK_REASONS.SCHEDULE
          /\ until e' = now + remaining * 60 * 1000
          /\ until e <= until e').
Proof.
  cbv zeta. intros Hwf. rewrite checkSingle_run.
  split; [|split].
  - destruct (negb (enabled schedule)); [exact Hwf|].
    destruct (negb (existsb _ _)); [exact Hwf|].
    destruct (negb (_ && _)); [exact Hwf|]. cbv zeta.
    destruct (_ <=? 0); [exact Hwf|]. now apply forOf_activate_wf.
  - intros k e Hget Hreason.
    destruct (negb (enabled schedule)); [auto|].
    destruct (negb (existsb _ _)); [auto|].
    destruct (negb (_ && _)); [auto|]. cbv zeta.
    destruct (_ <=? 0); [auto|]. intros Hclock.
    pose proof (forOf_activate_reads
                  (if 0 <? parseTimeToMinutes (endTime schedule)
                           - currentMinutes (clock (S (S (reads w))))
                   then parseTimeToMinutes (endTime schedule)
                        - currentMinutes (clock (S (S (reads w))))
                   else 0)
                  (domains schedule) (tick (tick (tick w)))) as Hr.
    apply (forOf_activate_keeps _ k e (domains schedule)
             (tick (tick (tick w))) Hwf Hget Hreason).
    intros i Hi. apply Hclock. cbn [reads tick] in Hi. lia.
  - intros domain c e now Hin Hv Hget Hreason Hlt Hclock Hen Hday Hstart Hend
           Hrem Hext.
    set (remaining := parseTimeToMinutes (endTime schedule)
                      - currentMinutes now) in *.
    rewrite Hen in *. cbn [negb] in *.
    assert (forall r ds w0, (reads w0 <= reads (snd (forOf ds (activateDomain r) w0)))%nat)
      as Hreads by (intros; apply forOf_activate_reads).
    assert (clock (reads w) = now) as H0.
    { apply Hclock. split; [lia|].
      destruct (negb (existsb _ _)); [cbn; lia|].
      destruct (negb (_ && _)); [cbn; lia|]. cbv zeta.
      destruct (_ <=? 0); [cbn; lia|].
      eapply Nat.lt_le_trans; [|apply Hreads]. cbn. lia. }
    rewrite H0 in *.
    assert (existsb (Z.eqb (date_getDay now)) (days schedule) = true) as Hex.
    { apply existsb_exists. exists (date_getDay now).
      split; [exact Hday|apply Z.eqb_refl]. }
    rewrite Hex in *. cbn [negb] in *.
    assert (clock (S (reads w)) = now) as H1.
    { apply Hclock. split; [lia|].
      destruct (negb (_ && _)); [cbn; lia|]. cbv zeta.
      destruct (_ <=? 0); [cbn; lia|].
      eapply Nat.lt_le_trans; [|apply Hreads]. cbn. lia. }
    rewrite H1 in *.
    assert ((parseTimeToMinutes (startTime schedule) <=? currentMinutes now)
            && (currentMinutes now <? parseTimeToMinutes (endTime schedule))
            = true) as Hwin.
    { apply andb_true_iff. split; [now apply Z.leb_le|now apply Z.ltb_lt]. }
    rewrite Hwin in *. cbn [negb] in *. cbv zeta in *.
    assert (clock (S (S (reads w))) = now) as H2.
    { apply Hclock. split; [lia|].
      destruct (_ <=? 0); [cbn; lia|].
      eapply Nat.lt_le_trans; [|apply Hreads]. cbn. lia. }
    rewrite H2 in *. fold remaining in Hclock |- *.
    assert (0 < remaining) as Hpos by (unfold remaining; lia).
    destruct (Z.ltb_spec 0 remaining) as [_|]; [|lia].
    destruct (Z.leb_spec remaining 0) as [|_]; [lia|].
    eexists. split.
    + apply (forOf_activate_replaces remaining now c domain e
               (domains schedule) Hv); try lia.
      * rewrite Hreason. discriminate.
      * exact Hwf.
      * exact Hget.
      * exists domain. split; [exact Hin|now apply validateDomain_clean].
      * intros i Hi. apply Hclock. cbn [reads tick] in Hi. lia.
    + cbn [reason until]. repeat split. exact Hext.
Qed.

End LibraryFacts.

(** ** The properties on the sample states *)

Section OnSamples.

Import Samples.

Lemma domainMatches_containment_witness :
  "sub.example.com" <> "" /\ "example.com" <> ""
  /\ JsString.isLowerCase "sub.example.com"
  /\ JsString.isLowerCase "example.com"
  /\ (domainMatches "sub.example.com" "example.com" = true
      <-> "sub.example.com" = "example.com"
          \/ exists p, "sub.example.com" = p ++ "." ++ "example.com").
Proof.
  split; [discriminate|]. split; [discriminate|].
  split; [reflexivity|]. split; [reflexivity|].
  destruct domainMatches_containment as (_ & H & _).
  apply H; [discriminate|discriminate|reflexivity|reflexivity].
Defined.

(** C7 at work: nothing is blocked, and [remove("constructor")] returns
    the domain instead of throwing [block_not_found]. *)
Lemma remove_clears_block_and_pending_witness :
  @cleanDomainOf hostAtTen "constructor" = Some "constructor"
  /\ activeBlocks emptyWorld = []
  /\ exists w' : World,
       @remove hostAtTen "constructor" emptyWorld
       = (Return "constructor", w').
Proof.
  assert (@cleanDomainOf hostAtTen "constructor" = Some "constructor")
    as Hc by (vm_compute; reflexivity).
  split; [exact Hc|]. split; [reflexivity|].
  destruct (@remove_clears_block_and_pending hostAtTen emptyWorld
              "constructor" "constructor" Hc)
    as (out & w' & Hrun & _ & _ & _ & _ & _ & Hmember).
  exists w'. rewrite Hrun. f_equal. apply Hmember; reflexivity.
Defined.

Lemma getAll_idempotent_witness :
  @clock hostAtTen (S (reads withExpired)) = @clock hostAtTen (reads withExpired)
  /\ exists (r : JsObj.t BlockEntry) (w1 w2 : World),
       @getAll hostAtTen withExpired = (Return r, w1)
       /\ @getAll hostAtTen w1 = (Return r, w2)
       /\ w2 = tick w1
       /\ w1 = write_activeBlocks r (tick withExpired)
       /\ r = [("example.com", longManualBlock)].
Proof.
  split; [reflexivity|].
  destruct (@getAll_idempotent hostAtTen withExpired eq_refl)
    as (r & w1 & w2 & H1 & H2 & H3 & _ & _ & Hexp & _).
  exists r, w1, w2. split; [exact H1|]. split; [exact H2|].
  split; [exact H3|]. split.
  - apply Hexp. eexists. split; [left; reflexivity|].
    apply Z.leb_le. reflexivity.
  - vm_compute in H1. now injection H1 as <- _.
Defined.

Lemma add_duration_range_witness :
  @validateDomain hostAtTen "www.example.com" = Valid "example.com"
  /\ JsNumber.isNumber 480 = true /\ Z.abs 480 < 10 ^ 21 /\ 1 <= 480 <= 480
  /\ exists w',
       @add hostAtTen "www.example.com" (JsInt 480) BLOCK_REASONS.MANUAL
            emptyWorld
       = (Return "example.com", w')
       /\ JsObj.get (activeBlocks w') "example.com" = Some longManualBlock.
Proof.
  assert (@validateDomain hostAtTen "www.example.com" = Valid "example.com")
    as Hv by (vm_compute; reflexivity).
  split; [exact Hv|]. split; [reflexivity|]. split; [reflexivity|].
  split; [lia|].
  destruct (@add_duration_range hostAtTen emptyWorld "www.example.com"
              "example.com" BLOCK_REASONS.MANUAL Hv) as (H & _).
  destruct (H 480 eq_refl eq_refl) as (Hok & _).
  destruct (Hok ltac:(lia)) as (w' & Hrun & Hget).
  exists w'. split; [exact Hrun|exact Hget].
Defined.

(** C6, the claim as stated fails: the text [12abc] is no number, and the
    integer [10^21] is not between 1 and 480, yet [add] accepts both, the
    first as 12 minutes and the second, which prints as [1e+21], as one
    minute. *)
Lemma add_accepts_leading_integer :
  @validateDomain hostAtTen "example.com" = Valid "example.com"
  /\ JsNumber.isNumber (10 ^ 21) = true
  /\ ToString (JsInt (10 ^ 21)) = "1e+21"
  /\ fst (@add hostAtTen "example.com" (JsStr "12abc") BLOCK_REASONS.MANUAL
               emptyWorld)
     = Return "example.com"
  /\ JsObj.get
       (activeBlocks
          (snd (@add hostAtTen "example.com" (JsStr "12abc")
                     BLOCK_REASONS.MANUAL emptyWorld))) "example.com"
     = Some {| until := 36000000 + 12 * 60 * 1000; blockedAt := 36000000;
               reason := BLOCK_REASONS.MANUAL |}
  /\ fst (@add hostAtTen "example.com" (JsInt (10 ^ 21))
               BLOCK_REASONS.MANUAL emptyWorld)
     = Return "example.com"
  /\ JsObj.get
       (activeBlocks
          (snd (@add hostAtTen "example.com" (JsInt (10 ^ 21))
                     BLOCK_REASONS.MANUAL emptyWorld))) "example.com"
     = Some {| until := 36000000 + 1 * 60 * 1000; blockedAt := 36000000;
               reason := BLOCK_REASONS.MANUAL |}.
Proof. vm_compute. repeat split; reflexivity. Qed.

Lemma request_while_pending_rejected_witness :
  let w := snd (@request hostFromTen "example.com" longBlocked) in
  @cleanDomainOf hostFromTen "example.com" = Some "example.com"
  /\ (exists p, JsObj.get (pendingUnblocks w) "example.com" = Some p
                /\ @clock hostFromTen (reads w) < unlocksAt p)
  /\ (forall i j : nat, (i <= j)%nat ->
                        @clock hostFromTen i <= @clock hostFromTen j)
  /\ exists w' : World,
       @request hostFromTen "example.com" w
       = (Throw (mkError UNBLOCK_PENDING (Some 300)), w')
       /\ pendingUnblocks w' = pendingUnblocks w
       /\ dailyAttempts w' = dailyAttempts w
       /\ writes w' = writes w
       /\ 300 <= 300.
Proof.
  cbv zeta.
  assert (forall i j : nat, (i <= j)%nat ->
            @clock hostFromTen i <= @clock hostFromTen j) as Hmono.
  { intros i j Hij.
    change (36000000 + 1 * Z.of_nat i <= 36000000 + 1 * Z.of_nat j). lia. }
  assert (@cleanDomainOf hostFromTen "example.com" = Some "example.com")
    as Hc by (vm_compute; reflexivity).
  assert (JsObj.get
            (pendingUnblocks
               (snd (@request hostFromTen "example.com" longBlocked)))
            "example.com"
          = Some {| requestedAt := 36000004; unlocksAt := 36300002;
                    attemptNumber := 1 |}) as Hp
    by (vm_compute; reflexivity).
  assert (@clock hostFromTen
            (reads (snd (@request hostFromTen "example.com" longBlocked)))
          < 36300002) as Hlt by (vm_compute; reflexivity).
  assert (@request hostFromTen "example.com" longBlocked
          = (Return {| waitTime := 300; grant_unlocksAt := 36300002;
                       grant_attemptNumber := 1 |},
             snd (@request hostFromTen "example.com" longBlocked)))
    as Hfirst by (vm_compute; reflexivity).
  split; [exact Hc|]. split.
  - eexists. split; [exact Hp|exact Hlt].
  - split; [exact Hmono|].
    destruct (@request_while_pending_rejected hostFromTen
                (snd (@request hostFromTen "example.com" longBlocked))
                "example.com" "example.com"
                {| requestedAt := 36000004; unlocksAt := 36300002;
                   attemptNumber := 1 |} Hc Hp Hlt)
      as (w' & Hrun & _ & Hp' & Ha & Hw & Hbound).
    exists w'. split; [exact Hrun|]. split; [exact Hp'|].
    split; [exact Ha|]. split; [exact Hw|].
    apply (Hbound longBlocked
             {| waitTime := 300; grant_unlocksAt := 36300002;
                grant_attemptNumber := 1 |} Hmono Hfirst).
Defined.



(** C2, the claim as stated fails: the domain has a PendingUnblock that
    has unlocked, yet [confirm] does not succeed; the domain has no
    BlockEntry and [remove] throws [block_not_found]. *)


Lemma checkSingle_schedule_blocks_witness :
  JsObj.wfb (activeBlocks shortBlocked) = true
  /\ (let created := snd (@checkSingle hostAtTen workHours shortBlocked) in
      let again := snd (@checkSingle hostAtTen workHours created) in
      JsObj.get (activeBlocks created) "example.com"
      = Some {| until := 61200000; blockedAt := 36000000;
                reason := BLOCK_REASONS.SCHEDULE |}
      /\ until shortManualBlock <= 61200000
      /\ JsObj.get (activeBlocks again) "example.com"
         = JsObj.get (activeBlocks created) "example.com").
Proof.
  split; [reflexivity|]. cbv zeta.
  assert (@validateDomain hostAtTen "example.com" = Valid "example.com")
    as Hv by (vm_compute; reflexivity).
  destruct (@checkSingle_schedule_blocks hostAtTen shortBlocked workHours
              eq_refl) as (Hwf & _ & Hmanual).
  destruct (Hmanual "example.com" "example.com" shortManualBlock 36000000)
    as (e' & Hget & Hreason & Huntil & Hext).
  - left. reflexivity.
  - exact Hv.
  - reflexivity.
  - reflexivity.
  - apply Z.ltb_lt. vm_compute. reflexivity.
  - intros i _. reflexivity.
  - reflexivity.
  - vm_compute. tauto.
  - apply Z.leb_le. vm_compute. reflexivity.
  - apply Z.ltb_lt. vm_compute. reflexivity.
  - apply Z.leb_le. vm_compute. reflexivity.
  - apply Z.leb_le. vm_compute. reflexivity.
  - assert (JsObj.get
              (activeBlocks (snd (@checkSingle hostAtTen workHours shortBlocked)))
              "example.com"
            = Some {| until := 61200000; blockedAt := 36000000;
                      reason := BLOCK_REASONS.SCHEDULE |}) as Hcreated
      by (vm_compute; reflexivity).
    split; [exact Hcreated|]. split; [apply Z.leb_le; vm_compute; reflexivity|].
    destruct (@checkSingle_schedule_blocks hostAtTen
                (snd (@checkSingle hostAtTen workHours shortBlocked))
                workHours Hwf) as (_ & Hkeep & _).
    rewrite Hcreated. apply Hkeep; [exact Hcreated|reflexivity|].
    intros i _. apply Z.ltb_lt. vm_compute. reflexivity.
Defined.

(** C3.  A manual block is overridden and shortened: the manual block of
    example.com runs to 18:00, and a run of [checkSingle] at 10:00 for a
    schedule that ends at 17:00 puts a schedule-sourced entry in its place
    that ends an hour earlier, against the comment in [checkSingle]
    (only add if not already blocked, or if schedule would extend it). *)
Lemma checkSingle_overrides_manual :
  JsObj.get (activeBlocks longBlocked) "example.com" = Some longManualBlock
  /\ reason longManualBlock = BLOCK_REASONS.MANUAL
  /\ JsObj.get
       (activeBlocks (snd (@checkSingle hostAtTen workHours longBlocked)))
       "example.com"
     = Some {| until := 61200000; blockedAt := 36000000;
               reason := BLOCK_REASONS.SCHEDULE |}
  /\ 61200000 < until longManualBlock.
Proof.
  split; [reflexivity|]. split; [reflexivity|].
  split; [vm_compute; reflexivity|]. apply Z.ltb_lt. vm_compute. reflexivity.
Qed.

(** Four requests for one domain on one day, each made after the delay of
    the one before has run out, wait 5, 10, 15 and 15 minutes. *)
Example escalation_sequence :
  let host := SampleHost.platform (SampleHost.ticking 36000000 1000000) in
  let r1 := @request host "example.com" emptyWorld in
  let r2 := @request host "example.com" (snd r1) in
  let r3 := @request host "example.com" (snd r2) in
  let r4 := @request host "example.com" (snd r3) in
  map grantedWait [r1; r2; r3; r4] = [Some 300; Some 600; Some 900; Some 900]
  /\ JsObj.get (dailyAttempts (snd r4)) "example.com_1970-01-01" = Some 4.
Proof. vm_compute. split; reflexivity. Qed.

(** The end-to-end scenario: a block of 60 minutes is seen in [getAll] and
    blocks a page of the site; an unblock request waits 300 seconds; a
    [confirm] at once is refused, and one 300 seconds later lifts the
    block. *)
Example block_and_unblock_scenario :
  let host := SampleHost.platform (SampleHost.jumping 36000000 12 36300000) in
  let w1 := snd (@add host "youtube.com" (JsInt 60) BLOCK_REASONS.MANUAL
                      emptyWorld) in
  let listed := @getAll host w1 in
  let visited := @isBlocked host "https://www.youtube.com/watch?v=1"
                            (snd listed) in
  let requested := @request host "youtube.com" (snd visited) in
  let early := @confirm host "youtube.com" (snd requested) in
  let late := @confirm host "youtube.com" (snd early) in
  let after := @getAll host (snd late) in
  fst listed
  = Return [("youtube.com",
             {| until := 36000000 + 3600000; blockedAt := 36000000;
                reason := BLOCK_REASONS.MANUAL |})]
  /\ fst visited = Return true
  /\ grantedWait requested = Some 300
  /\ thrownCode early = Some "unblock_delay_not_complete"
  /\ fst late = Return "youtube.com"
  /\ fst after = Return [].
Proof. vm_compute. repeat split; reflexivity. Qed.

End OnSamples.

(** * Properties of the rest of the library *)

(** ** Copying loops *)

Section CopyFacts.

Context {V : Type}.
Implicit Types (o : JsObj.t V) (k : string) (v : V).

Lemma copyStep_fst (keep : string * V -> bool) (acc : JsObj.t V) (b : bool)
    (entry : string * V) :
  fst (copyStep keep (acc, b) entry)
  = if keep entry then JsObj.set acc (fst entry) (snd entry) else acc.
Proof. cbn. now destruct (keep entry). Qed.

Lemma copyStep_snd (keep : string * V -> bool) (acc : JsObj.t V) (b : bool)
    (entry : string * V) :
  snd (copyStep keep (acc, b) entry) = if keep entry then b else true.
Proof. cbn. now destruct (keep entry). Qed.

Lemma wfb_app_fresh o k v :
  JsObj.wfb (o ++ (k, v) :: nil)%list = true -> ~ In k (JsObj.keys o).
Proof.
  induction o as [|[k1 v1] o IH]; [tauto|].
  cbn [app]. intros Hwf. apply wfb_cons in Hwf as [H1 H2].
  cbn [JsObj.keys map fst In]. intros [->|H].
  - apply H1. unfold JsObj.keys. rewrite map_app. apply in_or_app.
    right. now left.
  - now apply IH.
Qed.

(** Over a well-formed object the loop is a filter. *)
Lemma copy_fold_filter (keep : string * V -> bool) (l : list (string * V)) :
  forall (acc : JsObj.t V) (b : bool),
    JsObj.wfb (acc ++ l)%list = true ->
    fold_left (copyStep keep) l (acc, b)
    = ((acc ++ filter keep l)%list, b || negb (forallb keep l)).
Proof.
  induction l as [|[k v] l IH]; intros acc b Hwf; cbn [fold_left filter forallb].
  - cbn [negb]. now rewrite app_nil_r, orb_false_r.
  - rewrite (surjective_pairing (copyStep keep (acc, b) (k, v))).
    rewrite copyStep_fst, copyStep_snd. cbn [fst snd].
    assert (JsObj.wfb (acc ++ (k, v) :: nil)%list = true) as Hwf1.
    { clear -Hwf. induction acc as [|[k1 v1] acc IHa].
      - cbn [app] in *. apply wfb_cons in Hwf as [H1 H2]. reflexivity.
      - cbn [app] in *. apply wfb_cons in Hwf as [H1 H2].
        cbn [JsObj.wfb]. rewrite (IHa H2), andb_true_r.
        apply negb_true_iff. apply not_true_is_false. intros Hex.
        apply existsb_exists in Hex as (x & Hin & Hx).
        apply String.eqb_eq in Hx. subst x. apply H1.
        unfold JsObj.keys in *. rewrite map_app in *.
        apply in_app_or in Hin as [Hin|Hin]; apply in_or_app;
          [now left|right].
        cbn [map fst] in *. destruct Hin as [Hin|[]]. now left. }
    destruct (keep (k, v)) eqn:Ek.
    + rewrite (set_fresh acc k v (wfb_app_fresh acc k v Hwf1)).
      rewrite IH by now rewrite <- app_assoc.
      now rewrite <- app_assoc.
    + rewrite IH.
      * cbn [andb negb]. now rewrite orb_true_r.
      * clear -Hwf. induction acc as [|[k1 v1] acc IHa].
        -- cbn [app] in *. now apply wfb_cons in Hwf as [H1 H2].
        -- cbn [app] in *. apply wfb_cons in Hwf as [H1 H2].
           cbn [JsObj.wfb]. rewrite (IHa H2), andb_true_r.
           apply negb_true_iff. apply not_true_is_false. intros Hex.
           apply existsb_exists in Hex as (x & Hin & Hx).
           apply String.eqb_eq in Hx. subst x. apply H1.
           unfold JsObj.keys in *. rewrite map_app in *.
           apply in_app_or in Hin as [Hin|Hin]; apply in_or_app;
             [now left|right]. now right.
Qed.

Lemma copyWhere_filter (keep : string * V -> bool) o :
  JsObj.wfb o = true ->
  copyWhere keep o = (filter keep o, negb (forallb keep o)).
Proof.
  intros Hwf. unfold copyWhere, JsObj.entries.
  now rewrite (copy_fold_filter keep o JsObj.empty false Hwf).
Qed.

Lemma wfb_filter (keep : string * V -> bool) o :
  JsObj.wfb o = true -> JsObj.wfb (filter keep o) = true.
Proof.
  induction o as [|[k v] o IH]; [reflexivity|].
  intros Hwf. apply wfb_cons in Hwf as [H1 H2]. cbn [filter].
  destruct (keep (k, v)); [|now apply IH].
  cbn [JsObj.wfb]. rewrite (IH H2), andb_true_r.
  apply negb_true_iff. apply not_true_is_false. intros Hex.
  apply existsb_exists in Hex as (x & Hin & Hx).
  apply String.eqb_eq in Hx. subst x. apply H1.
  unfold JsObj.keys in *. apply in_map_iff in Hin as ([k' v'] & E & Hin).
  cbn in E. subst k'. apply filter_In in Hin as [Hin _].
  apply in_map_iff. now exists (k, v').
Qed.

(** What a key holds after the loop. *)
Lemma get_filter (keep : string * V -> bool) o k :
  JsObj.wfb o = true ->
  JsObj.get (filter keep o) k
  = match JsObj.get o k with
    | Some v => if keep (k, v) then Some v else None
    | None => None
    end.
Proof.
  induction o as [|[k1 v1] o IH]; [reflexivity|].
  intros Hwf. apply wfb_cons in Hwf as [H1 H2].
  cbn [filter JsObj.get].
  destruct (String.eqb_spec k1 k) as [->|Hne].
  - destruct (keep (k, v1)) eqn:Ek.
    + cbn [JsObj.get]. now rewrite String.eqb_refl.
    + rewrite (IH H2).
      assert (JsObj.get o k = None) as ->; [|reflexivity].
      destruct (JsObj.get o k) as [v|] eqn:E; [|reflexivity].
      exfalso. apply H1. apply get_In in E.
      apply in_map_iff. now exists (k, v).
  - destruct (keep (k1, v1)).
    + cbn [JsObj.get]. apply String.eqb_neq in Hne. rewrite Hne. now apply IH.
    + now apply IH.
Qed.

End CopyFacts.

(** ** Unblock throttle: the rest of the manager *)

Section UnblockFacts.

Context {host : Platform}.

(** Unfolds the storage and clock primitives of a computation. *)
Ltac run :=
  cbv [bind ret throw gets modify tryCatch withLock
       getPendingUnblocks setPendingUnblocks getSettings getDailyAttempts
       getActiveBlocks setActiveBlocks updateDailyAttempts
       updatePendingUnblocks updateActiveBlocks updateStats Date_now
       getTodayKey getCurrentTime getCurrentDay isInTimeWindow
       minutesUntilEndTime].

Lemma orElse_zero (n : Z) : JsNumber.orElse (Some n) 0 = n.
Proof. unfold JsNumber.orElse. destruct (Z.eqb_spec n 0); congruence. Qed.

(** The run of [cancel] on a domain that has a clean form. *)
Lemma cancel_run (w : World) (domain c : string) :
  cleanDomainOf domain = Some c ->
  cancel domain w
  = (if JsObj.truthy (pendingUnblocks w) c then Return c
     else Throw (mkError NO_PENDING_UNBLOCK None),
     clear_alarm (ALARMS.UNBLOCK_PREFIX ++ c)
       (write_pendingUnblocks (JsObj.delete (pendingUnblocks w) c) (tick w))).
Proof.
  intros Hc. unfold cancel. rewrite Hc. run.
  cbn [pendingUnblocks tick].
  destruct (JsObj.truthy (pendingUnblocks w) c) eqn:E.
  - reflexivity.
  - rewrite (delete_absent _ _ (truthy_false_get _ _ E)). reflexivity.
Qed.





(** X1.  [cancel] returns the clean domain when the test
    [if (pending[cleanDomain])] finds something: a PendingUnblock of the
    domain or, for a member name of [Object.prototype] ([constructor],
    [__proto__]), that member; it throws [no_pending_unblock] otherwise.
    Either way the domain has no PendingUnblock and no unblock alarm
    afterwards, every other PendingUnblock is as it was, and the blocks and
    the daily attempt counters are untouched. *)
Theorem cancel_withdraws_request (w : World) (domain c : string) :
  cleanDomainOf domain = Some c ->
  let w' := snd (cancel domain w) in
  fst (cancel domain w)
  = (if JsObj.has (pendingUnblocks w) c || JsObj.inherited c then Return c
     else Throw (mkError NO_PENDING_UNBLOCK None))
  /\ JsObj.get (pendingUnblocks w') c = None
  /\ (forall k, k <> c ->
        JsObj.get (pendingUnblocks w') k = JsObj.get (pendingUnblocks w) k)
  /\ JsObj.get (alarms w') (ALARMS.UNBLOCK_PREFIX ++ c) = None
  /\ activeBlocks w' = activeBlocks w
  /\ dailyAttempts w' = dailyAttempts w.
Proof.
  intros Hc. cbv zeta. rewrite (cancel_run w domain c Hc).
  cbn [fst snd clear_alarm write_pendingUnblocks tick pendingUnblocks alarms
       activeBlocks dailyAttempts].
  split; [now rewrite truthy_spec|]. split; [apply get_delete_same|].
  split; [intros k Hk; now apply get_delete_other|].
  split; [apply get_delete_same|]. split; reflexivity.
Qed.

(** X2.  Cancelling does not reset the escalation: when a granted
    [request] is cancelled and the domain is requested again on the same
    day, the new request is granted as the next attempt of the day. *)
Theorem cancel_keeps_escalation (w w1 : World) (domain c : string)
    (grant : UnblockGrant) :
  cleanDomainOf domain = Some c ->
  (forall i j : nat,
     hd "" (JsString.split "T" (date_toISOString (clock i)))
     = hd "" (JsString.split "T" (date_toISOString (clock j)))) ->
  request domain w = (Return grant, w1) ->
  exists (w2 : World) (grant' : UnblockGrant) (w3 : World),
    cancel domain w1 = (Return c, w2)
    /\ request domain w2 = (Return grant', w3)
    /\ grant_attemptNumber grant' = grant_attemptNumber grant + 1.
Proof.
  intros Hc Hday Hreq.
  assert (forall p, JsObj.get (pendingUnblocks w) c = Some p ->
                    unlocksAt p <= clock (reads w)) as Hfree.
  { intros p Hp. destruct (Z.le_gt_cases (unlocksAt p) (clock (reads w)))
      as [H|H]; [exact H|].
    rewrite (request_rejected w domain c p Hc Hp) in Hreq by lia.
    discriminate Hreq. }
  rewrite (request_granted w domain c Hc Hfree) in Hreq. cbv zeta in Hreq.
  injection Hreq as Hg Hw.
  set (w0 := if JsObj.truthy (pendingUnblocks w) c then tick w else w) in *.
  set (key0 := c ++ "_" ++ hd "" (JsString.split "T"
                 (date_toISOString (clock (reads w0))))) in *.
  set (n := JsNumber.orElse (JsObj.get (dailyAttempts w) key0) 0 + 1) in *.
  assert (grant_attemptNumber grant = n) as Hn by now subst grant.
  rewrite (cancel_run w1 domain c Hc).
  assert (JsObj.truthy (pendingUnblocks w1) c = true) as Hhas.
  { subst w1. cbn [pendingUnblocks create_alarm write_pendingUnblocks].
    eapply truthy_own. apply get_set_same. }
  rewrite Hhas.
  set (w2 := clear_alarm _ _).
  assert (JsObj.get (pendingUnblocks w2) c = None) as Hnone.
  { subst w2. cbn [pendingUnblocks clear_alarm write_pendingUnblocks].
    apply get_delete_same. }
  assert (forall p, JsObj.get (pendingUnblocks w2) c = Some p ->
                    unlocksAt p <= clock (reads w2)) as Hfree2
    by (intros p Hp; congruence).
  pose proof (request_granted w2 domain c Hc Hfree2) as Hrun.
  cbv zeta in Hrun.
  eexists w2, _, _. split; [reflexivity|]. split; [exact Hrun|].
  cbn [grant_attemptNumber]. rewrite Hn. f_equal.
  rewrite (Hday _ (reads w0)). fold key0.
  assert (dailyAttempts w2 = JsObj.set (dailyAttempts w) key0 n) as ->.
  { subst w2 w1. reflexivity. }
  rewrite get_set_same. apply orElse_zero.
Qed.

(** The run of [isReady]. *)
Lemma isReady_run (w : World) (domain c : string) :
  cleanDomainOf domain = Some c ->
  isReady domain w
  = match JsObj.get (pendingUnblocks w) c with
    | Some p => (Return (unlocksAt p <=? clock (reads w)), tick w)
    | None => (Return false, if JsObj.inherited c then tick w else w)
    end.
Proof.
  intros Hc. unfold isReady. rewrite Hc. run. unfold JsObj.lookup.
  destruct (JsObj.get (pendingUnblocks w) c); [reflexivity|].
  now destruct (JsObj.inherited c).
Qed.

(** X3.  For a domain with a PendingUnblock, [isReady], [confirm] and
    [request] agree on the delay when they read the same clock value:
    [isReady] answers whether [unlocksAt <= now]; it is false exactly when
    [confirm] throws [unblock_delay_not_complete], and exactly when
    [request] throws [unblock_pending]. *)
Theorem isReady_matches_gates (w : World) (domain c : string)
    (p : PendingUnblock) :
  cleanDomainOf domain = Some c ->
  JsObj.get (pendingUnblocks w) c = Some p ->
  fst (isReady domain w) = Return (unlocksAt p <=? clock (reads w))
  /\ (fst (isReady domain w) = Return false
      <-> exists r, fst (confirm domain w)
                    = Throw (mkError UNBLOCK_DELAY_NOT_COMPLETE r))
  /\ (fst (isReady domain w) = Return false
      <-> exists r, fst (request domain w)
                    = Throw (mkError UNBLOCK_PENDING r)).
Proof.
  intros Hc Hp. rewrite (isReady_run w domain c Hc), Hp. cbn [fst].
  split; [reflexivity|].
  destruct (Z.leb_spec (unlocksAt p) (clock (reads w))) as [Hle|Hlt].
  - split; (split; [discriminate|intros [r Hr]; exfalso]).
    + assert (forall q, JsObj.get (pendingUnblocks w) c = Some q ->
                        unlocksAt q <= clock (reads w)) as Hfree
        by (intros q Hq; congruence).
      rewrite (confirm_passed w domain c Hc Hfree) in Hr. cbv zeta in Hr.
      destruct (cleanDomainOf c) as [c'|]; [|discriminate Hr].
      destruct (JsObj.truthy (activeBlocks w) c'); discriminate Hr.
    + assert (forall q, JsObj.get (pendingUnblocks w) c = Some q ->
                        unlocksAt q <= clock (reads w)) as Hfree
        by (intros q Hq; congruence).
      rewrite (request_granted w domain c Hc Hfree) in Hr. discriminate Hr.
  - split; (split; [intros _|reflexivity]).
    + rewrite (confirm_locked w domain c p Hc Hp Hlt). now eexists.
    + rewrite (request_rejected w domain c p Hc Hp Hlt). now eexists.
Qed.

(** X4.  The delay gates a [confirm] only when a request is pending.  Take
    a domain with the clean form [c] that has no PendingUnblock, and let
    [c'] be what [remove] makes of [c] when it normalizes it once more
    ([c] itself unless it has a further leading [www.]): if [c'] has a
    BlockEntry, [isReady] is false, reading the clock only when [c] names a
    member of [Object.prototype], yet [confirm] returns [c] and removes the
    block of [c']. *)
Theorem confirm_without_request (w : World) (domain c c' : string)
    (e : BlockEntry) :
  cleanDomainOf domain = Some c ->
  cleanDomainOf c = Some c' ->
  JsObj.get (pendingUnblocks w) c = None ->
  JsObj.get (activeBlocks w) c' = Some e ->
  isReady domain w
  = (Return false, if JsObj.inherited c then tick w else w)
  /\ fst (confirm domain w) = Return c
  /\ JsObj.get (activeBlocks (snd (confirm domain w))) c' = None.
Proof.
  intros Hc Hcc Hp Hb. split.
  - now rewrite (isReady_run w domain c Hc), Hp.
  - assert (forall q, JsObj.get (pendingUnblocks w) c = Some q ->
                      unlocksAt q <= clock (reads w)) as Hfree
      by (intros q Hq; congruence).
    rewrite (confirm_passed w domain c Hc Hfree). cbv zeta.
    rewrite Hcc, (truthy_own _ _ _ Hb).
    cbn [fst snd activeBlocks write_pendingUnblocks write_activeBlocks tick].
    split; [reflexivity|apply get_delete_same].
Qed.

(** X5.  [getPending] returns the PendingUnblocks that are less than the
    grace period (one hour) past their [unlocksAt], and they are what the
    store holds afterwards; when none is past the grace period nothing is
    written. *)
Theorem getPending_drops_after_grace (w : World) :
  JsObj.wfb (pendingUnblocks w) = true ->
  let now := clock (reads w) in
  exists (r : JsObj.t PendingUnblock) (w' : World),
    getPending w = (Return r, w')
    /\ (forall k p,
          JsObj.get r k = Some p
          <-> JsObj.get (pendingUnblocks w) k = Some p
              /\ now < unlocksAt p + 3600000)
    /\ JsObj.wfb r = true
    /\ pendingUnblocks w' = r
    /\ activeBlocks w' = activeBlocks w
    /\ ((forall k p, JsObj.get (pendingUnblocks w) k = Some p ->
                     now < unlocksAt p + 3600000) ->
        w' = tick w).
Proof.
  intros Hwf now. unfold getPending. run. cbn [pendingUnblocks reads tick].
  fold now.
  set (keep := fun entry : string * PendingUnblock =>
                 negb (graceExpired now (snd entry))).
  rewrite (copyWhere_filter keep _ Hwf).
  assert (forall k p, keep (k, p) = true <-> now < unlocksAt p + 3600000)
    as Hkeep.
  { intros k p. unfold keep, graceExpired. cbn [snd].
    change DEFAULTS.PENDING_UNBLOCK_GRACE_PERIOD_MS with 3600000.
    rewrite negb_true_iff, Z.leb_gt. reflexivity. }
  assert (forall k p,
            JsObj.get (filter keep (pendingUnblocks w)) k = Some p
            <-> JsObj.get (pendingUnblocks w) k = Some p
                /\ now < unlocksAt p + 3600000) as Hget.
  { intros k p. rewrite (get_filter keep _ k Hwf).
    destruct (JsObj.get (pendingUnblocks w) k) as [q|] eqn:E.
    - destruct (keep (k, q)) eqn:Ek.
      + apply Hkeep in Ek. split; [intros [= ->]; now split|now intros [H _]].
      + split; [discriminate|]. intros [[= ->] H].
        apply (Hkeep k) in H. congruence.
    - split; [discriminate|now intros [H _]]. }
  assert (forallb keep (pendingUnblocks w) = true -> 
          filter keep (pendingUnblocks w) = pendingUnblocks w) as Hall.
  { clear. induction (pendingUnblocks w) as [|x l IH]; [reflexivity|].
    cbn [forallb filter]. intros H. apply andb_true_iff in H as [H1 H2].
    rewrite H1. f_equal. now apply IH. }
  destruct (forallb keep (pendingUnblocks w)) eqn:Eall; cbn [negb].
  - eexists _, _. split; [reflexivity|]. split; [exact Hget|].
    split; [now apply wfb_filter|]. rewrite (Hall eq_refl).
    split; [reflexivity|]. split; reflexivity.
  - eexists _, _. split; [reflexivity|]. split; [exact Hget|].
    split; [now apply wfb_filter|]. split; [reflexivity|].
    split; [reflexivity|]. intros Hfresh. exfalso.
    assert (forallb keep (pendingUnblocks w) = true); [|congruence].
    apply forallb_forall. intros [k p] Hin. apply Hkeep.
    apply (Hfresh k). now apply In_get.
Qed.

(** X6.  [cleanupDailyAttempts] keeps the counters of today, those whose
    key ends with ["_"] and today's date, and drops every other one; so the
    counter that [request] reads for a domain today is as it was.  Blocks
    and pending unblocks are untouched. *)
Theorem cleanupDailyAttempts_keeps_today (w : World) :
  JsObj.wfb (dailyAttempts w) = true ->
  let today :=
    hd "" (JsString.split "T" (date_toISOString (clock (reads w)))) in
  exists w' : World,
    cleanupDailyAttempts w = (Return tt, w')
    /\ (forall k,
          JsObj.get (dailyAttempts w') k
          = if JsString.endsWith k ("_" ++ today)
            then JsObj.get (dailyAttempts w) k else None)
    /\ (forall d,
          JsObj.get (dailyAttempts w') (d ++ "_" ++ today)
          = JsObj.get (dailyAttempts w) (d ++ "_" ++ today))
    /\ JsObj.wfb (dailyAttempts w') = true
    /\ pendingUnblocks w' = pendingUnblocks w
    /\ activeBlocks w' = activeBlocks w.
Proof.
  intros Hwf today. unfold cleanupDailyAttempts. run.
  cbn [dailyAttempts tick reads]. fold today.
  set (keep := fun entry : string * Z =>
                 JsString.endsWith (fst entry) ("_" ++ today)).
  rewrite (copyWhere_filter keep _ Hwf). cbn [fst].
  assert (forall k,
            JsObj.get (filter keep (dailyAttempts w)) k
            = if JsString.endsWith k ("_" ++ today)
              then JsObj.get (dailyAttempts w) k else None) as Hget.
  { intros k. rewrite (get_filter keep _ k Hwf). unfold keep. cbn [fst].
    destruct (JsObj.get (dailyAttempts w) k);
      now destruct (JsString.endsWith k ("_" ++ today)). }
  eexists. split; [reflexivity|].
  cbn [dailyAttempts write_dailyAttempts pendingUnblocks activeBlocks tick].
  split; [exact Hget|]. split.
  - intros d. rewrite Hget.
    assert (JsString.endsWith (d ++ "_" ++ today) ("_" ++ today) = true)
      as ->; [|reflexivity].
    apply endsWith_iff. now exists d.
  - split; [now apply wfb_filter|]. split; reflexivity.
Qed.



End UnblockFacts.

(** ** Block registry: lookups and composition *)

Section RegistryFacts.

Context {host : Platform}.

(** The loop of [getAll] is a copying loop. *)
Lemma pruneExpired_copyWhere (now : Z) (blocks : JsObj.t BlockEntry) :
  pruneExpired now blocks
  = copyWhere (fun entry : string * BlockEntry => now <? until (snd entry))
              blocks.
Proof.
  unfold pruneExpired, copyWhere. generalize (@JsObj.empty BlockEntry, false).
  induction (JsObj.entries blocks) as [|[k e] l IH]; intros acc; [reflexivity|].
  cbn [fold_left]. rewrite IH. destruct acc as [a b]. reflexivity.
Qed.

(** What a key holds in the blocks that [getAll] returns. *)
Lemma pruneExpired_get (now : Z) (blocks : JsObj.t BlockEntry) (k : string) :
  JsObj.wfb blocks = true ->
  JsObj.get (fst (pruneExpired now blocks)) k
  = match JsObj.get blocks k with
    | Some e => if now <? until e then Some e else None
    | None => None
    end.
Proof.
  intros Hwf. rewrite pruneExpired_copyWhere, (copyWhere_filter _ _ Hwf).
  cbn [fst]. now rewrite (get_filter _ _ k Hwf).
Qed.

Lemma keys_get {V : Type} (o : JsObj.t V) (k : string) :
  In k (JsObj.keys o) -> exists v, JsObj.get o k = Some v.
Proof.
  intros Hin. destruct (JsObj.get o k) as [v|] eqn:E; [now exists v|].
  now apply get_None_keys in E.
Qed.

Lemma get_keys {V : Type} (o : JsObj.t V) (k : string) (v : V) :
  JsObj.get o k = Some v -> In k (JsObj.keys o).
Proof.
  intros Hget. apply get_In in Hget. apply in_map_iff. now exists (k, v).
Qed.

Lemma In_set {V : Type} (o : JsObj.t V) (k : string) (v : V)
    (entry : string * V) :
  In entry (JsObj.set o k v) -> In entry o \/ entry = (k, v).
Proof.
  induction o as [|[k1 v1] o IH]; cbn [JsObj.set].
  - intros [<-|[]]. now right.
  - destruct (String.eqb k1 k).
    + intros [<-|H]; [now right|left; now right].
    + intros [<-|H]; [left; now left|].
      destruct (IH H) as [H'|H']; [left; now right|now right].
Qed.

(** The loop of [getAll] copies entries of the stored object. *)
Lemma prune_fold_In (now : Z) (l : list (string * BlockEntry)) :
  forall (acc : JsObj.t BlockEntry) (b : bool) (entry : string * BlockEntry),
    In entry (fst (fold_left (pruneStep now) l (acc, b))) ->
    In entry acc \/ In entry l.
Proof.
  induction l as [|[k e] l IH]; intros acc b entry; cbn [fold_left].
  - now left.
  - destruct (pruneStep now (acc, b) (k, e)) as [acc' b'] eqn:E.
    assert (acc' = if now <? until e then JsObj.set acc k e else acc) as ->.
    { rewrite <- (pruneStep_fst now acc b k e). now rewrite E. }
    intros H. destruct (IH _ _ _ H) as [H'|H']; [|right; now right].
    destruct (now <? until e); [|now left].
    destruct (In_set _ _ _ _ H') as [H1|H1]; [now left|right; now left].
Qed.

Lemma pruneExpired_In (now : Z) (blocks : JsObj.t BlockEntry)
    (entry : string * BlockEntry) :
  In entry (fst (pruneExpired now blocks)) -> In entry blocks.
Proof.
  intros H. destruct (prune_fold_In now blocks JsObj.empty false entry H)
    as [[]|H']; exact H'.
Qed.

(** The answer of [isBlocked] over a well-formed store. *)
Lemma isBlocked_answer (w : World) (domain c : string) :
  cleanDomainOf domain = Some c ->
  JsObj.wfb (activeBlocks w) = true ->
  exists b : bool,
    fst (isBlocked domain w) = Return b
    /\ (b = true
        <-> JsObj.inherited c = true
            \/ exists k e, JsObj.get (activeBlocks w) k = Some e
                           /\ clock (reads w) < until e
                           /\ domainMatches c k = true).
Proof.
  intros Hc Hwf. rewrite (isBlocked_run w domain c Hc). cbv zeta.
  set (now := clock (reads w)).
  set (blocks := fst (pruneExpired now (activeBlocks w))).
  eexists. split; [reflexivity|]. rewrite truthy_spec. split.
  - intros H. apply orb_true_iff in H as [H|H];
      [apply orb_true_iff in H as [H|H]; [|now left]|]; right.
    + unfold JsObj.has in H.
      destruct (JsObj.get blocks c) as [e|] eqn:E; [|discriminate].
      unfold blocks in E. rewrite (pruneExpired_get now _ c Hwf) in E.
      destruct (JsObj.get (activeBlocks w) c) as [e'|] eqn:E';
        [|discriminate].
      destruct (Z.ltb_spec now (until e')); [|discriminate].
      exists c, e'. split; [exact E'|]. split; [assumption|].
      apply domainMatches_refl. now apply (cleanDomainOf_nonempty domain).
    + apply existsb_exists in H as (k & Hin & Hm).
      apply keys_get in Hin as (e & E).
      unfold blocks in E. rewrite (pruneExpired_get now _ k Hwf) in E.
      destruct (JsObj.get (activeBlocks w) k) as [e'|] eqn:E';
        [|discriminate].
      destruct (Z.ltb_spec now (until e')); [|discriminate].
      exists k, e'. now repeat split.
  - intros [Hin|(k & e & Hget & Hlt & Hm)].
    + rewrite Hin, orb_true_r. reflexivity.
    + apply orb_true_iff. right.
      apply existsb_exists. exists k. split; [|exact Hm].
      apply (get_keys _ k e). unfold blocks.
      now apply pruneExpired_keeps.
Qed.

(** X8.  Over a well-formed store, [isBlocked] is true exactly when some
    stored entry that has not expired ([now < until], [now] read from the
    clock by this call) is filed under the clean domain or under a parent
    of it, or the clean domain names a member of [Object.prototype]
    ([constructor], [__proto__]), which the direct-match test
    [if (blocks[cleanDomain])] finds in every object.  For any other
    domain an entry with [until <= now] never blocks. *)
Theorem isBlocked_iff_unexpired_parent (w : World) (domain c : string) :
  cleanDomainOf domain = Some c ->
  JsObj.wfb (activeBlocks w) = true ->
  let now := clock (reads w) in
  (fst (isBlocked domain w) = Return true
   <-> JsObj.inherited c = true
       \/ exists k e, JsObj.get (activeBlocks w) k = Some e
                      /\ now < until e /\ domainMatches c k = true)
  /\ (fst (isBlocked domain w) = Return false
      <-> JsObj.inherited c = false
          /\ forall k e, JsObj.get (activeBlocks w) k = Some e ->
                         domainMatches c k = true -> until e <= now).
Proof.
  intros Hc Hwf now.
  destruct (isBlocked_answer w domain c Hc Hwf) as (b & -> & Hiff).
  fold now in Hiff. split.
  - rewrite <- Hiff. split; [now intros [= ->]|now intros ->].
  - split.
    + intros [= ->]. split.
      * apply not_true_is_false. intros Hin.
        assert (false = true); [|discriminate]. apply Hiff. now left.
      * intros k e Hget Hm.
        destruct (Z.le_gt_cases (until e) now) as [H|H]; [exact H|].
        exfalso. assert (false = true); [|discriminate].
        apply Hiff. right. exists k, e. repeat split; assumption || lia.
    + intros [Hown Hall]. f_equal. apply not_true_is_false. intros Ht.
      apply Hiff in Ht as [Hin|(k & e & Hget & Hlt & Hm)]; [congruence|].
      specialize (Hall k e Hget Hm). lia.
Qed.

(** The run of [getBlockInfo]. *)
Lemma getBlockInfo_run (w : World) (domain c : string) :
  cleanDomainOf domain = Some c ->
  getBlockInfo domain w
  = (Return (findBlockInfo
               (fst (pruneExpired (clock (reads w)) (activeBlocks w))) c),
     snd (getAll w)).
Proof.
  intros Hc. unfold getBlockInfo. rewrite Hc. unfold bind.
  rewrite getAll_run. reflexivity.
Qed.

(** X9.  [getBlockInfo] and [isBlocked] agree: one answers with an object
    exactly when the other answers true, and both leave the same store.
    The object that [getBlockInfo] returns carries the fields of an entry
    that has not expired and is filed under the clean domain or a parent of
    it; only for a clean domain that names a member of [Object.prototype]
    and has no entry of its own it carries that name and no field of an
    entry. *)
Theorem getBlockInfo_agrees_with_isBlocked (w : World) (domain : string) :
  (fst (isBlocked domain w) = Return true
   <-> exists bi, fst (getBlockInfo domain w) = Return (Some bi))
  /\ snd (isBlocked domain w) = snd (getBlockInfo domain w)
  /\ (forall bi, fst (getBlockInfo domain w) = Return (Some bi) ->
        exists c,
          cleanDomainOf domain = Some c
          /\ match info_entry bi with
             | Some e =>
                 clock (reads w) < until e
                 /\ domainMatches c (info_domain bi) = true
                 /\ In (info_domain bi, e) (activeBlocks w)
             | None =>
                 info_domain bi = c /\ JsObj.inherited c = true
             end).
Proof.
  destruct (cleanDomainOf domain) as [c|] eqn:Hc.
  - rewrite (getBlockInfo_run w domain c Hc).
    assert (snd (isBlocked domain w) = snd (getAll w)) as Hsnd.
    { unfold isBlocked. rewrite Hc. unfold bind. rewrite getAll_run.
      now destruct (JsObj.truthy _ c). }
    rewrite (isBlocked_run w domain c Hc). cbv zeta. cbn [fst snd].
    set (now := clock (reads w)).
    set (blocks := fst (pruneExpired now (activeBlocks w))).
    pose proof (pruneExpired_unexpired now (activeBlocks w)) as Hun.
    fold blocks in Hun. rewrite Forall_forall in Hun.
    assert (forall entry, In entry blocks -> In entry (activeBlocks w))
      as Hsub.
    { intros entry Hin. unfold blocks in Hin.
      now apply pruneExpired_In in Hin. }
    pose proof (cleanDomainOf_nonempty domain c Hc) as Hne.
    unfold findBlockInfo, JsObj.truthy, JsObj.lookup, JsObj.entries.
    destruct (JsObj.get blocks c) as [e|] eqn:E.
    + cbn [orb]. split; [split; [now eexists|reflexivity]|].
      split; [exact Hsnd|]. intros bi [= <-]. cbn [info_entry info_domain].
      exists c. split; [reflexivity|]. apply get_In in E.
      split; [apply (Hun (c, e) E)|].
      split; [now apply domainMatches_refl|now apply Hsub].
    + destruct (JsObj.inherited c) eqn:Hin.
      * cbn [orb]. split; [split; [now eexists|reflexivity]|].
        split; [exact Hsnd|]. intros bi [= <-]. cbn [info_entry info_domain].
        exists c. now repeat split.
      * cbn [orb].
        destruct (find (fun entry : string * BlockEntry =>
                          domainMatches c (fst entry)) blocks)
          as [[k e]|] eqn:F.
        -- pose proof (find_some _ _ F) as [Hink Hm]. cbn [fst] in Hm.
           assert (existsb (fun blockedDomain => domainMatches c blockedDomain)
                           (JsObj.keys blocks) = true) as ->.
           { apply existsb_exists. exists k. split; [|exact Hm].
             apply in_map_iff. now exists (k, e). }
           split; [split; [now eexists|reflexivity]|].
           split; [exact Hsnd|]. intros bi [= <-].
           cbn [info_entry info_domain]. exists c. split; [reflexivity|].
           split; [apply (Hun (k, e) Hink)|]. split; [exact Hm|now apply Hsub].
        -- assert (existsb (fun blockedDomain => domainMatches c blockedDomain)
                           (JsObj.keys blocks) = false) as ->.
           { apply not_true_is_false. intros H.
             apply existsb_exists in H as (k & Hink & Hm).
             apply in_map_iff in Hink as ([k' e'] & Ek & Hink).
             cbn in Ek. subst k'.
             pose proof (find_none _ _ F (k, e') Hink) as Hn. cbn [fst] in Hn.
             congruence. }
           split; [split; [discriminate|now intros [bi H]]|].
           split; [exact Hsnd|]. discriminate.
  - unfold isBlocked, getBlockInfo. rewrite Hc. cbn.
    split; [split; [discriminate|now intros [bi H]]|].
    split; [reflexivity|discriminate].
Qed.

(** What a successful [add] has done. *)
Lemma add_Return_inv (w w' : World) (domain reason c : string)
    (minutes : JsValue) :
  add domain minutes reason w = (Return c, w') ->
  validateDomain domain = Valid c
  /\ exists m,
       validateDuration minutes = Valid m
       /\ w' = write_totalBlocksCreated (totalBlocksCreated w + 1)
                 (write_activeBlocks
                    (JsObj.set (activeBlocks w) c
                       {| until := clock (S (reads w)) + m * 60 * 1000;
                          blockedAt := clock (S (S (reads w)));
                          reason := reason |})
                    (tick (tick (tick (tick w))))).
Proof.
  intros Hadd.
  destruct (validateDomain domain) as [c0|e] eqn:Hd.
  - rewrite (add_run w domain c0 reason minutes Hd) in Hadd.
    destruct (validateDuration minutes) as [m|e] eqn:Hm; [|discriminate].
    injection Hadd as Hc Hw. subst c0 w'.
    split; [reflexivity|]. exists m. split; [reflexivity|].
    now destruct (Z.eqb_spec (totalBlocksCreated w) 0) as [->|_].
  - rewrite (add_invalid_domain w domain reason minutes e Hd) in Hadd.
    discriminate.
Qed.

(** X10.  A successful [add] stores one entry under the clean domain, with
    [until] the clock value plus the validated minutes, replacing any
    entry the domain had; it leaves every other block, the pending unblocks
    and the daily counters as they were, adds one to [totalBlocksCreated],
    and writes the keys [activeBlocks] and [stats], in this order. *)
Theorem add_stores_one_entry (w w' : World) (domain reason c : string)
    (minutes : JsValue) :
  add domain minutes reason w = (Return c, w') ->
  validateDomain domain = Valid c
  /\ (exists m, validateDuration minutes = Valid m
                /\ 1 <= m <= 480
                /\ JsObj.get (activeBlocks w') c
                   = Some {| until := clock (S (reads w)) + m * 60 * 1000;
                             blockedAt := clock (S (S (reads w)));
                             reason := reason |})
  /\ (forall k, k <> c ->
        JsObj.get (activeBlocks w') k = JsObj.get (activeBlocks w) k)
  /\ (JsObj.wfb (activeBlocks w) = true -> JsObj.wfb (activeBlocks w') = true)
  /\ totalBlocksCreated w' = totalBlocksCreated w + 1
  /\ pendingUnblocks w' = pendingUnblocks w
  /\ dailyAttempts w' = dailyAttempts w
  /\ writes w'
     = STORAGE_KEYS.STATS :: STORAGE_KEYS.ACTIVE_BLOCKS :: writes w.
Proof.
  intros Hadd.
  destruct (add_Return_inv w w' domain reason c minutes Hadd)
    as (Hd & m & Hm & ->).
  cbn [activeBlocks write_totalBlocksCreated write_activeBlocks tick
       totalBlocksCreated pendingUnblocks dailyAttempts writes].
  split; [exact Hd|]. split.
  - exists m. split; [exact Hm|]. split; [|apply get_set_same].
    unfold validateDuration in Hm.
    destruct (parseInt minutes) as [parsed|]; [|discriminate].
    destruct (negb (JsNumber.isFinite parsed)); [discriminate|].
    change DEFAULTS.MIN_BLOCK_MINUTES with 1 in Hm.
    change DEFAULTS.MAX_BLOCK_MINUTES with 480 in Hm.
    destruct (Z.ltb_spec parsed 1); [discriminate|].
    destruct (Z.ltb_spec 480 parsed); [discriminate|].
    injection Hm as <-. lia.
  - split; [intros k Hk; now apply get_set_other|].
    split; [apply wfb_set|]. repeat split.
Qed.

(** X11.  Validation comes before every effect of [add].  When the domain
    is invalid, or the domain is valid and the duration is not, [add]
    throws the code of that validation ([invalid_domain]; or
    [invalid_duration], [duration_too_short], [duration_too_long]) without
    a remaining time, and has then read no clock and written nothing.  And
    an [add] that throws one of these four codes has failed that
    validation and changed nothing. *)
Theorem add_failure_changes_nothing (w : World) (domain reason : string)
    (minutes : JsValue) :
  (forall code0, validateDomain domain = Invalid code0 ->
     code0 = INVALID_DOMAIN
     /\ add domain minutes reason w = (Throw (mkError code0 None), w))
  /\ (forall c code0,
        validateDomain domain = Valid c ->
        validateDuration minutes = Invalid code0 ->
        In code0 [INVALID_DURATION; DURATION_TOO_SHORT; DURATION_TOO_LONG]
        /\ add domain minutes reason w = (Throw (mkError code0 None), w))
  /\ (forall (e : FocusGuardError) (w' : World),
        add domain minutes reason w = (Throw e, w') ->
        In (code e) [INVALID_DOMAIN; INVALID_DURATION; DURATION_TOO_SHORT;
                     DURATION_TOO_LONG] ->
        w' = w
        /\ remainingTime e = None
        /\ (validateDomain domain = Invalid (code e)
            \/ exists c, validateDomain domain = Valid c
                         /\ validateDuration minutes = Invalid (code e))).
Proof.
  assert (forall code0, validateDomain domain = Invalid code0 ->
                        code0 = INVALID_DOMAIN) as Hdom.
  { intros code0 Hd. unfold validateDomain in Hd.
    destruct (String.eqb domain ""); [congruence|].
    destruct (cleanDomainOf domain) as [cleaned|]; [|congruence].
    destruct (_ <? _)%nat; [congruence|].
    destruct (negb _); [congruence|].
    destruct (matchesInvalidPattern cleaned); [congruence|discriminate]. }
  assert (forall code0, validateDuration minutes = Invalid code0 ->
            In code0 [INVALID_DURATION; DURATION_TOO_SHORT;
                      DURATION_TOO_LONG]) as Hdur.
  { intros code0 Hm. unfold validateDuration in Hm.
    destruct (parseInt minutes) as [parsed|].
    - destruct (negb (JsNumber.isFinite parsed));
        [injection Hm as <-; cbn; tauto|].
      destruct (parsed <? _); [injection Hm as <-; cbn; tauto|].
      destruct (_ <? parsed); [injection Hm as <-; cbn; tauto|discriminate].
    - injection Hm as <-. cbn. tauto. }
  split; [|split].
  - intros code0 Hd. split; [now apply Hdom|].
    apply (add_invalid_domain w domain reason minutes code0 Hd).
  - intros c code0 Hd Hm. split; [now apply Hdur|].
    now rewrite (add_run w domain c reason minutes Hd), Hm.
  - intros e w' Hadd _.
    destruct (validateDomain domain) as [c0|e0] eqn:Hd.
    + rewrite (add_run w domain c0 reason minutes Hd) in Hadd.
      destruct (validateDuration minutes) as [m|e0] eqn:Hm; [discriminate|].
      injection Hadd as <- <-. split; [reflexivity|]. split; [reflexivity|].
      right. exists c0. now split.
    + rewrite (add_invalid_domain w domain reason minutes e0 Hd) in Hadd.
      injection Hadd as <- <-. split; [reflexivity|]. split; [reflexivity|].
      now left.
Qed.

Lemma delete_set_absent {V : Type} (o : JsObj.t V) (k : string) (v : V) :
  JsObj.get o k = None -> JsObj.delete (JsObj.set o k v) k = o.
Proof.
  induction o as [|[k1 v1] o IH]; cbn [JsObj.get JsObj.set].
  - intros _. cbn [JsObj.delete]. now rewrite String.eqb_refl.
  - destruct (String.eqb k1 k) eqn:E; [discriminate|].
    intros H. cbn [JsObj.delete]. rewrite E. f_equal. now apply IH.
Qed.

(** X12.  Adding a block for a domain that had none and removing it again
    restores the stored blocks exactly; the count of blocks created keeps
    the addition. *)
Theorem add_then_remove_restores (w w1 : World) (domain reason c : string)
    (minutes : JsValue) :
  add domain minutes reason w = (Return c, w1) ->
  JsObj.get (activeBlocks w) c = None ->
  exists w2 : World,
    remove domain w1 = (Return c, w2)
    /\ activeBlocks w2 = activeBlocks w
    /\ totalBlocksCreated w2 = totalBlocksCreated w + 1.
Proof.
  intros Hadd Hnone.
  destruct (add_Return_inv w w1 domain reason c minutes Hadd)
    as (Hd & m & Hm & ->).
  pose proof (validateDomain_clean domain c Hd) as Hc.
  rewrite (remove_run _ domain c Hc).
  cbn [activeBlocks write_totalBlocksCreated write_activeBlocks tick
       totalBlocksCreated pendingUnblocks].
  rewrite (truthy_own _ _ _ (get_set_same _ _ _)).
  eexists. split; [reflexivity|].
  cbn [activeBlocks write_pendingUnblocks write_activeBlocks tick
       totalBlocksCreated write_totalBlocksCreated].
  split; [now apply delete_set_absent|reflexivity].
Qed.

(** X13.  After a successful [add], the domain and every subdomain of it
    are blocked for as long as the clock reads less than the stored
    [until]. *)
Theorem add_then_isBlocked (w w1 : World) (domain reason c : string)
    (minutes : JsValue) (child c' : string) :
  add domain minutes reason w = (Return c, w1) ->
  JsObj.wfb (activeBlocks w) = true ->
  cleanDomainOf child = Some c' ->
  domainMatches c' c = true ->
  (forall e, JsObj.get (activeBlocks w1) c = Some e ->
             clock (reads w1) < until e) ->
  fst (isBlocked child w1) = Return true
  /\ fst (isBlocked domain w1) = Return true.
Proof.
  intros Hadd Hwf Hc' Hm Hlt.
  destruct (add_Return_inv w w1 domain reason c minutes Hadd)
    as (Hd & m & _ & Hw).
  pose proof (validateDomain_clean domain c Hd) as Hc.
  assert (exists e, JsObj.get (activeBlocks w1) c = Some e) as (e & Hget).
  { subst w1. cbn [activeBlocks write_totalBlocksCreated write_activeBlocks].
    rewrite get_set_same. now eexists. }
  assert (JsObj.wfb (activeBlocks w1) = true) as Hwf1.
  { subst w1. cbn [activeBlocks write_totalBlocksCreated write_activeBlocks].
    now apply wfb_set. }
  specialize (Hlt e Hget).
  destruct (isBlocked_answer w1 child c' Hc' Hwf1) as (b1 & -> & H1).
  destruct (isBlocked_answer w1 domain c Hc Hwf1) as (b2 & -> & H2).
  cbn [fst]. split; f_equal.
  - apply H1. right. exists c, e. now repeat split.
  - apply H2. right. exists c, e. split; [exact Hget|]. split; [exact Hlt|].
    apply domainMatches_refl. now apply (cleanDomainOf_nonempty domain).
Qed.

End RegistryFacts.

(** ** Strings, URLs and times *)

Lemma lowerChar_idem (c : ascii) :
  JsString.lowerChar (JsString.lowerChar c) = JsString.lowerChar c.
Proof. destruct c as [[] [] [] [] [] [] [] []]; reflexivity. Qed.

Lemma toLowerCase_idem (s : string) :
  JsString.toLowerCase (JsString.toLowerCase s) = JsString.toLowerCase s.
Proof.
  induction s as [|c s IH]; [reflexivity|].
  cbn [JsString.toLowerCase]. now rewrite lowerChar_idem, IH.
Qed.

Lemma toLowerCase_app (a b : string) :
  JsString.toLowerCase (a ++ b)
  = JsString.toLowerCase a ++ JsString.toLowerCase b.
Proof.
  induction a as [|c a IH]; [reflexivity|].
  cbn [String.append JsString.toLowerCase]. now rewrite IH.
Qed.

Lemma startsWith_app (p rest : string) :
  JsString.startsWith (p ++ rest) p = true.
Proof.
  unfold JsString.startsWith. induction p as [|c p IH]; cbn.
  - now destruct rest.
  - destruct (ascii_dec c c); [exact IH|congruence].
Qed.

(** A string that starts with [p] is [p] followed by what [substring]
    takes after it. *)
Lemma startsWith_cut (s p : string) :
  JsString.startsWith s p = true ->
  s = p ++ String.substring (String.length p)
             (String.length s - String.length p) s.
Proof.
  unfold JsString.startsWith. revert s.
  induction p as [|c p IH]; intros s H.
  - cbn [String.append String.length]. rewrite Nat.sub_0_r.
    clear H. induction s as [|d s IHs]; [reflexivity|].
    cbn [String.length String.substring]. now rewrite <- IHs.
  - destruct s as [|d s]; [discriminate H|]. cbn in H.
    destruct (ascii_dec c d) as [<-|]; [|discriminate H].
    cbn [String.append String.length String.substring Nat.sub].
    f_equal. now apply IH.
Qed.

Lemma append_assoc (a b c : string) : (a ++ b) ++ c = a ++ b ++ c.
Proof.
  induction a as [|x a IH]; [reflexivity|].
  cbn [String.append]. now rewrite IH.
Qed.

Lemma existsChar_app (p : ascii -> bool) (a b : string) :
  existsChar p (a ++ b) = existsChar p a || existsChar p b.
Proof.
  induction a as [|c a IH]; [reflexivity|].
  cbn [String.append existsChar]. now rewrite IH, orb_assoc.
Qed.

(** A string is lower-case when none of its characters changes under
    [lowerChar]. *)
Lemma isLowerCase_chars (s : string) :
  JsString.isLowerCase s
  <-> existsChar (fun c => negb (Ascii.eqb (JsString.lowerChar c) c)) s
      = false.
Proof.
  unfold JsString.isLowerCase.
  induction s as [|c s IH]; cbn [JsString.toLowerCase existsChar].
  - tauto.
  - rewrite orb_false_iff, negb_false_iff, Ascii.eqb_eq, <- IH.
    split; [intros [= -> ->]; now split|intros [-> ->]; reflexivity].
Qed.

(** A piece of a lower-case string is lower-case. *)
Lemma isLowerCase_piece (a r b : string) :
  JsString.isLowerCase (a ++ r ++ b) -> JsString.isLowerCase r.
Proof.
  rewrite !isLowerCase_chars, !existsChar_app, !orb_false_iff. tauto.
Qed.

Lemma upTo_cons (sep c : ascii) (s : string) :
  upTo sep (String c s)
  = if Ascii.eqb c sep then "" else String c (upTo sep s).
Proof.
  unfold upTo. cbn [JsString.split].
  destruct (Ascii.eqb c sep); [reflexivity|].
  now destruct (JsString.split sep s).
Qed.

(** [s.split(sep)[0]] is the part of [s] before the first [sep]. *)
Lemma upTo_spec (sep : ascii) (s : string) :
  existsChar (fun c => Ascii.eqb c sep) (upTo sep s) = false
  /\ exists rest, s = upTo sep s ++ rest.
Proof.
  induction s as [|c s (IH1 & rest & IH2)].
  - split; [reflexivity|now exists ""].
  - rewrite upTo_cons. destruct (Ascii.eqb c sep) eqn:E.
    + split; [reflexivity|]. now exists (String c s).
    + cbn [existsChar]. rewrite E, IH1. split; [reflexivity|].
      exists rest. cbn [String.append]. now rewrite <- IH2.
Qed.

Lemma stripWww_suffix (s : string) : exists a, s = a ++ stripWww s.
Proof.
  unfold stripWww. destruct (JsString.startsWith s "www.") eqn:E.
  - exists "www.". now apply startsWith_cut.
  - now exists "".
Qed.

Lemma stripSchemeAndWww_suffix (s : string) :
  exists a, s = a ++ stripSchemeAndWww s.
Proof.
  unfold stripSchemeAndWww.
  destruct (JsString.startsWith s "https://") eqn:E1.
  - destruct (stripWww_suffix
                (String.substring 8 (String.length s - 8) s)) as [a Ha].
    exists ("https://" ++ a). rewrite append_assoc, <- Ha.
    now apply (startsWith_cut s "https://").
  - destruct (JsString.startsWith s "http://") eqn:E2.
    + destruct (stripWww_suffix
                  (String.substring 7 (String.length s - 7) s)) as [a Ha].
      exists ("http://" ++ a). rewrite append_assoc, <- Ha.
      now apply (startsWith_cut s "http://").
    + apply stripWww_suffix.
Qed.

(** X14.  [cleanDomainInput] returns a piece of the trimmed, lower-cased
    input: it is lower-case and holds no slash, no question mark and no
    hash sign.  The empty input gives the empty string. *)
Theorem cleanDomainInput_shape (input : string) :
  let r := cleanDomainInput input in
  existsChar (fun c => Ascii.eqb c "/" || Ascii.eqb c "?" || Ascii.eqb c "#")
             r = false
  /\ JsString.isLowerCase r
  /\ (exists a b,
        JsString.toLowerCase (JsString.trim input) = a ++ r ++ b)
  /\ cleanDomainInput "" = "".
Proof.
  cbv zeta. unfold cleanDomainInput.
  destruct (String.eqb_spec input "") as [->|_].
  - split; [reflexivity|]. split; [reflexivity|].
    split; [now exists "", ""|reflexivity].
  - set (s := JsString.toLowerCase (JsString.trim input)).
    destruct (stripSchemeAndWww_suffix s) as [a Ha].
    set (s1 := stripSchemeAndWww s) in *.
    destruct (upTo_spec "/" s1) as (N1 & r1 & H1). set (t1 := upTo "/" s1) in *.
    destruct (upTo_spec "?" t1) as (N2 & r2 & H2). set (t2 := upTo "?" t1) in *.
    destruct (upTo_spec "#" t2) as (N3 & r3 & H3). set (t3 := upTo "#" t2) in *.
    assert (s = a ++ t3 ++ (r3 ++ r2 ++ r1)) as Hpiece.
    { rewrite Ha, H1, H2. rewrite H3 at 1.
      now rewrite !append_assoc. }
    assert (existsChar (fun c => Ascii.eqb c "?") t3 = false
            /\ existsChar (fun c => Ascii.eqb c "/") t3 = false) as [M2 M1].
    { rewrite H3 in N2. rewrite H2, H3 in N1.
      repeat rewrite existsChar_app in N1.
      repeat rewrite existsChar_app in N2.
      repeat rewrite orb_false_iff in N1.
      repeat rewrite orb_false_iff in N2. tauto. }
    split; [|split; [|split; [now exists a, (r3 ++ r2 ++ r1)|reflexivity]]].
    + clear -N3 M1 M2. induction t3 as [|c t IH]; [reflexivity|].
      cbn [existsChar] in *. apply orb_false_iff in N3 as [-> N3].
      apply orb_false_iff in M1 as [-> M1].
      apply orb_false_iff in M2 as [-> M2]. cbn [orb]. now apply IH.
    + apply (isLowerCase_piece a t3 (r3 ++ r2 ++ r1)). rewrite <- Hpiece.
      apply toLowerCase_idem.
Qed.

(** X15.  [isBlockableUrl] ignores the case of the URL; it is false for a
    URL that starts, in any mix of cases, with one of the nine internal
    prefixes, and true for every [http://] and [https://] URL. *)
Theorem isBlockableUrl_prefixes :
  (forall url, isBlockableUrl (JsString.toLowerCase url) = isBlockableUrl url)
  /\ (forall p rest,
        In (JsString.toLowerCase p) unblockablePrefixes ->
        isBlockableUrl (p ++ rest) = false)
  /\ (forall rest,
        isBlockableUrl ("http://" ++ rest) = true
        /\ isBlockableUrl ("https://" ++ rest) = true).
Proof.
  split; [|split].
  - intros url. unfold isBlockableUrl. rewrite toLowerCase_idem.
    now destruct url.
  - intros p rest Hin. unfold isBlockableUrl.
    destruct (String.eqb_spec (p ++ rest) "") as [E|_]; [reflexivity|].
    apply negb_false_iff, existsb_exists.
    exists (JsString.toLowerCase p). split; [exact Hin|].
    rewrite toLowerCase_app. apply startsWith_app.
  - intros rest. split; reflexivity.
Qed.

Section UrlFacts.

Context {host : Platform}.

(** X16.  The clean form of a domain is never empty and is lower-case, so
    between two clean domains [domainMatches] is plain containment: equal,
    or the first ends with a dot and the second. *)
Theorem clean_domains_match_exactly (child parent c' c : string) :
  cleanDomainOf child = Some c' ->
  cleanDomainOf parent = Some c ->
  c <> "" /\ JsString.isLowerCase c
  /\ (domainMatches c' c = true <-> c' = c \/ exists p, c' = p ++ "." ++ c).
Proof.
  assert (forall d x, cleanDomainOf d = Some x ->
                      x <> "" /\ JsString.isLowerCase x) as Hclean.
  { intros d x H. split; [now apply (cleanDomainOf_nonempty d)|].
    unfold cleanDomainOf in H.
    destruct (extractDomain d) as [y|] eqn:E; [|discriminate].
    destruct (String.eqb y ""); [discriminate|]. injection H as <-.
    unfold extractDomain in E. destruct (String.eqb d ""); [discriminate|].
    destruct (url_hostname _); [|discriminate]. injection E as <-.
    apply toLowerCase_idem. }
  intros Hc' Hc. destruct (Hclean _ _ Hc') as [N' L'].
  destruct (Hclean _ _ Hc) as [N L]. split; [exact N|]. split; [exact L|].
  rewrite (domainMatches_lowered c' c N' N).
  unfold JsString.isLowerCase in L, L'. now rewrite L, L'.
Qed.

(** X17.  [validateBlockableUrl] refuses every internal page with
    [not_blockable], whatever the case of its prefix, and what it accepts
    is the clean domain of a blockable URL. *)
Theorem validateBlockableUrl_internal_pages :
  (forall p rest,
     In (JsString.toLowerCase p) unblockablePrefixes ->
     validateBlockableUrl (p ++ rest) = Invalid NOT_BLOCKABLE)
  /\ (forall url d,
        validateBlockableUrl url = Valid d ->
        isBlockableUrl url = true /\ cleanDomainOf url = Some d /\ d <> "").
Proof.
  split.
  - intros p rest Hin. unfold validateBlockableUrl.
    destruct (String.eqb (p ++ rest) ""); [reflexivity|].
    assert (isBlockableUrl (p ++ rest) = false) as ->; [|reflexivity].
    unfold isBlockableUrl.
    destruct (String.eqb_spec (p ++ rest) "") as [E|_]; [reflexivity|].
    apply negb_false_iff, existsb_exists.
    exists (JsString.toLowerCase p). split; [exact Hin|].
    rewrite toLowerCase_app. apply startsWith_app.
  - intros url d. unfold validateBlockableUrl.
    destruct (String.eqb url ""); [discriminate|].
    destruct (isBlockableUrl url); [|discriminate]. cbn [negb].
    destruct (cleanDomainOf url) as [x|] eqn:E; [|discriminate].
    intros [= <-]. split; [reflexivity|]. split; [reflexivity|].
    now apply (cleanDomainOf_nonempty url).
Qed.

End UrlFacts.

(** ** Times and schedules *)

Lemma isDigit_cases (c : ascii) :
  JsString.isDigit c = true ->
  In c ["0"; "1"; "2"; "3"; "4"; "5"; "6"; "7"; "8"; "9"]%char.
Proof.
  destruct c as [[] [] [] [] [] [] [] []]; intros H;
    try discriminate H; clear H; cbn [In];
    repeat (first [left; reflexivity | right]).
Qed.

Lemma isDigit_value (c : ascii) :
  JsString.isDigit c = true -> 0 <= JsString.digitValue c <= 9.
Proof.
  unfold JsString.isDigit, JsString.digitValue. cbv zeta.
  rewrite andb_true_iff, !Nat.leb_le. lia.
Qed.

Lemma isDigitBelow_value (bound : nat) (c : ascii) :
  isDigitBelow bound c = true ->
  0 <= JsString.digitValue c < Z.of_nat bound.
Proof.
  unfold isDigitBelow, JsString.digitValue. cbv zeta.
  rewrite andb_true_iff, Nat.leb_le, Nat.ltb_lt. lia.
Qed.

Lemma isDigitBelow_isDigit (bound : nat) (c : ascii) :
  (bound <= 10)%nat -> isDigitBelow bound c = true ->
  JsString.isDigit c = true.
Proof.
  unfold isDigitBelow, JsString.isDigit. cbv zeta. intros Hb.
  rewrite !andb_true_iff, !Nat.leb_le, Nat.ltb_lt. lia.
Qed.

(** [Number] of one and of two decimal digits. *)
Lemma ofString_digit (c : ascii) :
  JsString.isDigit c = true ->
  JsNumber.ofString (String c "") = Some (JsString.digitValue c).
Proof.
  intros H. apply isDigit_cases in H. cbn [In] in H.
  repeat (destruct H as [<-|H]; [reflexivity|]). destruct H.
Qed.

Lemma ofString_digits (c1 c2 : ascii) :
  JsString.isDigit c1 = true -> JsString.isDigit c2 = true ->
  JsNumber.ofString (String c1 (String c2 ""))
  = Some (10 * JsString.digitValue c1 + JsString.digitValue c2).
Proof.
  intros H1 H2. apply isDigit_cases in H1, H2. cbn [In] in H1, H2.
  repeat (destruct H1 as [<-|H1];
          [repeat (destruct H2 as [<-|H2]; [reflexivity|]); destruct H2|]).
  destruct H1.
Qed.

Lemma digit_not_colon (c : ascii) :
  JsString.isDigit c = true -> Ascii.eqb c ":" = false.
Proof.
  intros H. apply isDigit_cases in H. cbn [In] in H.
  repeat (destruct H as [<-|H]; [reflexivity|]). destruct H.
Qed.

(** A string that passes the test of [validateTimeFormat] is [h:mm] or
    [hh:mm], and both time parsers read it as [60 * hours + minutes]. *)
Lemma timeRegexTest_minutes (timeStr : string) :
  timeRegexTest timeStr = true ->
  exists m : Z,
    timeToMinutes timeStr = Some m
    /\ parseTimeToMinutes timeStr = m
    /\ 0 <= m < 1440.
Proof.
  destruct timeStr as [|a [|b [|c [|d [|e [|f t]]]]]]; try discriminate.
  - (* h:mm *)
    cbn [timeRegexTest]. rewrite !andb_true_iff.
    intros [[[Ha Hb] Hc] Hd]. apply Ascii.eqb_eq in Hb. subst b.
    pose proof (isDigitBelow_isDigit 6 c ltac:(lia) Hc) as Hc'.
    assert (JsString.split ":" (String a (String ":" (String c (String d ""))))
            = [String a ""; String c (String d "")]) as Hsplit.
    { cbn [JsString.split]. rewrite (digit_not_colon a Ha).
      rewrite (digit_not_colon c Hc'), (digit_not_colon d Hd). reflexivity. }
    exists (JsString.digitValue a * 60
            + (10 * JsString.digitValue c + JsString.digitValue d)).
    unfold timeToMinutes, parseTimeToMinutes. rewrite Hsplit. cbn [map].
    rewrite (ofString_digit a Ha), (ofString_digits c d Hc' Hd).
    split; [reflexivity|]. split; [reflexivity|].
    pose proof (isDigit_value a Ha). pose proof (isDigit_value d Hd).
    pose proof (isDigitBelow_value 6 c Hc). lia.
  - (* hh:mm *)
    cbn [timeRegexTest]. rewrite !andb_true_iff.
    intros [[[Hh Hc] Hd] He]. apply Ascii.eqb_eq in Hc. subst c.
    pose proof (isDigitBelow_isDigit 6 d ltac:(lia) Hd) as Hd'.
    assert (JsString.isDigit a = true /\ JsString.isDigit b = true
            /\ 0 <= 10 * JsString.digitValue a + JsString.digitValue b < 24)
      as (Ha & Hb & Hhour).
    { apply orb_true_iff in Hh as [Hh|Hh]; apply andb_true_iff in Hh as [H1 H2].
      - split; [apply (isDigitBelow_isDigit 2 a); [lia|exact H1]|].
        split; [exact H2|].
        pose proof (isDigitBelow_value 2 a H1).
        pose proof (isDigit_value b H2). lia.
      - apply Ascii.eqb_eq in H1. subst a. split; [reflexivity|].
        split; [apply (isDigitBelow_isDigit 4 b); [lia|exact H2]|].
        pose proof (isDigitBelow_value 4 b H2).
        change (JsString.digitValue "2") with 2. lia. }
    assert (JsString.split ":"
              (String a (String b (String ":" (String d (String e "")))))
            = [String a (String b ""); String d (String e "")]) as Hsplit.
    { cbn [JsString.split]. rewrite (digit_not_colon a Ha).
      rewrite (digit_not_colon b Hb).
      rewrite (digit_not_colon d Hd'), (digit_not_colon e He). reflexivity. }
    exists ((10 * JsString.digitValue a + JsString.digitValue b) * 60
            + (10 * JsString.digitValue d + JsString.digitValue e)).
    unfold timeToMinutes, parseTimeToMinutes. rewrite Hsplit. cbn [map].
    rewrite (ofString_digits a b Ha Hb), (ofString_digits d e Hd' He).
    split; [reflexivity|]. split; [reflexivity|].
    pose proof (isDigit_value e He).
    pose proof (isDigitBelow_value 6 d Hd). lia.
Qed.

Lemma validateTimeFormat_test (timeStr : string) :
  isValid (validateTimeFormat timeStr) = true ->
  timeRegexTest timeStr = true.
Proof.
  unfold validateTimeFormat. destruct (String.eqb timeStr ""); [discriminate|].
  now destruct (timeRegexTest timeStr).
Qed.

(** X18.  A time that [validateTimeFormat] accepts is returned unchanged,
    and [parseTimeToMinutes] and [timeToMinutes] read it as the same
    minute of the day, between 0 and 1439. *)
Theorem validateTimeFormat_minutes (timeStr value : string) :
  validateTimeFormat timeStr = Valid value ->
  value = timeStr
  /\ exists m : Z,
       timeToMinutes timeStr = Some m
       /\ parseTimeToMinutes timeStr = m
       /\ 0 <= m < 1440.
Proof.
  intros H. split.
  - unfold validateTimeFormat in H.
    destruct (String.eqb timeStr ""); [discriminate|].
    destruct (negb (timeRegexTest timeStr)); [discriminate|]. congruence.
  - apply timeRegexTest_minutes, validateTimeFormat_test. now rewrite H.
Qed.

Section ScheduleValidation.

Context {host : Platform}.

Lemma validateDomains_sound (domains : list string) :
  fst (validateDomains domains) = [] ->
  Forall2 (fun domain value => validateDomain domain = Valid value)
          domains (snd (validateDomains domains)).
Proof.
  induction domains as [|d ds IH]; cbn [validateDomains]; [constructor|].
  destruct (validateDomains ds) as [errors validDomains].
  destruct (validateDomain d) as [value|e] eqn:E; cbn [fst snd] in *.
  - intros H. constructor; [exact E|now apply IH].
  - discriminate.
Qed.

(** X19.  When [validateSchedule] reports no error, every domain of the
    schedule was a valid domain and has been replaced by its clean form;
    the days kept are the integers 0 to 6 of the given days, and there is
    one at least; the two times are unchanged, and the start is a strictly
    earlier minute of the day than the end, for both time parsers. *)
Theorem validateSchedule_valid (schedule value : ScheduleFields) :
  validateSchedule schedule = ([], value) ->
  f_domains schedule <> []
  /\ Forall2 (fun domain clean => validateDomain domain = Valid clean)
             (f_domains schedule) (f_domains value)
  /\ f_days value = filter isWeekDay (f_days schedule)
  /\ f_days value <> []
  /\ Forall (fun day => 0 <= day <= 6) (f_days value)
  /\ f_startTime value = f_startTime schedule
  /\ f_endTime value = f_endTime schedule
  /\ 0 <= parseTimeToMinutes (f_startTime value)
     < parseTimeToMinutes (f_endTime value)
  /\ parseTimeToMinutes (f_endTime value) < 1440.
Proof.
  unfold validateSchedule. intros H.
  assert (exists d ds, f_domains schedule = d :: ds) as (d & ds & Ed).
  { destruct (f_domains schedule) as [|d ds]; [|now exists d, ds].
    destruct (f_days schedule) as [|day days]; [discriminate H|].
    destruct (filter isWeekDay (day :: days)); discriminate H. }
  rewrite Ed in *.
  destruct (validateDomains (d :: ds)) as [domainErrors domains'] eqn:Ev.
  assert (exists vd vds, filter isWeekDay (f_days schedule) = vd :: vds)
    as (vd & vds & Ef).
  { destruct (f_days schedule) as [|day days].
    - apply (f_equal fst) in H. cbn [fst] in H.
      repeat (apply app_eq_nil in H as [_ H]). discriminate H.
    - destruct (filter isWeekDay (day :: days)) as [|vd vds];
        [|now exists vd, vds].
      apply (f_equal fst) in H. cbn [fst] in H.
      repeat (apply app_eq_nil in H as [_ H]). discriminate H. }
  destruct (f_days schedule) as [|day days] eqn:Edays; [discriminate Ef|].
  rewrite Ef in H. injection H as Herr Hval.
  apply app_eq_nil in Herr as [-> Herr].
  apply app_eq_nil in Herr as [Hstart Herr].
  apply app_eq_nil in Herr as [Hend Herr].
  apply app_eq_nil in Herr as [Horder _].
  destruct (isValid (validateTimeFormat (f_startTime schedule))) eqn:Es;
    [|discriminate Hstart].
  destruct (isValid (validateTimeFormat (f_endTime schedule))) eqn:Ee;
    [|discriminate Hend].
  cbn [andb] in Horder.
  destruct (timeRegexTest_minutes _ (validateTimeFormat_test _ Es))
    as (s & Hs1 & Hs2 & Hs3).
  destruct (timeRegexTest_minutes _ (validateTimeFormat_test _ Ee))
    as (e & He1 & He2 & He3).
  rewrite Hs1, He1 in Horder.
  destruct (Z.leb_spec e s) as [Hle|Hlt]; [discriminate Horder|].
  subst value. cbn [f_domains f_days f_startTime f_endTime].
  split; [discriminate|]. split.
  - pose proof (validateDomains_sound (d :: ds)) as Hd. rewrite Ev in Hd.
    now apply Hd.
  - split; [now rewrite Ef|]. split; [discriminate|]. split.
    + rewrite <- Ef. apply Forall_forall. intros x Hx.
      apply filter_In in Hx as [_ Hx]. unfold isWeekDay in Hx.
      apply andb_true_iff in Hx as [H1 H2].
      apply Z.leb_le in H1, H2. lia.
    + split; [reflexivity|]. split; [reflexivity|].
      rewrite Hs2, He2. lia.
Qed.

(** X20.  Within one minute of the day, a window that [isInTimeWindow]
    says is open has time left: [minutesUntilEndTime] is positive and at
    most the length of the window.  [minutesUntilEndTime] is never
    negative, and a window whose end is not after its start, such as one
    that spans midnight, is never open. *)
Theorem window_open_has_time_left (w w' : World) (startTime endTime : string) :
  (currentMinutes (clock (reads w')) = currentMinutes (clock (reads w)) ->
   fst (isInTimeWindow startTime endTime w) = Return true ->
   exists r, fst (minutesUntilEndTime endTime w') = Return r
             /\ 0 < r
                <= parseTimeToMinutes endTime - parseTimeToMinutes startTime)
  /\ (exists r, fst (minutesUntilEndTime endTime w) = Return r /\ 0 <= r)
  /\ (parseTimeToMinutes endTime <= parseTimeToMinutes startTime ->
      fst (isInTimeWindow startTime endTime w) = Return false).
Proof.
  unfold isInTimeWindow, minutesUntilEndTime, getCurrentTime, Date_now,
    bind, ret. cbn [fst]. fold (currentMinutes (clock (reads w))).
  fold (currentMinutes (clock (reads w'))).
  split; [|split].
  - intros -> [= H]. apply andb_true_iff in H as [H1 H2].
    apply Z.leb_le in H1. apply Z.ltb_lt in H2.
    eexists. split; [reflexivity|].
    destruct (Z.ltb_spec 0 (parseTimeToMinutes endTime
                            - currentMinutes (clock (reads w)))); lia.
  - eexists. split; [reflexivity|].
    destruct (Z.ltb_spec 0 (parseTimeToMinutes endTime
                            - currentMinutes (clock (reads w)))); lia.
  - intros Hle. f_equal. apply andb_false_iff.
    destruct (Z.leb_spec (parseTimeToMinutes startTime)
                (currentMinutes (clock (reads w)))); [right|now left].
    apply Z.ltb_ge. lia.
Qed.

End ScheduleValidation.

(** ** Schedule manager over the stored schedules *)

Section ScheduleFacts.

Context {host : Platform}.


(** [find] after the first match has been spliced out. *)
Lemma find_splice (wanted other : string) (l : list Schedule) :
  other <> wanted ->
  find (hasId other)
       (match findIndex (hasId wanted) l with
        | Some index => splice1 index l
        | None => l
        end)
  = find (hasId other) l.
Proof.
  intros Hne. induction l as [|x l IH]; [reflexivity|].
  cbn [findIndex]. destruct (hasId wanted x) eqn:Ex.
  - cbn [splice1 firstn skipn app find].
    assert (hasId other x = false) as ->; [|reflexivity].
    unfold hasId in *. apply String.eqb_eq in Ex.
    apply String.eqb_neq. congruence.
  - destruct (findIndex (hasId wanted) l) as [index|];
      cbn [option_map] in *; unfold splice1 in *;
      cbn [firstn skipn app find] in *; [|reflexivity].
    now rewrite IH.
Qed.

Lemma findIndex_existsb {A : Type} (p : A -> bool) (l : list A) :
  match findIndex p l with Some _ => true | None => false end = existsb p l.
Proof.
  induction l as [|x l IH]; [reflexivity|].
  cbn [findIndex existsb]. destruct (p x); [reflexivity|].
  cbn [orb]. rewrite <- IH. now destruct (findIndex p l).
Qed.

Lemma splice_length (wanted : string) (l : list Schedule) (index : nat) :
  findIndex (hasId wanted) l = Some index ->
  S (List.length (splice1 index l)) = List.length l.
Proof.
  revert index. induction l as [|x l IH]; intros index; [discriminate|].
  cbn [findIndex]. destruct (hasId wanted x).
  - now intros [= <-].
  - destruct (findIndex (hasId wanted) l) as [i|]; [|discriminate].
    intros [= <-]. cbn [splice1 firstn skipn app List.length].
    f_equal. now apply IH.
Qed.

Lemma find_splice_unique (wanted : string) (l : list Schedule) (index : nat) :
  NoDup (map id l) ->
  findIndex (hasId wanted) l = Some index ->
  find (hasId wanted) (splice1 index l) = None.
Proof.
  revert index. induction l as [|x l IH]; intros index Hnd; [discriminate|].
  inversion Hnd as [|? ? Hx Hl]; subst.
  cbn [findIndex]. destruct (hasId wanted x) eqn:Ex.
  - intros [= <-]. cbn [splice1 firstn skipn app].
    destruct (find (hasId wanted) l) as [y|] eqn:F; [|reflexivity].
    apply find_some in F as [Hin Hy]. exfalso. apply Hx.
    unfold hasId in *. apply String.eqb_eq in Ex, Hy.
    rewrite Ex, <- Hy. now apply in_map.
  - destruct (findIndex (hasId wanted) l) as [i|] eqn:Ei; [|discriminate].
    intros [= <-]. cbn [splice1 firstn skipn app find]. rewrite Ex.
    now apply IH.
Qed.

(** The run of [delete]. *)
Lemma schedule_delete_run (s : Store) (wanted : string) :
  ScheduleManager.delete wanted s
  = (if existsb (hasId wanted) (schedules s) then Return wanted
     else Throw (mkError INVALID_SCHEDULE None),
     write_schedules
       (match findIndex (hasId wanted) (schedules s) with
        | Some index => splice1 index (schedules s)
        | None => schedules s
        end)
       (with_world (tick (world s)) s)).
Proof.
  unfold ScheduleManager.delete, ScheduleManager.updateSchedules, bindS,
    getsS, retS, modifyS, throwS, liftW, Date_now.
  cbn [schedules with_world]. rewrite <- findIndex_existsb.
  now destruct (findIndex (hasId wanted) (schedules s)).
Qed.

(** X21.  [delete] takes the first schedule with the given id out of the
    stored array and returns the id, or throws [invalid_schedule] when no
    schedule has it.  Every schedule with another id stays in place, and
    when ids are unique the id is gone.  The blocks that the schedule has
    activated are left in force. *)
Theorem schedule_delete_removes (s : Store) (wanted : string) :
  let s' := snd (ScheduleManager.delete wanted s) in
  fst (ScheduleManager.delete wanted s)
  = (if existsb (hasId wanted) (schedules s) then Return wanted
     else Throw (mkError INVALID_SCHEDULE None))
  /\ (existsb (hasId wanted) (schedules s) = true ->
      S (List.length (schedules s')) = List.length (schedules s))
  /\ (existsb (hasId wanted) (schedules s) = false ->
      schedules s' = schedules s)
  /\ (forall other, other <> wanted ->
        fst (ScheduleManager.get other s') = fst (ScheduleManager.get other s))
  /\ (NoDup (map id (schedules s)) ->
      fst (ScheduleManager.get wanted s') = Return None)
  /\ activeBlocks (world s') = activeBlocks (world s).
Proof.
  cbv zeta. rewrite schedule_delete_run. cbn [fst snd].
  unfold ScheduleManager.get, ScheduleManager.getSchedules, bindS, getsS, retS.
  cbn [fst schedules write_schedules world with_world log_write activeBlocks
       tick].
  split; [reflexivity|].
  rewrite <- findIndex_existsb.
  destruct (findIndex (hasId wanted) (schedules s)) as [index|] eqn:Ei.
  - split; [intros _; now apply (splice_length wanted)|].
    split; [discriminate|]. split.
    + intros other Hne. f_equal.
      pose proof (find_splice wanted other (schedules s) Hne) as H.
      now rewrite Ei in H.
    + split; [|reflexivity]. intros Hnd. f_equal.
      now apply find_splice_unique.
  - split; [discriminate|]. split; [reflexivity|].
    split; [reflexivity|]. split; [|reflexivity].
    intros _. f_equal.
    destruct (find (hasId wanted) (schedules s)) as [y|] eqn:F; [|reflexivity].
    apply find_some in F as [Hin Hy].
    pose proof (findIndex_existsb (hasId wanted) (schedules s)) as H.
    rewrite Ei in H. symmetry in H.
    assert (existsb (hasId wanted) (schedules s) = true); [|congruence].
    apply existsb_exists. now exists y.
Qed.

Lemma setEnabled_ids (wanted : string) (value : bool) (l : list Schedule) :
  map id (setEnabled wanted value l) = map id l.
Proof.
  induction l as [|x l IH]; [reflexivity|].
  cbn [setEnabled]. destruct (hasId wanted x); cbn [map id]; [reflexivity|].
  now rewrite IH.
Qed.

Lemma find_setEnabled_same (wanted : string) (value : bool)
    (l : list Schedule) :
  find (hasId wanted) (setEnabled wanted value l)
  = match find (hasId wanted) l with
    | Some x => Some (mkSchedule (id x) (domains x) (startTime x) (endTime x)
                                 (days x) value (createdAt x))
    | None => None
    end.
Proof.
  induction l as [|x l IH]; [reflexivity|].
  cbn [setEnabled find]. destruct (hasId wanted x) eqn:Ex.
  - cbn [find]. unfold hasId in *. cbn [id]. now rewrite Ex.
  - cbn [find]. now rewrite Ex.
Qed.

Lemma find_setEnabled_other (wanted other : string) (value : bool)
    (l : list Schedule) :
  other <> wanted ->
  find (hasId other) (setEnabled wanted value l) = find (hasId other) l.
Proof.
  intros Hne. induction l as [|x l IH]; [reflexivity|].
  cbn [setEnabled find]. destruct (hasId wanted x) eqn:Ex.
  - cbn [find]. unfold hasId in *. cbn [id].
    apply String.eqb_eq in Ex.
    assert (String.eqb (id x) other = false) as ->; [|reflexivity].
    apply String.eqb_neq. congruence.
  - cbn [find]. now rewrite IH.
Qed.

(** X22.  [toggle] sets the [enabled] flag of the first schedule with the
    given id and answers with the id and the flag, or throws
    [invalid_schedule] when no schedule has the id.  The schedule keeps
    its place and its other fields, every other schedule is unchanged, and
    no block is added or lifted. *)
Theorem schedule_toggle_sets_flag (s : Store) (wanted : string)
    (value : bool) :
  let s' := snd (ScheduleManager.toggle wanted value s) in
  fst (ScheduleManager.toggle wanted value s)
  = (if existsb (hasId wanted) (schedules s) then Return (wanted, value)
     else Throw (mkError INVALID_SCHEDULE None))
  /\ fst (ScheduleManager.get wanted s')
     = match fst (ScheduleManager.get wanted s) with
       | Return (Some x) =>
           Return (Some (mkSchedule (id x) (domains x) (startTime x)
                                    (endTime x) (days x) value (createdAt x)))
       | other => other
       end
  /\ (forall other, other <> wanted ->
        fst (ScheduleManager.get other s') = fst (ScheduleManager.get other s))
  /\ map id (schedules s') = map id (schedules s)
  /\ activeBlocks (world s') = activeBlocks (world s).
Proof.
  cbv zeta.
  unfold ScheduleManager.toggle, ScheduleManager.updateSchedules,
    ScheduleManager.get, ScheduleManager.getSchedules, bindS, getsS, retS,
    modifyS, throwS, liftW, Date_now.
  cbn [schedules with_world].
  destruct (existsb (hasId wanted) (schedules s));
    cbn [negb fst snd schedules write_schedules world with_world log_write
         activeBlocks tick];
    (split; [reflexivity|]);
    (split; [rewrite find_setEnabled_same;
             now destruct (find (hasId wanted) (schedules s))|]);
    (split; [intros other Hne; now rewrite find_setEnabled_other|]);
    (split; [apply setEnabled_ids|reflexivity]).
Qed.






(** The filter of [getActive]: it only reads the clock, and what it keeps
    is enabled, runs on the given day and has its window open at some
    later read of the clock. *)
Lemma filterM_activeNow (day : Z) (l : list Schedule) (w : World) :
  exists (r : list Schedule) (n : nat),
    filterM (ScheduleManager.activeNow day) l w
    = (Return r, Nat.iter n tick w)
    /\ (forall x, In x r ->
          In x l /\ enabled x = true
          /\ existsb (Z.eqb day) (days x) = true
          /\ exists i, (reads w <= i)%nat
                       /\ parseTimeToMinutes (startTime x)
                          <= currentMinutes (clock i)
                          < parseTimeToMinutes (endTime x))
    /\ (forall t, (forall i, currentMinutes (clock i) = t) ->
          r = filter (fun x => enabled x && existsb (Z.eqb day) (days x)
                               && ((parseTimeToMinutes (startTime x) <=? t)
                                   && (t <? parseTimeToMinutes (endTime x))))
                     l).
Proof.
  revert w. induction l as [|x l IH]; intros w.
  - exists [], O. split; [reflexivity|]. split; [intros x []|reflexivity].
  - cbn [filterM filter]. unfold bind at 1.
    unfold ScheduleManager.activeNow at 1.
    destruct (enabled x) eqn:Een; cbn [negb andb].
    + destruct (existsb (Z.eqb day) (days x)) eqn:Eday; cbn [negb andb].
      * unfold isInTimeWindow, getCurrentTime, Date_now, bind at 1 2, ret at 1 2.
        fold (currentMinutes (clock (reads w))).
        destruct (IH (tick w)) as (r & n & Hrun & Hin & Hex).
        unfold bind. rewrite Hrun. unfold ret.
        set (keep := (_ <=? _) && (_ <? _)).
        exists (if keep then x :: r else r), (S n).
        split; [rewrite Nat.iter_succ_r; reflexivity|]. split.
        -- intros y Hy.
           assert (y = x /\ keep = true \/ In y r) as [[-> Hk]|Hy'].
           { destruct keep; [destruct Hy as [<-|Hy]|]; auto. }
           ++ split; [now left|]. split; [exact Een|]. split; [exact Eday|].
              exists (reads w). split; [lia|]. unfold keep in Hk.
              apply andb_true_iff in Hk as [K1 K2].
              apply Z.leb_le in K1. apply Z.ltb_lt in K2. lia.
           ++ destruct (Hin y Hy') as (A & B & C & i & Hi & D).
              split; [now right|]. split; [exact B|]. split; [exact C|].
              exists i. cbn [reads tick] in Hi. split; [lia|exact D].
        -- intros t Ht. unfold keep. rewrite (Ht (reads w)).
           rewrite (Hex t Ht). reflexivity.
      * destruct (IH w) as (r & n & Hrun & Hin & Hex).
        unfold ret at 1. unfold bind. rewrite Hrun. unfold ret.
        exists r, n. split; [reflexivity|]. split.
        -- intros y Hy. destruct (Hin y Hy) as (A & B). split; [now right|auto].
        -- exact Hex.
    + destruct (IH w) as (r & n & Hrun & Hin & Hex).
      unfold ret at 1. unfold bind. rewrite Hrun. unfold ret.
      exists r, n. split; [reflexivity|]. split.
      * intros y Hy. destruct (Hin y Hy) as (A & B). split; [now right|auto].
      * exact Hex.
Qed.

Lemma iter_tick_frame (n : nat) (w : World) :
  activeBlocks (Nat.iter n tick w) = activeBlocks w
  /\ pendingUnblocks (Nat.iter n tick w) = pendingUnblocks w
  /\ writes (Nat.iter n tick w) = writes w.
Proof.
  induction n as [|n IH]; [repeat split|].
  cbn [Nat.iter]. now cbn [activeBlocks pendingUnblocks writes tick].
Qed.

(** X24.  [getActive] returns stored schedules only, each enabled, with
    the current day among its days and with its window open when the
    filter read the clock; it writes nothing.  While the minute of the day
    does not change it returns exactly the stored schedules that pass
    these three tests, in their stored order. *)
Theorem getActive_selects_open_windows (s : Store) :
  let day := date_getDay (clock (reads (world s))) in
  exists (r : list Schedule) (s' : Store),
    ScheduleManager.getActive s = (Return r, s')
    /\ (forall x, In x r ->
          In x (schedules s) /\ enabled x = true
          /\ existsb (Z.eqb day) (days x) = true
          /\ parseTimeToMinutes (startTime x)
             < parseTimeToMinutes (endTime x))
    /\ schedules s' = schedules s
    /\ activeBlocks (world s') = activeBlocks (world s)
    /\ writes (world s') = writes (world s)
    /\ (forall t, (forall i, currentMinutes (clock i) = t) ->
          r = filter (fun x => enabled x && existsb (Z.eqb day) (days x)
                               && ((parseTimeToMinutes (startTime x) <=? t)
                                   && (t <? parseTimeToMinutes (endTime x))))
                     (schedules s)).
Proof.
  cbv zeta.
  unfold ScheduleManager.getActive, ScheduleManager.getSchedules, bindS,
    getsS, liftW, getCurrentDay, Date_now, bind, ret.
  cbn [world with_world schedules].
  destruct (filterM_activeNow (date_getDay (clock (reads (world s))))
              (schedules s) (tick (world s)))
    as (r & n & Hrun & Hin & Hex).
  rewrite Hrun. exists r. eexists. split; [reflexivity|].
  cbn [world with_world schedules].
  destruct (iter_tick_frame n (tick (world s))) as (F1 & _ & F3).
  split.
  - intros x Hx. destruct (Hin x Hx) as (A & B & C & i & _ & D).
    repeat split; try assumption. lia.
  - split; [reflexivity|]. split; [exact F1|]. split; [exact F3|exact Hex].
Qed.

End ScheduleFacts.

(** ** Statistics *)

(** The sort of [getTopSites]. *)

Lemma insertByCount_perm (x : string * Z) (l : list (string * Z)) :
  Permutation (insertByCount x l) (x :: l).
Proof.
  induction l as [|y l IH]; [reflexivity|].
  cbn [insertByCount]. destruct (snd y <=? snd x); [reflexivity|].
  rewrite IH. apply perm_swap.
Qed.

Lemma sortByCount_perm (l : list (string * Z)) :
  Permutation (sortByCount l) l.
Proof.
  induction l as [|x l IH]; [reflexivity|].
  cbn [sortByCount fold_right]. fold (sortByCount l).
  rewrite insertByCount_perm. now constructor.
Qed.

Lemma insertByCount_sorted (x : string * Z) (l : list (string * Z)) :
  StronglySorted (fun a b => snd b <= snd a) l ->
  StronglySorted (fun a b => snd b <= snd a) (insertByCount x l).
Proof.
  induction l as [|y l IH]; intros Hs.
  - constructor; constructor.
  - cbn [insertByCount]. destruct (Z.leb_spec (snd y) (snd x)) as [Hle|Hgt].
    + constructor; [exact Hs|]. constructor; [exact Hle|].
      inversion Hs as [|? ? _ Hall]; subst.
      eapply Forall_impl; [|exact Hall]. cbn beta. intros; lia.
    + inversion Hs as [|? ? Hs' Hall]; subst.
      constructor; [now apply IH|].
      eapply Permutation_Forall; [symmetry; apply insertByCount_perm|].
      constructor; [lia|exact Hall].
Qed.

Lemma sortByCount_sorted (l : list (string * Z)) :
  StronglySorted (fun a b => snd b <= snd a) (sortByCount l).
Proof.
  induction l as [|x l IH]; [constructor|].
  cbn [sortByCount fold_right]. now apply insertByCount_sorted.
Qed.

(** The sort is stable: entries with the same count keep their order. *)
Lemma insertByCount_stable (c : Z) (x : string * Z) (l : list (string * Z)) :
  filter (fun e => snd e =? c) (insertByCount x l)
  = filter (fun e => snd e =? c) (x :: l).
Proof.
  induction l as [|y l IH]; [reflexivity|].
  cbn [insertByCount]. destruct (Z.leb_spec (snd y) (snd x)) as [Hle|Hgt];
    [reflexivity|].
  cbn [filter] in *. rewrite IH.
  destruct (Z.eqb_spec (snd x) c), (Z.eqb_spec (snd y) c);
    try reflexivity. lia.
Qed.

Lemma sortByCount_stable (c : Z) (l : list (string * Z)) :
  filter (fun e => snd e =? c) (sortByCount l)
  = filter (fun e => snd e =? c) l.
Proof.
  induction l as [|x l IH]; [reflexivity|].
  cbn [sortByCount fold_right]. fold (sortByCount l).
  rewrite insertByCount_stable. cbn [filter]. now rewrite IH.
Qed.

Section StatsFacts.

Context {host : Platform}.

(** X25.  [getTopSites] ranks the sites by count: what it returns, followed
    by the sites it leaves out, is a rearrangement of the stored site
    counters in descending order of count, in which sites with the same
    count keep their stored order.  It returns [limit] sites, or all of
    them when there are fewer, and changes nothing. *)
Theorem getTopSites_ranks_by_count (s : Store) (limit : nat) :
  exists top rest : list (string * Z),
    StatsManager.getTopSites limit s = (Return top, s)
    /\ Permutation (top ++ rest) (JsObj.entries (siteAttempts s))
    /\ StronglySorted (fun a b => snd b <= snd a) (top ++ rest)
    /\ (forall c, filter (fun e => snd e =? c) (top ++ rest)
                  = filter (fun e => snd e =? c)
                           (JsObj.entries (siteAttempts s)))
    /\ List.length top
       = Nat.min limit (List.length (JsObj.entries (siteAttempts s))).
Proof.
  set (sorted := sortByCount (JsObj.entries (siteAttempts s))).
  exists (firstn limit sorted), (skipn limit sorted).
  rewrite firstn_skipn. split; [reflexivity|].
  split; [apply sortByCount_perm|]. split; [apply sortByCount_sorted|].
  split; [intros c; apply sortByCount_stable|].
  rewrite length_firstn. f_equal.
  apply Permutation_length, sortByCount_perm.
Qed.

(** The run of [recordBlockedAttempt]. *)
Lemma recordBlockedAttempt_run (s : Store) (domain : string) :
  let today :=
    hd "" (JsString.split "T" (date_toISOString (clock (reads (world s))))) in
  let site :=
    match cleanDomainOf domain with Some c => c | None => domain end in
  StatsManager.recordBlockedAttempt domain s
  = (match JsObj.lookup (siteAttempts s) site with
     | JsObj.Inherited => Unmodelled
     | _ => Return tt
     end,
     write_stats
       {| stats_totalBlocksCreated := totalBlocksCreated (world s);
          stats_blockedAttempts :=
            JsObj.set (blockedAttempts s) today
              (JsNumber.orElse (JsObj.get (blockedAttempts s) today) 0 + 1);
          stats_siteAttempts :=
            match JsObj.lookup (siteAttempts s) site with
            | JsObj.Inherited => siteAttempts s
            | _ =>
                JsObj.set (siteAttempts s) site
                  (JsNumber.orElse (JsObj.get (siteAttempts s) site) 0 + 1)
            end;
          stats_streakStartDate :=
            if StatsManager.noDate (streakStartDate s) then Some today
            else streakStartDate s;
          stats_lastActiveDate := Some today |}
       (with_world (tick (tick (world s))) s)).
Proof.
  cbv zeta. unfold StatsManager.recordBlockedAttempt.
  set (site := match cleanDomainOf domain with Some c => c | None => domain end).
  cbv [bindS liftW getsS retS unmodelledS modifyS StatsManager.updateStats
       getTodayKey bind ret Date_now].
  cbn [world with_world siteAttempts read_stats stats_siteAttempts].
  destruct (JsObj.lookup (siteAttempts s) site); reflexivity.
Qed.

(** The run of [getTodayCount]. *)
Lemma getTodayCount_run (s : Store) :
  StatsManager.getTodayCount s
  = (Return
       (JsNumber.orElse
          (JsObj.get (blockedAttempts s)
             (hd "" (JsString.split "T"
                       (date_toISOString (clock (reads (world s)))))))
          0),
     with_world (tick (world s)) s).
Proof. reflexivity. Qed.

(** X26.  For a site (the clean domain, or the given string when it has no
    clean form) that has a count of its own or names no member of
    [Object.prototype], [recordBlockedAttempt] adds one to the count of
    today and to the count of the site, a missing count being taken as
    zero, and leaves every other day and site as it was.  It sets
    [lastActiveDate] to today and [streakStartDate] only when none was
    set.  [totalBlocksCreated], the blocks and the schedules are
    unchanged.  Read again on the same day, [getTodayCount] is one
    more. *)
Theorem recordBlockedAttempt_counts (s : Store) (domain : string) :
  let today :=
    hd "" (JsString.split "T" (date_toISOString (clock (reads (world s))))) in
  let site :=
    match cleanDomainOf domain with Some c => c | None => domain end in
  let s' := snd (StatsManager.recordBlockedAttempt domain s) in
  JsObj.lookup (siteAttempts s) site <> JsObj.Inherited ->
  JsObj.get (blockedAttempts s') today
  = Some (JsNumber.orElse (JsObj.get (blockedAttempts s) today) 0 + 1)
  /\ (forall d, d <> today ->
        JsObj.get (blockedAttempts s') d = JsObj.get (blockedAttempts s) d)
  /\ JsObj.get (siteAttempts s') site
     = Some (JsNumber.orElse (JsObj.get (siteAttempts s) site) 0 + 1)
  /\ (forall k, k <> site ->
        JsObj.get (siteAttempts s') k = JsObj.get (siteAttempts s) k)
  /\ lastActiveDate s' = Some today
  /\ streakStartDate s'
     = (if StatsManager.noDate (streakStartDate s) then Some today
        else streakStartDate s)
  /\ totalBlocksCreated (world s') = totalBlocksCreated (world s)
  /\ activeBlocks (world s') = activeBlocks (world s)
  /\ schedules s' = schedules s
  /\ (hd "" (JsString.split "T"
               (date_toISOString (clock (reads (world s'))))) = today ->
      fst (StatsManager.getTodayCount s) = Return
            (JsNumber.orElse (JsObj.get (blockedAttempts s) today) 0)
      /\ fst (StatsManager.getTodayCount s')
         = Return (JsNumber.orElse (JsObj.get (blockedAttempts s) today) 0
                   + 1)).
Proof.
  cbv zeta. intros Hsite. rewrite recordBlockedAttempt_run, !getTodayCount_run.
  cbv zeta. cbn [fst snd].
  cbn [blockedAttempts siteAttempts lastActiveDate streakStartDate world
       schedules write_stats with_world write_totalBlocksCreated
       totalBlocksCreated activeBlocks tick stats_blockedAttempts
       stats_siteAttempts stats_streakStartDate stats_lastActiveDate
       stats_totalBlocksCreated reads].
  split; [apply get_set_same|].
  split; [intros d Hd; now apply get_set_other|].
  split; [destruct (JsObj.lookup _ _); [apply get_set_same|congruence
                                        |apply get_set_same]|].
  split; [intros k Hk; destruct (JsObj.lookup _ _);
          [now apply get_set_other|congruence|now apply get_set_other]|].
  do 5 (split; [reflexivity|]).
  intros Hday. split; [reflexivity|].
  rewrite Hday, get_set_same. now rewrite orElse_zero.
Qed.


End StatsFacts.

Section CalendarFacts.

Context {host : Platform} {calendar : Calendar}.

Lemma streakFrom_S (attempts : JsObj.t Z) (today : Z) (fuel : nat)
    (i streak : Z) :
  StatsManager.streakFrom attempts today (S fuel) i streak
  = if StatsManager.hasAttempts attempts (StatsManager.dayKey today i)
    then StatsManager.streakFrom attempts today fuel (i + 1) (streak + 1)
    else if 0 <? i then streak
         else StatsManager.streakFrom attempts today fuel (i + 1) streak.
Proof. reflexivity. Qed.

Lemma weekFrom_S (attempts : JsObj.t Z) (today : Z) (fuel : nat)
    (i total : Z) :
  StatsManager.weekFrom attempts today (S fuel) i total
  = StatsManager.weekFrom attempts today fuel (i + 1)
      (total
       + JsNumber.orElse
           (JsObj.get attempts (StatsManager.dayKey today i)) 0).
Proof. reflexivity. Qed.

(** The loop of [getStreak] once it is past today: it counts the days in
    a row that have attempts and stops at the first that has none. *)
Lemma streakFrom_run (attempts : JsObj.t Z) (today : Z) (m : nat) :
  forall (fuel k : nat) (streak : Z),
    (1 <= k)%nat -> (m <= fuel)%nat ->
    (forall j, (k <= j < k + m)%nat ->
       StatsManager.hasAttempts attempts
         (StatsManager.dayKey today (Z.of_nat j)) = true) ->
    (m = fuel
     \/ StatsManager.hasAttempts attempts
          (StatsManager.dayKey today (Z.of_nat (k + m))) = false) ->
    StatsManager.streakFrom attempts today fuel (Z.of_nat k) streak
    = streak + Z.of_nat m.
Proof.
  induction m as [|m IH]; intros fuel k streak Hk Hm Hrun Hstop.
  - destruct fuel as [|fuel]; cbn [StatsManager.streakFrom]; [lia|].
    destruct Hstop as [Hstop|Hstop]; [discriminate Hstop|].
    rewrite Nat.add_0_r in Hstop. rewrite Hstop.
    assert ((0 <? Z.of_nat k) = true) as -> by (apply Z.ltb_lt; lia). lia.
  - destruct fuel as [|fuel]; [lia|]. cbn [StatsManager.streakFrom].
    rewrite (Hrun k) by lia.
    replace (Z.of_nat k + 1) with (Z.of_nat (S k)) by lia.
    rewrite (IH fuel (S k) (streak + 1)); [lia|lia|lia| |].
    + intros j Hj. apply Hrun. lia.
    + destruct Hstop as [Hstop|Hstop]; [left; lia|right].
      now replace (S k + m)%nat with (k + S m)%nat by lia.
Qed.

Lemma streakFrom_bounds (attempts : JsObj.t Z) (today : Z) (fuel : nat) :
  forall i streak,
    streak <= StatsManager.streakFrom attempts today fuel i streak
    <= streak + Z.of_nat fuel.
Proof.
  induction fuel as [|fuel IH]; intros i streak;
    cbn [StatsManager.streakFrom]; [lia|].
  destruct (StatsManager.hasAttempts _ _).
  - specialize (IH (i + 1) (streak + 1)). lia.
  - destruct (0 <? i); [lia|]. specialize (IH (i + 1) streak). lia.
Qed.

(** X28.  [getStreak] counts the days in a row with blocked attempts,
    going back from yesterday, and adds today when today has attempts: a
    day without attempts ends the count, except today, which is passed
    over.  The streak is between 0 and 365. *)
Theorem getStreak_counts_days_in_a_row (s : Store) (n : nat) :
  let today := clock (reads (world s)) in
  let active (i : nat) :=
    StatsManager.hasAttempts (blockedAttempts s)
      (StatsManager.dayKey today (Z.of_nat i)) in
  (exists streak, fst (StatsManager.getStreak s) = Return streak
                  /\ 0 <= streak <= 365)
  /\ ((forall i, (1 <= i <= n)%nat -> active i = true) ->
      (n = 364%nat \/ ((n < 364)%nat /\ active (S n) = false)) ->
      fst (StatsManager.getStreak s)
      = Return (Z.of_nat n + (if active O then 1 else 0))).
Proof.
  cbv zeta.
  assert (StatsManager.getStreak s
          = (Return (StatsManager.streakFrom (blockedAttempts s)
                       (clock (reads (world s))) 365 0 0),
             with_world (tick (world s)) s)) as -> by reflexivity.
  cbn [fst]. split.
  - eexists. split; [reflexivity|].
    pose proof (streakFrom_bounds (blockedAttempts s)
                  (clock (reads (world s))) 365 0 0). lia.
  - intros Hrun Hstop. f_equal.
    rewrite (streakFrom_S _ _ 364).
    change (0 <? 0) with false. change (0 + 1) with (Z.of_nat 1).
    cbv iota.
    assert (forall streak,
              StatsManager.streakFrom (blockedAttempts s)
                (clock (reads (world s))) 364 (Z.of_nat 1) streak
              = streak + Z.of_nat n) as Hloop.
    { intros streak. apply streakFrom_run.
      - apply Nat.le_refl.
      - destruct Hstop as [Hn|[Hn _]].
        + rewrite Hn. apply Nat.le_refl.
        + now apply Nat.lt_le_incl.
      - intros j Hj. apply Hrun. split; [apply Hj|].
        apply Nat.lt_succ_r, Hj.
      - destruct Hstop as [Hn|[_ Hstop]]; [now left|right]. exact Hstop. }
    change (Z.of_nat 0) with 0. clear Hrun Hstop.
    destruct (StatsManager.hasAttempts _ _); rewrite Hloop;
      change (Z.of_nat 1) with 1; lia.
Qed.

(** The loop of [getWeekCount] adds to its total. *)
Lemma weekFrom_total (attempts : JsObj.t Z) (today : Z) (fuel : nat) :
  forall i total d,
    StatsManager.weekFrom attempts today fuel i (total + d)
    = StatsManager.weekFrom attempts today fuel i total + d.
Proof.
  induction fuel as [|fuel IH]; intros i total d;
    cbn [StatsManager.weekFrom]; [reflexivity|].
  rewrite <- IH. f_equal. lia.
Qed.

(** A counter that the loop does not visit does not change its total. *)
Lemma weekFrom_set_other (attempts : JsObj.t Z) (today : Z) (key : string)
    (count : Z) (fuel : nat) :
  forall i total,
    (forall j, i <= j < i + Z.of_nat fuel ->
               StatsManager.dayKey today j <> key) ->
    StatsManager.weekFrom (JsObj.set attempts key count) today fuel i total
    = StatsManager.weekFrom attempts today fuel i total.
Proof.
  induction fuel as [|fuel IH]; intros i total Hother;
    cbn [StatsManager.weekFrom]; [reflexivity|].
  rewrite get_set_other
    by (intros E; apply (Hother i); [lia|now symmetry]).
  apply IH. intros j Hj. apply Hother. lia.
Qed.

(** X29.  A blocked attempt recorded today counts once in the week: when
    the day of the attempt is the first of the seven days that
    [getWeekCount] visits and none of the other six, the week count read
    after [recordBlockedAttempt] is one more than the same reading of the
    counters as they were before. *)
Theorem recorded_attempt_counts_once_in_week (s : Store) (domain : string) :
  let s' := snd (StatsManager.recordBlockedAttempt domain s) in
  let today :=
    hd "" (JsString.split "T" (date_toISOString (clock (reads (world s))))) in
  let now' := clock (reads (world s')) in
  StatsManager.dayKey now' 0 = today ->
  (forall i, 1 <= i <= 6 -> StatsManager.dayKey now' i <> today) ->
  fst (StatsManager.getWeekCount s')
  = Return (StatsManager.weekFrom (blockedAttempts s) now' 7 0 0 + 1).
Proof.
  cbv zeta. rewrite recordBlockedAttempt_run. cbv zeta. cbn [snd].
  set (today := hd "" (JsString.split "T"
                         (date_toISOString (clock (reads (world s)))))).
  set (s' := write_stats _ _).
  set (now' := clock (reads (world s'))).
  intros Hzero Hother.
  assert (StatsManager.getWeekCount s'
          = (Return (StatsManager.weekFrom (blockedAttempts s') now' 7 0 0),
             with_world (tick (world s')) s')) as -> by reflexivity.
  cbn [fst]. f_equal.
  assert (blockedAttempts s'
          = JsObj.set (blockedAttempts s) today
              (JsNumber.orElse (JsObj.get (blockedAttempts s) today) 0 + 1))
    as -> by reflexivity.
  rewrite !(weekFrom_S _ _ 6).
  rewrite Hzero, get_set_same, orElse_zero.
  rewrite weekFrom_set_other by (intros j Hj; apply Hother; lia).
  rewrite <- weekFrom_total. f_equal; lia.
Qed.

(** X30.  [cleanup] keeps the daily counts whose date is not before the
    cutoff, the date thirty days back, in the order of strings, and drops
    the others; the site counts, the streak dates, the count of blocks
    created, the blocks and the schedules are untouched. *)
Theorem cleanup_keeps_recent_dates (s : Store) :
  JsObj.wfb (blockedAttempts s) = true ->
  let cutoffKey := StatsManager.dayKey (clock (reads (world s))) 30 in
  let s' := snd (StatsManager.cleanup s) in
  fst (StatsManager.cleanup s) = Return tt
  /\ (forall d,
        JsObj.get (blockedAttempts s') d
        = if String.ltb d cutoffKey then None
          else JsObj.get (blockedAttempts s) d)
  /\ JsObj.wfb (blockedAttempts s') = true
  /\ siteAttempts s' = siteAttempts s
  /\ streakStartDate s' = streakStartDate s
  /\ lastActiveDate s' = lastActiveDate s
  /\ totalBlocksCreated (world s') = totalBlocksCreated (world s)
  /\ activeBlocks (world s') = activeBlocks (world s)
  /\ schedules s' = schedules s.
Proof.
  intros Hwf. cbv zeta.
  set (cutoffKey := StatsManager.dayKey (clock (reads (world s))) 30).
  set (keep := fun entry : string * Z =>
                 negb (String.ltb (fst entry) cutoffKey)).
  assert (StatsManager.cleanup s
          = (Return tt,
             write_stats
               {| stats_totalBlocksCreated := totalBlocksCreated (world s);
                  stats_blockedAttempts :=
                    fst (copyWhere keep (blockedAttempts s));
                  stats_siteAttempts := siteAttempts s;
                  stats_streakStartDate := streakStartDate s;
                  stats_lastActiveDate := lastActiveDate s |}
               (with_world (tick (tick (world s))) s))) as -> by reflexivity.
  cbn [fst snd blockedAttempts siteAttempts lastActiveDate streakStartDate
       world schedules write_stats with_world write_totalBlocksCreated
       totalBlocksCreated activeBlocks tick stats_blockedAttempts
       stats_siteAttempts stats_streakStartDate stats_lastActiveDate
       stats_totalBlocksCreated].
  rewrite (copyWhere_filter keep _ Hwf). cbn [fst].
  split; [reflexivity|]. split.
  - intros d. rewrite (get_filter keep _ d Hwf). unfold keep. cbn [fst].
    destruct (JsObj.get (blockedAttempts s) d);
      now destruct (String.ltb d cutoffKey).
  - split; [now apply wfb_filter|]. repeat split.
Qed.

End CalendarFacts.

(** ** The lock table *)

Section LockingFacts.

Import Locking.

Context {host : Platform} {A : Type}.




















(** Alone, an invocation whose function has no [await] inside runs as the
    sequential [withLock] does: it reads the start time, takes the lock,
    runs the function and releases the lock. *)
Lemma withLock_alone (key : string) (m : M A) (w : World) :
  run [0; 0]%nat (start [(key, ofM m)] w)
  = mkState [] (snd (withLock key m w)) [Done (fst (withLock key m w))]
            [Exit 0 key; Enter 0 key; Call 0 key].
Proof.
  unfold withLock, bind, Date_now, ofM. cbn.
  destruct (m (tick w)) as [r w']. cbn. rewrite String.eqb_refl. reflexivity.
Qed.

End LockingFacts.

(** ** The properties on sample data *)

Section OnMoreSamples.

Import Samples MoreSamples.



Lemma cancel_withdraws_request_witness :
  @cleanDomainOf hostAtTen "https://www.Example.com/watch"
  = Some "example.com"
  /\ fst (@cancel hostAtTen "https://www.Example.com/watch" blockedAndPending)
     = Return "example.com"
  /\ JsObj.get
       (pendingUnblocks
          (snd (@cancel hostAtTen "https://www.Example.com/watch"
                        blockedAndPending)))
       "example.com" = None
  /\ activeBlocks
       (snd (@cancel hostAtTen "https://www.Example.com/watch"
                     blockedAndPending))
     = activeBlocks blockedAndPending.
Proof.
  assert (@cleanDomainOf hostAtTen "https://www.Example.com/watch"
          = Some "example.com") as Hc by (vm_compute; reflexivity).
  destruct (@cancel_withdraws_request hostAtTen blockedAndPending
              "https://www.Example.com/watch" "example.com" Hc)
    as (H1 & H2 & _ & _ & H5 & _).
  split; [exact Hc|]. split; [exact H1|]. split; [exact H2|exact H5].
Defined.

Lemma cancel_keeps_escalation_witness :
  @cleanDomainOf hostAtTen "example.com" = Some "example.com"
  /\ exists (grant : UnblockGrant) (w1 w2 : World) (grant' : UnblockGrant)
            (w3 : World),
       @request hostAtTen "example.com" longBlocked = (Return grant, w1)
       /\ grant_attemptNumber grant = 1
       /\ @cancel hostAtTen "example.com" w1 = (Return "example.com", w2)
       /\ @request hostAtTen "example.com" w2 = (Return grant', w3)
       /\ grant_attemptNumber grant' = 2.
Proof.
  assert (@cleanDomainOf hostAtTen "example.com" = Some "example.com")
    as Hc by (vm_compute; reflexivity).
  assert (@request hostAtTen "example.com" longBlocked
          = (Return {| waitTime := 300; grant_unlocksAt := 36300000;
                       grant_attemptNumber := 1 |},
             snd (@request hostAtTen "example.com" longBlocked)))
    as Hreq by (vm_compute; reflexivity).
  split; [exact Hc|].
  destruct (@cancel_keeps_escalation hostAtTen longBlocked _ "example.com"
              "example.com" _ Hc (fun i j => eq_refl) Hreq)
    as (w2 & grant' & w3 & H1 & H2 & H3).
  eexists _, _, w2, grant', w3. split; [exact Hreq|].
  split; [reflexivity|]. split; [exact H1|]. split; [exact H2|exact H3].
Defined.

Lemma isReady_matches_gates_witness :
  @cleanDomainOf hostAtTen "example.com" = Some "example.com"
  /\ JsObj.get (pendingUnblocks blockedAndPending) "example.com"
     = Some pendingAtTen
  /\ fst (@isReady hostAtTen "example.com" blockedAndPending) = Return false
  /\ (exists r, fst (@confirm hostAtTen "example.com" blockedAndPending)
                = Throw (mkError UNBLOCK_DELAY_NOT_COMPLETE r))
  /\ (exists r, fst (@request hostAtTen "example.com" blockedAndPending)
                = Throw (mkError UNBLOCK_PENDING r)).
Proof.
  assert (@cleanDomainOf hostAtTen "example.com" = Some "example.com")
    as Hc by (vm_compute; reflexivity).
  destruct (@isReady_matches_gates hostAtTen blockedAndPending
              "example.com" "example.com" pendingAtTen Hc eq_refl)
    as (H1 & H2 & H3).
  split; [exact Hc|]. split; [reflexivity|]. split; [exact H1|].
  split; [apply H2; exact H1|apply H3; exact H1].
Defined.

Lemma confirm_without_request_witness :
  @cleanDomainOf hostAtTen "example.com" = Some "example.com"
  /\ JsObj.get (pendingUnblocks longBlocked) "example.com" = None
  /\ JsObj.get (activeBlocks longBlocked) "example.com"
     = Some longManualBlock
  /\ @isReady hostAtTen "example.com" longBlocked = (Return false, longBlocked)
  /\ fst (@confirm hostAtTen "example.com" longBlocked)
     = Return "example.com"
  /\ JsObj.get
       (activeBlocks (snd (@confirm hostAtTen "example.com" longBlocked)))
       "example.com" = None.
Proof.
  assert (@cleanDomainOf hostAtTen "example.com" = Some "example.com")
    as Hc by (vm_compute; reflexivity).
  destruct (@confirm_without_request hostAtTen longBlocked "example.com"
              "example.com" "example.com" longManualBlock
              Hc Hc eq_refl eq_refl) as (H1 & H2 & H3).
  split; [exact Hc|]. split; [reflexivity|]. split; [reflexivity|].
  split; [exact H1|]. split; [exact H2|exact H3].
Defined.

Lemma getPending_drops_after_grace_witness :
  JsObj.wfb (pendingUnblocks blockedAndPending) = true
  /\ exists (r : JsObj.t PendingUnblock) (w' : World),
       @getPending hostAtElevenFive blockedAndPending = (Return r, w')
       /\ JsObj.get r "example.com" = None
       /\ pendingUnblocks w' = r.
Proof.
  split; [reflexivity|].
  destruct (@getPending_drops_after_grace hostAtElevenFive blockedAndPending
              eq_refl) as (r & w' & Hrun & Hiff & _ & Hw & _).
  exists r, w'. split; [exact Hrun|]. split; [|exact Hw].
  destruct (JsObj.get r "example.com") as [p|] eqn:E; [|reflexivity].
  exfalso. apply Hiff in E as [E1 E2]. vm_compute in E1.
  injection E1 as <-. vm_compute in E2. discriminate E2.
Defined.

Lemma cleanupDailyAttempts_keeps_today_witness :
  JsObj.wfb (dailyAttempts staleAttempts) = true
  /\ exists w' : World,
       @cleanupDailyAttempts hostAtTen staleAttempts = (Return tt, w')
       /\ JsObj.get (dailyAttempts w') "example.com_1970-01-01" = Some 2
       /\ JsObj.get (dailyAttempts w') "example.com_1969-12-31" = None.
Proof.
  split; [reflexivity|].
  destruct (@cleanupDailyAttempts_keeps_today hostAtTen staleAttempts eq_refl)
    as (w' & Hrun & Hget & _).
  exists w'. split; [exact Hrun|].
  rewrite (Hget "example.com_1970-01-01"), (Hget "example.com_1969-12-31").
  split; vm_compute; reflexivity.
Defined.


Lemma isBlocked_iff_unexpired_parent_witness :
  @cleanDomainOf hostAtTen "https://mail.example.com/inbox"
  = Some "mail.example.com"
  /\ JsObj.wfb (activeBlocks longBlocked) = true
  /\ fst (@isBlocked hostAtTen "https://mail.example.com/inbox" longBlocked)
     = Return true
  /\ fst (@isBlocked hostAtElevenFive "https://mail.example.com/inbox"
                     shortBlocked)
     <> Return true.
Proof.
  assert (@cleanDomainOf hostAtTen "https://mail.example.com/inbox"
          = Some "mail.example.com") as Hc by (vm_compute; reflexivity).
  assert (@cleanDomainOf hostAtElevenFive "https://mail.example.com/inbox"
          = Some "mail.example.com") as Hc' by (vm_compute; reflexivity).
  split; [exact Hc|]. split; [reflexivity|]. split.
  - apply (@isBlocked_iff_unexpired_parent hostAtTen longBlocked
             "https://mail.example.com/inbox" "mail.example.com" Hc eq_refl).
    right. exists "example.com", longManualBlock. split; [reflexivity|].
    split; [vm_compute; reflexivity|reflexivity].
  - intros H.
    apply (@isBlocked_iff_unexpired_parent hostAtElevenFive shortBlocked
             "https://mail.example.com/inbox" "mail.example.com" Hc' eq_refl)
      in H as [Hin|(k & e & Hget & Hlt & _)];
      [vm_compute in Hin; discriminate Hin|].
    cbn [activeBlocks shortBlocked JsObj.get] in Hget.
    destruct (String.eqb "example.com" k); [|discriminate Hget].
    injection Hget as <-. vm_compute in Hlt. discriminate Hlt.
Defined.

Lemma getBlockInfo_agrees_with_isBlocked_witness :
  fst (@isBlocked hostAtTen "mail.example.com" longBlocked) = Return true
  /\ exists bi e,
       fst (@getBlockInfo hostAtTen "mail.example.com" longBlocked)
       = Return (Some bi)
       /\ info_entry bi = Some e
       /\ @clock hostAtTen (reads longBlocked) < until e.
Proof.
  assert (fst (@isBlocked hostAtTen "mail.example.com" longBlocked)
          = Return true) as Hb by (vm_compute; reflexivity).
  assert (@cleanDomainOf hostAtTen "mail.example.com"
          = Some "mail.example.com") as Hc by (vm_compute; reflexivity).
  split; [exact Hb|].
  destruct (@getBlockInfo_agrees_with_isBlocked hostAtTen longBlocked
              "mail.example.com") as (H1 & _ & H3).
  destruct (proj1 H1 Hb) as [bi Hbi]. exists bi.
  destruct (H3 bi Hbi) as (c & Hc' & Hentry).
  rewrite Hc in Hc'. injection Hc' as <-.
  destruct (info_entry bi) as [e|].
  - exists e. split; [exact Hbi|]. split; [reflexivity|exact (proj1 Hentry)].
  - destruct Hentry as [_ Hin]. vm_compute in Hin. discriminate Hin.
Defined.

Lemma add_stores_one_entry_witness :
  exists w' : World,
    @add hostAtTen "https://www.Example.com/" (JsInt 30) BLOCK_REASONS.MANUAL
         emptyWorld
    = (Return "example.com", w')
    /\ JsObj.get (activeBlocks w') "example.com"
       = Some {| until := 36000000 + 30 * 60 * 1000;
                 blockedAt := 36000000;
                 reason := BLOCK_REASONS.MANUAL |}
    /\ totalBlocksCreated w' = 1
    /\ writes w' = ["stats"; "activeBlocks"].
Proof.
  assert (@add hostAtTen "https://www.Example.com/" (JsInt 30)
               BLOCK_REASONS.MANUAL emptyWorld
          = (Return "example.com",
             snd (@add hostAtTen "https://www.Example.com/" (JsInt 30)
                       BLOCK_REASONS.MANUAL emptyWorld)))
    as Hadd by (vm_compute; reflexivity).
  destruct (@add_stores_one_entry hostAtTen emptyWorld _
              "https://www.Example.com/" BLOCK_REASONS.MANUAL "example.com"
              (JsInt 30) Hadd)
    as (_ & (m & Hm & _ & Hget) & _ & _ & Htotal & _ & _ & Hwrites).
  eexists. split; [exact Hadd|].
  assert (m = 30) as -> by (vm_compute in Hm; congruence).
  split; [exact Hget|]. split; [exact Htotal|exact Hwrites].
Defined.

Lemma add_failure_changes_nothing_witness :
  exists (e : FocusGuardError) (w' : World),
    @add hostAtTen "example.com" (JsInt 481) BLOCK_REASONS.MANUAL longBlocked
    = (Throw e, w')
    /\ w' = longBlocked
    /\ code e = DURATION_TOO_LONG.
Proof.
  assert (@add hostAtTen "example.com" (JsInt 481) BLOCK_REASONS.MANUAL
               longBlocked
          = (Throw (mkError DURATION_TOO_LONG None),
             snd (@add hostAtTen "example.com" (JsInt 481)
                       BLOCK_REASONS.MANUAL longBlocked)))
    as Hadd by (vm_compute; reflexivity).
  destruct (@add_failure_changes_nothing hostAtTen longBlocked
              "example.com" BLOCK_REASONS.MANUAL (JsInt 481))
    as (_ & _ & H3).
  destruct (H3 _ _ Hadd (or_intror (or_intror (or_intror
                           (or_introl eq_refl)))))
    as (Hw & _ & _).
  eexists _, _. split; [exact Hadd|]. split; [exact Hw|reflexivity].
Defined.

Lemma add_then_remove_restores_witness :
  JsObj.get (activeBlocks emptyWorld) "example.com" = None
  /\ exists w1 w2 : World,
       @add hostAtTen "example.com" (JsInt 30) BLOCK_REASONS.MANUAL emptyWorld
       = (Return "example.com", w1)
       /\ @remove hostAtTen "example.com" w1 = (Return "example.com", w2)
       /\ activeBlocks w2 = activeBlocks emptyWorld
       /\ totalBlocksCreated w2 = 1.
Proof.
  assert (@add hostAtTen "example.com" (JsInt 30) BLOCK_REASONS.MANUAL
               emptyWorld
          = (Return "example.com",
             snd (@add hostAtTen "example.com" (JsInt 30)
                       BLOCK_REASONS.MANUAL emptyWorld)))
    as Hadd by (vm_compute; reflexivity).
  split; [reflexivity|].
  destruct (@add_then_remove_restores hostAtTen emptyWorld _ "example.com"
              BLOCK_REASONS.MANUAL "example.com" (JsInt 30) Hadd eq_refl)
    as (w2 & H1 & H2 & H3).
  eexists _, w2. split; [exact Hadd|]. split; [exact H1|].
  split; [exact H2|exact H3].
Defined.

Lemma add_then_isBlocked_witness :
  JsObj.wfb (activeBlocks emptyWorld) = true
  /\ @cleanDomainOf hostAtTen "https://mail.example.com/inbox"
     = Some "mail.example.com"
  /\ domainMatches "mail.example.com" "example.com" = true
  /\ exists w1 : World,
       @add hostAtTen "example.com" (JsInt 30) BLOCK_REASONS.MANUAL emptyWorld
       = (Return "example.com", w1)
       /\ fst (@isBlocked hostAtTen "https://mail.example.com/inbox" w1)
          = Return true
       /\ fst (@isBlocked hostAtTen "example.com" w1) = Return true.
Proof.
  assert (@add hostAtTen "example.com" (JsInt 30) BLOCK_REASONS.MANUAL
               emptyWorld
          = (Return "example.com",
             snd (@add hostAtTen "example.com" (JsInt 30)
                       BLOCK_REASONS.MANUAL emptyWorld)))
    as Hadd by (vm_compute; reflexivity).
  assert (@cleanDomainOf hostAtTen "https://mail.example.com/inbox"
          = Some "mail.example.com") as Hc by (vm_compute; reflexivity).
  split; [reflexivity|]. split; [exact Hc|]. split; [reflexivity|].
  assert (forall e,
            JsObj.get
              (activeBlocks
                 (snd (@add hostAtTen "example.com" (JsInt 30)
                            BLOCK_REASONS.MANUAL emptyWorld)))
              "example.com" = Some e ->
            @clock hostAtTen
              (reads (snd (@add hostAtTen "example.com" (JsInt 30)
                                BLOCK_REASONS.MANUAL emptyWorld)))
            < until e) as Hlt.
  { intros e He. vm_compute in He. injection He as <-.
    vm_compute. reflexivity. }
  destruct (@add_then_isBlocked hostAtTen emptyWorld _ "example.com"
              BLOCK_REASONS.MANUAL "example.com" (JsInt 30)
              "https://mail.example.com/inbox" "mail.example.com"
              Hadd eq_refl Hc eq_refl Hlt) as (H1 & H2).
  eexists. split; [exact Hadd|]. split; [exact H1|exact H2].
Defined.

Lemma isBlockableUrl_prefixes_witness :
  In (JsString.toLowerCase "Chrome://") unblockablePrefixes
  /\ isBlockableUrl "Chrome://settings" = false
  /\ isBlockableUrl "https://example.com/" = true.
Proof.
  assert (In (JsString.toLowerCase "Chrome://") unblockablePrefixes) as Hin
    by (left; reflexivity).
  destruct isBlockableUrl_prefixes as (_ & H2 & H3).
  split; [exact Hin|]. split.
  - exact (H2 "Chrome://" "settings" Hin).
  - exact (proj2 (H3 "example.com/")).
Defined.

Lemma clean_domains_match_exactly_witness :
  @cleanDomainOf hostAtTen "HTTPS://Mail.Example.COM/inbox"
  = Some "mail.example.com"
  /\ @cleanDomainOf hostAtTen "www.example.com" = Some "example.com"
  /\ JsString.isLowerCase "example.com"
  /\ domainMatches "mail.example.com" "example.com" = true.
Proof.
  assert (@cleanDomainOf hostAtTen "HTTPS://Mail.Example.COM/inbox"
          = Some "mail.example.com") as Hc' by (vm_compute; reflexivity).
  assert (@cleanDomainOf hostAtTen "www.example.com" = Some "example.com")
    as Hc by (vm_compute; reflexivity).
  destruct (@clean_domains_match_exactly hostAtTen
              "HTTPS://Mail.Example.COM/inbox" "www.example.com"
              "mail.example.com" "example.com" Hc' Hc) as (_ & H2 & H3).
  split; [exact Hc'|]. split; [exact Hc|]. split; [exact H2|].
  apply H3. right. now exists "mail".
Defined.

Lemma validateBlockableUrl_internal_pages_witness :
  In (JsString.toLowerCase "ABOUT:") unblockablePrefixes
  /\ @validateBlockableUrl hostAtTen "ABOUT:blank" = Invalid NOT_BLOCKABLE
  /\ @validateBlockableUrl hostAtTen "https://www.example.com/watch"
     = Valid "example.com"
  /\ isBlockableUrl "https://www.example.com/watch" = true.
Proof.
  assert (In (JsString.toLowerCase "ABOUT:") unblockablePrefixes) as Hin
    by (right; right; left; reflexivity).
  assert (@validateBlockableUrl hostAtTen "https://www.example.com/watch"
          = Valid "example.com") as Hv by (vm_compute; reflexivity).
  destruct (@validateBlockableUrl_internal_pages hostAtTen) as (H1 & H2).
  split; [exact Hin|]. split; [exact (H1 "ABOUT:" "blank" Hin)|].
  split; [exact Hv|]. exact (proj1 (H2 _ _ Hv)).
Defined.

Lemma validateTimeFormat_minutes_witness :
  validateTimeFormat "9:30" = Valid "9:30"
  /\ exists m : Z,
       timeToMinutes "9:30" = Some m
       /\ parseTimeToMinutes "9:30" = m
       /\ 0 <= m < 1440.
Proof.
  split; [reflexivity|].
  exact (proj2 (validateTimeFormat_minutes "9:30" "9:30" eq_refl)).
Defined.

Lemma validateSchedule_valid_witness :
  @validateSchedule hostAtTen officeHoursInput = ([], officeHoursClean)
  /\ Forall2 (fun domain clean => @validateDomain hostAtTen domain = Valid clean)
             (f_domains officeHoursInput) (f_domains officeHoursClean)
  /\ f_days officeHoursClean = filter isWeekDay (f_days officeHoursInput)
  /\ parseTimeToMinutes (f_startTime officeHoursClean)
     < parseTimeToMinutes (f_endTime officeHoursClean).
Proof.
  assert (@validateSchedule hostAtTen officeHoursInput
          = ([], officeHoursClean)) as Hv by (vm_compute; reflexivity).
  destruct (@validateSchedule_valid hostAtTen officeHoursInput
              officeHoursClean Hv)
    as (_ & H2 & H3 & _ & _ & _ & _ & H8 & _).
  split; [exact Hv|]. split; [exact H2|]. split; [exact H3|].
  exact (proj2 H8).
Defined.

Lemma window_open_has_time_left_witness :
  fst (@isInTimeWindow hostAtTen "09:00" "17:00" emptyWorld) = Return true
  /\ (exists r,
        fst (@minutesUntilEndTime hostAtTen "17:00" longBlocked) = Return r
        /\ 0 < r <= parseTimeToMinutes "17:00" - parseTimeToMinutes "09:00")
  /\ fst (@isInTimeWindow hostAtTen "22:00" "06:00" emptyWorld)
     = Return false.
Proof.
  assert (fst (@isInTimeWindow hostAtTen "09:00" "17:00" emptyWorld)
          = Return true) as Hin by (vm_compute; reflexivity).
  split; [exact Hin|]. split.
  - exact (proj1 (@window_open_has_time_left hostAtTen emptyWorld longBlocked
                    "09:00" "17:00") eq_refl Hin).
  - apply (proj2 (proj2 (@window_open_has_time_left hostAtTen emptyWorld
                           emptyWorld "22:00" "06:00"))).
    apply Z.leb_le. vm_compute. reflexivity.
Defined.

Lemma schedule_delete_removes_witness :
  NoDup (map id (schedules twoSchedules))
  /\ fst (@ScheduleManager.delete hostAtTen "sch_1" twoSchedules)
     = Return "sch_1"
  /\ fst (ScheduleManager.get "sch_1"
            (snd (@ScheduleManager.delete hostAtTen "sch_1" twoSchedules)))
     = Return None
  /\ fst (ScheduleManager.get "sch_2"
            (snd (@ScheduleManager.delete hostAtTen "sch_1" twoSchedules)))
     = Return (Some nightOwl).
Proof.
  assert (NoDup (map id (schedules twoSchedules))) as Hnd.
  { cbn. constructor; [intros [H|[]]; discriminate H|].
    constructor; [intros []|constructor]. }
  destruct (@schedule_delete_removes hostAtTen twoSchedules "sch_1")
    as (H1 & _ & _ & H4 & H5 & _).
  split; [exact Hnd|]. split; [exact H1|]. split; [exact (H5 Hnd)|].
  rewrite (H4 "sch_2"); [reflexivity|discriminate].
Defined.

Lemma schedule_toggle_sets_flag_witness :
  "sch_2" <> "sch_1"
  /\ fst (@ScheduleManager.toggle hostAtTen "sch_1" false twoSchedules)
     = Return ("sch_1", false)
  /\ fst (ScheduleManager.get "sch_2"
            (snd (@ScheduleManager.toggle hostAtTen "sch_1" false
                    twoSchedules)))
     = Return (Some nightOwl)
  /\ fst (@ScheduleManager.toggle hostAtTen "sch_9" true twoSchedules)
     = Throw (mkError INVALID_SCHEDULE None).
Proof.
  assert ("sch_2" <> "sch_1") as Hne by discriminate.
  destruct (@schedule_toggle_sets_flag hostAtTen twoSchedules "sch_1" false)
    as (H1 & _ & H3 & _).
  destruct (@schedule_toggle_sets_flag hostAtTen twoSchedules "sch_9" true)
    as (H1' & _).
  split; [exact Hne|]. split; [exact H1|].
  split; [rewrite (H3 "sch_2" Hne); reflexivity|exact H1'].
Defined.


Lemma getActive_selects_open_windows_witness :
  (forall i, @currentMinutes hostAtTen (@clock hostAtTen i) = 600)
  /\ fst (@ScheduleManager.getActive hostAtTen twoSchedules)
     = Return [workHours].
Proof.
  assert (forall i, @currentMinutes hostAtTen (@clock hostAtTen i) = 600) as Hmin
    by (intros i; vm_compute; reflexivity).
  split; [exact Hmin|].
  destruct (@getActive_selects_open_windows hostAtTen twoSchedules)
    as (r & s' & Hrun & _ & _ & _ & _ & Hex).
  rewrite Hrun. cbn [fst]. f_equal. rewrite (Hex 600 Hmin).
  vm_compute. reflexivity.
Defined.

Lemma recordBlockedAttempt_counts_witness :
  JsObj.lookup (siteAttempts threeDayStreak) "example.com"
  <> JsObj.Inherited
  /\ fst (@StatsManager.getTodayCount hostAtTen threeDayStreak) = Return 0
  /\ fst (@StatsManager.getTodayCount hostAtTen
            (snd (@StatsManager.recordBlockedAttempt hostAtTen
                    "https://www.Example.com/x" threeDayStreak)))
     = Return 1
  /\ JsObj.get
       (siteAttempts
          (snd (@StatsManager.recordBlockedAttempt hostAtTen
                  "https://www.Example.com/x" threeDayStreak)))
       "example.com"
     = Some 8.
Proof.
  assert (JsObj.lookup (siteAttempts threeDayStreak) "example.com"
          <> JsObj.Inherited) as Hown by (vm_compute; discriminate).
  destruct (@recordBlockedAttempt_counts hostAtTen threeDayStreak
              "https://www.Example.com/x" Hown)
    as (_ & _ & Hsite & _ & _ & _ & _ & _ & _ & Hday).
  destruct (Hday eq_refl) as [H1 H2].
  split; [exact Hown|]. split; [exact H1|]. split; [exact H2|exact Hsite].
Defined.

Lemma getStreak_counts_days_in_a_row_witness :
  (forall i, (1 <= i <= 3)%nat ->
     StatsManager.hasAttempts (blockedAttempts threeDayStreak)
       (@StatsManager.dayKey hostAtTen plainCalendar
          (@clock hostAtTen (reads (world threeDayStreak))) (Z.of_nat i))
     = true)
  /\ fst (@StatsManager.getStreak hostAtTen plainCalendar threeDayStreak)
     = Return 3.
Proof.
  assert (forall i, (1 <= i <= 3)%nat ->
            StatsManager.hasAttempts (blockedAttempts threeDayStreak)
              (@StatsManager.dayKey hostAtTen plainCalendar
                 (@clock hostAtTen (reads (world threeDayStreak)))
                 (Z.of_nat i))
            = true) as Hrun.
  { intros i Hi.
    assert (i = 1 \/ i = 2 \/ i = 3)%nat as [->|[->| ->]] by lia;
      vm_compute; reflexivity. }
  assert (StatsManager.hasAttempts (blockedAttempts threeDayStreak)
            (@StatsManager.dayKey hostAtTen plainCalendar
               (@clock hostAtTen (reads (world threeDayStreak)))
               (Z.of_nat 4))
          = false) as Hstop by (vm_compute; reflexivity).
  split; [exact Hrun|].
  exact (proj2 (@getStreak_counts_days_in_a_row hostAtTen plainCalendar
                  threeDayStreak 3)
           Hrun
           (or_intror (conj (proj1 (Nat.ltb_lt 3 364) eq_refl) Hstop))).
Defined.

Lemma recorded_attempt_counts_once_in_week_witness :
  fst (@StatsManager.getWeekCount hostAtTen plainCalendar threeDayStreak)
  = Return 7
  /\ fst (@StatsManager.getWeekCount hostAtTen plainCalendar
            (snd (@StatsManager.recordBlockedAttempt hostAtTen
                    "example.com" threeDayStreak)))
     = Return 8.
Proof.
  split; [vm_compute; reflexivity|].
  rewrite (@recorded_attempt_counts_once_in_week hostAtTen plainCalendar
             threeDayStreak "example.com").
  - vm_compute. reflexivity.
  - vm_compute. reflexivity.
  - intros i Hi.
    assert (i = 1 \/ i = 2 \/ i = 3 \/ i = 4 \/ i = 5 \/ i = 6)
      as [->|[->|[->|[->|[->| ->]]]]] by lia;
      vm_compute; discriminate.
Defined.

Lemma cleanup_keeps_recent_dates_witness :
  JsObj.wfb (blockedAttempts threeDayStreak) = true
  /\ JsObj.get
       (blockedAttempts
          (snd (@StatsManager.cleanup hostAtTen plainCalendar threeDayStreak)))
       "1969-12-31" = Some 2
  /\ JsObj.get
       (blockedAttempts
          (snd (@StatsManager.cleanup hostAtTen plainCalendar threeDayStreak)))
       "1969-11-01" = None.
Proof.
  split; [reflexivity|].
  destruct (@cleanup_keeps_recent_dates hostAtTen plainCalendar
              threeDayStreak eq_refl) as (_ & Hget & _).
  rewrite (Hget "1969-12-31"), (Hget "1969-11-01").
  split; vm_compute; reflexivity.
Defined.

End OnMoreSamples.

Section OnLockSamples.

Import Locking Samples LockSamples.



End OnLockSamples.
